(** * ToGoalBackend: record store, entity services and chat registry

    A shallow embedding of [main.py]: the JSON record store
    ([load_data], [save_data]), the request handlers of the Project, User,
    Task and ParticipationForm resources, and the [ConnectionManager] with
    the websocket endpoint that drives it.

    Python values are the values the store can hold, exceptions are data,
    and every handler is a program over an explicit state (the files on
    disk, or the connection registry with the output the process emits)
    that either returns a value or raises. *)

From stdpp Require Import gmap strings list fin_maps pretty.

#[local] Set Warnings "-register-all".
#[local] Open Scope Z_scope.

(* ===================================================================== *)
(** * Python values *)
(* ===================================================================== *)

(** What [json.load] yields and [json.dump] accepts: [None], booleans,
    integers, strings, lists and string-keyed dicts.  Floating-point
    numbers are left out: no handler produces one. *)
Inductive json :=
  | JNull
  | JBool (b : bool)
  | JInt (n : Z)
  | JStr (s : string)
  | JList (l : list json)
  | JDict (d : gmap string json).

(** The exceptions that the modelled code meets. *)
Inductive exn :=
  | FileNotFoundError
  | JSONDecodeError
  | KeyError (key : string)
  | TypeError
  | AttributeError
  | WebSocketDisconnect
  | HTTPException (status_code : Z) (detail : string).

(** Outcome of evaluating an expression: a value or a raised exception. *)
Inductive result (A : Type) :=
  | Return (a : A)
  | Raise (e : exn).
Arguments Return {A} a.
Arguments Raise {A} e.

#[export] Instance result_ret : MRet result := @Return.
#[export] Instance result_bind : MBind result := fun A B f r =>
  match r with
  | Return a => f a
  | Raise e => Raise e
  end.

(** [v[key]]: only a dict can be subscripted by a string. *)
Definition subscript (v : json) (key : string) : result json :=
  match v with
  | JDict d =>
      match d !! key with
      | Some x => Return x
      | None => Raise (KeyError key)
      end
  | _ => Raise TypeError
  end.

(** [a == b].  A boolean equals the integer it stands for; values of
    different kinds are otherwise unequal; lists and dicts compare
    componentwise. *)
Fixpoint py_eq (a b : json) {struct a} : bool :=
  match a, b with
  | JNull, JNull => true
  | JBool x, JBool y => Z.b2z x =? Z.b2z y
  | JBool x, JInt y => Z.b2z x =? y
  | JInt x, JBool y => x =? Z.b2z y
  | JInt x, JInt y => x =? y
  | JStr x, JStr y => bool_decide (x = y)
  | JList x, JList y =>
      (fix go (x y : list json) {struct x} : bool :=
         match x, y with
         | [], [] => true
         | u :: x', v :: y' => py_eq u v && go x' y'
         | _, _ => false
         end) x y
  | JDict x, JDict y =>
      bool_decide (dom x = dom y) &&
      map_fold (fun k u acc =>
                  acc && match y !! k with
                         | Some v => py_eq u v
                         | None => false
                         end) true x
  | _, _ => false
  end.

(** [a > b].  Numbers compare as integers, strings and lists
    lexicographically; any other pairing is a [TypeError]. *)
Fixpoint py_gt (a b : json) {struct a} : result bool :=
  match a, b with
  | JBool x, JBool y => Return (Z.b2z y <? Z.b2z x)
  | JBool x, JInt y => Return (y <? Z.b2z x)
  | JInt x, JBool y => Return (Z.b2z y <? x)
  | JInt x, JInt y => Return (y <? x)
  | JStr x, JStr y => Return (String.ltb y x)
  | JList x, JList y =>
      (fix go (x y : list json) {struct x} : result bool :=
         match x, y with
         | [], _ => Return false
         | _ :: _, [] => Return true
         | u :: x', v :: y' => if py_eq u v then go x' y' else py_gt u v
         end) x y
  | _, _ => Raise TypeError
  end.

(** [v + 1]. *)
Definition py_succ (v : json) : result Z :=
  match v with
  | JInt n => Return (n + 1)
  | JBool b => Return (Z.b2z b + 1)
  | _ => Raise TypeError
  end.

(** [max(r["id"] for r in records)] once a first item is in hand: the
    generator yields the ids one at a time and [max] keeps the running
    maximum, replacing it only by a strictly greater item. *)
Fixpoint max_id_from (maxitem : json) (records : list json) : result json :=
  match records with
  | [] => Return maxitem
  | r :: rest =>
      item ← subscript r "id";
      gt ← py_gt item maxitem;
      max_id_from (if gt : bool then item else maxitem) rest
  end.

(** [1 if not records else max(r["id"] for r in records) + 1]. *)
Definition next_id (records : list json) : result Z :=
  match records with
  | [] => Return 1
  | r :: rest =>
      first ← subscript r "id";
      m ← max_id_from first rest;
      py_succ m
  end.

(** [d.update(other)] on the object [v]: the keys of [other] overwrite. *)
Definition dict_update (v : json) (other : gmap string json) : result json :=
  match v with
  | JDict d => Return (JDict (other ∪ d))
  | _ => Raise AttributeError
  end.

(** [[r for r in records if keep(r)]] with a test that may raise. *)
Fixpoint comprehension (keep : json → result bool) (records : list json)
  : result (list json) :=
  match records with
  | [] => Return []
  | r :: rest =>
      b ← keep r;
      kept ← comprehension keep rest;
      Return (if b : bool then r :: kept else kept)
  end.

(** [for r in records: if test(r): ...]: the records passed over, the first
    record that satisfies the test, and the records after it. *)
Fixpoint first_match (test : json → result bool) (seen records : list json)
  : result (option (list json * json * list json)) :=
  match records with
  | [] => Return None
  | r :: rest =>
      b ← test r;
      if b : bool then Return (Some (seen, r, rest))
      else first_match test (seen ++ [r]) rest
  end.

(* ===================================================================== *)
(** * Programs: state and exceptions *)
(* ===================================================================== *)

(** A program over a state [S] returns or raises, and leaves a state
    behind either way: what was written before an exception stays
    written. *)
Definition prog (S A : Type) : Type := S → result A * S.

Definition ret {S A} (a : A) : prog S A := fun s => (Return a, s).
Definition raise {S A} (e : exn) : prog S A := fun s => (Raise e, s).
Definition lift {S A} (r : result A) : prog S A := fun s => (r, s).

Definition bind {S A B} (m : prog S A) (k : A → prog S B) : prog S B :=
  fun s =>
    match m s with
    | (Return a, s') => k a s'
    | (Raise e, s') => (Raise e, s')
    end.

(** [try: body / except ...: handler]: [handler e] is [None] for an
    exception that no [except] clause names. *)
Definition try_except {S A} (body : prog S A) (handler : exn → option (prog S A))
  : prog S A :=
  fun s =>
    match body s with
    | (Return a, s') => (Return a, s')
    | (Raise e, s') =>
        match handler e with
        | Some h => h s'
        | None => (Raise e, s')
        end
    end.

Declare Scope prog_scope.
Delimit Scope prog_scope with prog.
Notation "x <- m ;; k" := (bind m (fun x => k))
  (at level 100, m at next level, right associativity) : prog_scope.
Notation "m ;; k" := (bind m (fun _ => k))
  (at level 100, right associativity) : prog_scope.
#[local] Open Scope prog_scope.

(* ===================================================================== *)
(** * Record store *)
(* ===================================================================== *)

(** A file holds a JSON document, kept in decoded form ([json.dump]
    followed by [json.load] gives the value back), or text that
    [json.load] rejects. *)
Inductive file :=
  | Document (data : json)
  | Garbled (text : string).

Abbreviation filesystem := (gmap string file).

Definition PROJECTS_DB_FILE : string := "projects.json".
Definition USERS_DB_FILE : string := "users.json".
Definition TASKS_DB_FILE : string := "tasks.json".
Definition FORMS_DB_FILE : string := "forms.json".

(** [open(file_path, "r")]. *)
Definition open_read (file_path : string) : prog filesystem file :=
  fun fs =>
    match fs !! file_path with
    | Some f => (Return f, fs)
    | None => (Raise FileNotFoundError, fs)
    end.

(** [json.load(file)]. *)
Definition json_load (f : file) : result json :=
  match f with
  | Document data => Return data
  | Garbled _ => Raise JSONDecodeError
  end.

Definition load_data (file_path : string) : prog filesystem (list json) :=
  try_except
    (f <- open_read file_path ;;
     data <- lift (json_load f) ;;
     match data with
     | JList l => ret l
     | _ => ret []
     end)
    (fun e =>
       match e with
       | FileNotFoundError => Some (ret [])
       | _ => None
       end).

Definition save_data (file_path : string) (data : list json)
  : prog filesystem unit :=
  fun fs => (Return tt, <[file_path := Document (JList data)]> fs).

(* ===================================================================== *)
(** * Request models *)
(* ===================================================================== *)

(** Each pydantic model with its [dict()]: every declared field is a key
    of the resulting dict, and an optional field left out is [None]. *)

Definition optional {A} (inj : A → json) (o : option A) : json :=
  match o with
  | Some a => inj a
  | None => JNull
  end.

Module Project.
Record t := {
  id : option Z;
  name : string;
  description : string;
  podrazdelenie : string;
  date : string;
  skills : option (list Z)
}.

Definition dict (p : t) : gmap string json :=
  <["id" := optional JInt (id p)]>
  (<["name" := JStr (name p)]>
  (<["description" := JStr (description p)]>
  (<["podrazdelenie" := JStr (podrazdelenie p)]>
  (<["date" := JStr (date p)]>
  (<["skills" := optional (fun l => JList (JInt <$> l)) (skills p)]> ∅))))).
End Project.

Module User.
Record t := {
  id : option Z;
  first_name : string;
  last_name : string;
  password : string
}.

Definition dict (u : t) : gmap string json :=
  <["id" := optional JInt (id u)]>
  (<["first_name" := JStr (first_name u)]>
  (<["last_name" := JStr (last_name u)]>
  (<["password" := JStr (password u)]> ∅))).
End User.

Module Task.
Record t := {
  id : option Z;
  project_id : Z;
  name : string;
  description : string;
  date : string;
  status : string
}.

Definition dict (k : t) : gmap string json :=
  <["id" := optional JInt (id k)]>
  (<["project_id" := JInt (project_id k)]>
  (<["name" := JStr (name k)]>
  (<["description" := JStr (description k)]>
  (<["date" := JStr (date k)]>
  (<["status" := JStr (status k)]> ∅))))).
End Task.

Module ParticipationForm.
Record t := {
  id : option Z;
  user_id : Z;
  project_id : Z;
  motivation : string;
  experience : string;
  availability : string
}.

Definition dict (f : t) : gmap string json :=
  <["id" := optional JInt (id f)]>
  (<["user_id" := JInt (user_id f)]>
  (<["project_id" := JInt (project_id f)]>
  (<["motivation" := JStr (motivation f)]>
  (<["experience" := JStr (experience f)]>
  (<["availability" := JStr (availability f)]> ∅))))).
End ParticipationForm.

(** [model.dict(exclude={...})]. *)
Definition exclude (keys : list string) (d : gmap string json)
  : gmap string json :=
  foldr delete d keys.

(* ===================================================================== *)
(** * Entity services *)
(* ===================================================================== *)

Definition not_found (detail : string) : exn := HTTPException 404 detail.

(** [r["id"] == wanted]. *)
Definition id_is (wanted : Z) (r : json) : result bool :=
  v ← subscript r "id";
  Return (py_eq v (JInt wanted)).

(** [r["id"] == task_id and r["project_id"] == project_id]; the second
    subscript is evaluated only when the first comparison holds. *)
Definition task_is (project_id task_id : Z) (r : json) : result bool :=
  v ← subscript r "id";
  if py_eq v (JInt task_id) then
    w ← subscript r "project_id";
    Return (py_eq w (JInt project_id))
  else Return false.

(** [r["user_id"] == user_id and r["project_id"] == project_id]. *)
Definition form_is (user_id project_id : Z) (r : json) : result bool :=
  v ← subscript r "user_id";
  if py_eq v (JInt user_id) then
    w ← subscript r "project_id";
    Return (py_eq w (JInt project_id))
  else Return false.

Definition negate (test : json → result bool) (r : json) : result bool :=
  b ← test r;
  Return (negb b).

(** ** Projects *)

Definition create_project (project : Project.t) : prog filesystem json :=
  projects <- load_data PROJECTS_DB_FILE ;;
  new_id <- lift (next_id projects) ;;
  let new_project := JDict (<["id" := JInt new_id]> (Project.dict project)) in
  let projects := projects ++ [new_project] in
  save_data PROJECTS_DB_FILE projects ;;
  ret new_project.

Definition update_project (project_id : Z) (updated_project : Project.t)
  : prog filesystem json :=
  projects <- load_data PROJECTS_DB_FILE ;;
  found <- lift (first_match (id_is project_id) [] projects) ;;
  match found with
  | Some (before, project, after) =>
      let updated_project_dict := exclude ["id"] (Project.dict updated_project) in
      project <- lift (dict_update project updated_project_dict) ;;
      save_data PROJECTS_DB_FILE (before ++ project :: after) ;;
      ret project
  | None => raise (not_found "Project not found")
  end.

Definition delete_project (project_id : Z) : prog filesystem json :=
  projects <- load_data PROJECTS_DB_FILE ;;
  let initial_length := length projects in
  projects <- lift (comprehension (negate (id_is project_id)) projects) ;;
  if decide (length projects = initial_length) then
    raise (not_found "Project not found")
  else
    save_data PROJECTS_DB_FILE projects ;;
    ret (JDict {["detail" := JStr "Project deleted"]}).

(** ** Users *)

Definition register_user (user : User.t) : prog filesystem json :=
  users <- load_data USERS_DB_FILE ;;
  new_id <- lift (next_id users) ;;
  let new_user := JDict (<["id" := JInt new_id]> (User.dict user)) in
  let users := users ++ [new_user] in
  save_data USERS_DB_FILE users ;;
  ret new_user.

(** ** Tasks *)

Definition update_task (project_id task_id : Z) (updated_task : Task.t)
  : prog filesystem json :=
  tasks <- load_data TASKS_DB_FILE ;;
  found <- lift (first_match (task_is project_id task_id) [] tasks) ;;
  match found with
  | Some (before, task, after) =>
      let updated_task_dict :=
        exclude ["id"; "project_id"] (Task.dict updated_task) in
      task <- lift (dict_update task updated_task_dict) ;;
      save_data TASKS_DB_FILE (before ++ task :: after) ;;
      ret task
  | None => raise (not_found "Task not found")
  end.

Definition delete_task (project_id task_id : Z) : prog filesystem json :=
  tasks <- load_data TASKS_DB_FILE ;;
  let initial_length := length tasks in
  tasks <- lift (comprehension (negate (task_is project_id task_id)) tasks) ;;
  if decide (length tasks = initial_length) then
    raise (not_found "Task not found")
  else
    save_data TASKS_DB_FILE tasks ;;
    ret (JDict {["detail" := JStr "Task deleted"]}).

(** ** Participation forms *)

Definition create_form (form : ParticipationForm.t) : prog filesystem json :=
  forms <- load_data FORMS_DB_FILE ;;
  existing <- lift (first_match
                      (form_is (ParticipationForm.user_id form)
                               (ParticipationForm.project_id form)) [] forms) ;;
  match existing with
  | Some _ =>
      raise (HTTPException 400 "Form already submitted for this project")
  | None =>
      new_id <- lift (next_id forms) ;;
      let new_form :=
        JDict (<["id" := JInt new_id]> (ParticipationForm.dict form)) in
      let forms := forms ++ [new_form] in
      save_data FORMS_DB_FILE forms ;;
      ret new_form
  end.

Definition delete_form (form_id : Z) : prog filesystem json :=
  forms <- load_data FORMS_DB_FILE ;;
  let initial_length := length forms in
  forms <- lift (comprehension (negate (id_is form_id)) forms) ;;
  if decide (length forms = initial_length) then
    raise (not_found "Form not found")
  else
    save_data FORMS_DB_FILE forms ;;
    ret (JDict {["detail" := JStr "Form deleted"]}).

(* ===================================================================== *)
(** * Connection registry and message router *)
(* ===================================================================== *)

(** A [WebSocket] object is known by its identity. *)
Abbreviation websocket := positive.

(** What the process does to the outside: it accepts a connection
    handshake, writes a text frame to a channel, or prints a line. *)
Inductive event :=
  | Accept (ws : websocket)
  | SendText (ws : websocket) (text : string)
  | Print (line : string).

Module ConnectionManager.
(** The manager object, together with the events emitted so far. *)
Record t := {
  active_connections : gmap Z websocket;
  emitted : list event
}.

(** [ConnectionManager()]. *)
Definition init : t := {| active_connections := ∅; emitted := [] |}.

Definition emit (e : event) : prog t unit :=
  fun m =>
    (Return tt,
     {| active_connections := active_connections m;
        emitted := emitted m ++ [e] |}).

(** [self.active_connections.get(user_id)], as the [in] test followed by
    the subscript reads it. *)
Definition lookup (user_id : Z) : prog t (option websocket) :=
  fun m => (Return (active_connections m !! user_id), m).

Definition update_connections (f : gmap Z websocket → gmap Z websocket)
  : prog t unit :=
  fun m =>
    (Return tt,
     {| active_connections := f (active_connections m);
        emitted := emitted m |}).

Definition connect (ws : websocket) (user_id : Z) : prog t unit :=
  emit (Accept ws) ;;
  update_connections (insert user_id ws) ;;
  emit (Print ("User " +:+ pretty user_id +:+ " connected.")).

Definition disconnect (user_id : Z) : prog t unit :=
  present <- lookup user_id ;;
  match present with
  | Some _ =>
      update_connections (delete user_id) ;;
      emit (Print ("User " +:+ pretty user_id +:+ " disconnected."))
  | None => ret tt
  end.

Definition send_message (sender_id receiver_id : Z) (message : string)
  : prog t unit :=
  present <- lookup receiver_id ;;
  match present with
  | Some ws =>
      emit (SendText ws message) ;;
      emit (Print ("Message sent from " +:+ pretty sender_id +:+ " to "
                   +:+ pretty receiver_id +:+ ": " +:+ message))
  | None => ret tt
  end.
End ConnectionManager.

(** What [receive_text] hands to the endpoint, with lines 229-231 applied
    to a text frame: the frame decodes to an object with an integer
    [receiver_id] and a string [message], or decoding it or reading its
    fields raises, or the peer is gone and [receive_text] raises
    [WebSocketDisconnect]. *)
Inductive received :=
  | Message (receiver_id : Z) (message : string)
  | Malformed (e : exn)
  | Disconnected.

(** The [while True] loop over what has arrived so far on the channel;
    with nothing left to read the endpoint is suspended in
    [receive_text]. *)
Fixpoint receive_loop (user_id : Z) (inbox : list received)
  : prog ConnectionManager.t unit :=
  match inbox with
  | [] => ret tt
  | Message receiver_id message :: rest =>
      ConnectionManager.send_message user_id receiver_id message ;;
      receive_loop user_id rest
  | Malformed e :: _ => raise e
  | Disconnected :: _ => raise WebSocketDisconnect
  end.

(** Where an endpoint stands: waiting for the next frame, or returned. *)
Inductive endpoint_status := Waiting | Finished.

(** The [try ... except WebSocketDisconnect] statement of the endpoint. *)
Definition serve (user_id : Z) (inbox : list received)
  : prog ConnectionManager.t endpoint_status :=
  try_except
    (receive_loop user_id inbox ;; ret Waiting)
    (fun e =>
       match e with
       | WebSocketDisconnect =>
           Some (ConnectionManager.disconnect user_id ;; ret Finished)
       | _ => None
       end).

Definition websocket_endpoint (ws : websocket) (user_id : Z)
    (inbox : list received) : prog ConnectionManager.t endpoint_status :=
  ConnectionManager.connect ws user_id ;;
  serve user_id inbox.

(** The text frames written to channel [ws], oldest first. *)
Definition delivered (ws : websocket) (out : list event) : list string :=
  omap (fun e =>
          match e with
          | SendText ws' text => if decide (ws' = ws) then Some text else None
          | _ => None
          end) out.

(** Running one program after another, keeping only the state. *)
Definition exec {S A} (m : prog S A) (s : S) : S := snd (m s).

(* ===================================================================== *)
(** * Collections of well-formed records *)
(* ===================================================================== *)

(** The integer under [key] of a stored record. *)
Definition int_field (key : string) (r : json) : option Z :=
  match r with
  | JDict d =>
      match d !! key with
      | Some (JInt n) => Some n
      | _ => None
      end
  | _ => None
  end.

(** The id of a stored record: a dict whose ["id"] is an integer. *)
Definition record_id (r : json) : option Z := int_field "id" r.

(** The ids of a collection, in order, when every record has one. *)
Definition record_ids (records : list json) : option (list Z) :=
  mapM record_id records.

(** [(id, project_id)] of a stored task. *)
Definition task_key (r : json) : option (Z * Z) :=
  i ← record_id r;
  p ← int_field "project_id" r;
  Some (i, p).

(** [(id, (user_id, project_id))] of a stored participation form. *)
Definition form_key (r : json) : option (Z * (Z * Z)) :=
  i ← record_id r;
  u ← int_field "user_id" r;
  p ← int_field "project_id" r;
  Some (i, (u, p)).

(** [m] is the greatest element of [ids]. *)
Definition is_max (m : Z) (ids : list Z) : Prop :=
  m ∈ ids ∧ Forall (fun i => i ≤ m) ids.

(** The collection that [load_data] reads from [file_path] in [fs]. *)
Definition stored (file_path : string) (fs : filesystem) (records : list json)
  : Prop :=
  load_data file_path fs = (Return records, fs).

(** ** Request sequences on the project collection *)

Inductive request :=
  | Create (project : Project.t)
  | Update (project_id : Z) (updated_project : Project.t)
  | Delete (project_id : Z).

Definition handle (r : request) : prog filesystem json :=
  match r with
  | Create project => create_project project
  | Update project_id updated_project => update_project project_id updated_project
  | Delete project_id => delete_project project_id
  end.

(** Requests served one after another; a request that fails with an HTTP
    error leaves whatever state it reached and the next one is served. *)
Definition serve_requests (requests : list request) (fs : filesystem)
  : filesystem :=
  foldl (fun fs r => exec (handle r) fs) fs requests.

(** The greatest of [i] and the elements of [rest]. *)
Definition greatest (i : Z) (rest : list Z) : Z := foldl Z.max i rest.

(** The id that follows the ids in use. *)
Definition fresh_id (ids : list Z) : Z :=
  match ids with
  | [] => 1
  | i :: rest => greatest i rest + 1
  end.

(** What a create handler owes on a collection [records] with ids [ids]:
    it returns the submitted [fields] under a new id, which is 1 on an empty
    collection and one more than the greatest id otherwise, and the
    collection on the medium is the old one followed by the new record. *)
Definition created (file_path : string) (fields : gmap string json)
    (fs : filesystem) (records : list json) (ids : list Z)
    (outcome : result json * filesystem) : Prop :=
  ∃ new_id,
    (ids = [] → new_id = 1)
    ∧ (ids ≠ [] → ∃ m, is_max m ids ∧ new_id = m + 1)
    ∧ outcome.1 = Return (JDict (<["id" := JInt new_id]> fields))
    ∧ stored file_path outcome.2
        (records ++ [JDict (<["id" := JInt new_id]> fields)])
    ∧ record_ids (records ++ [JDict (<["id" := JInt new_id]> fields)])
      = Some (ids ++ [new_id]).

(** Two handlers run one after the other both return records, and the two
    records carry different ids. *)
Definition distinct_ids (first second : prog filesystem json)
    (fs : filesystem) : Prop :=
  ∃ r1 r2 id1 id2 fs1 fs2,
    first fs = (Return r1, fs1) ∧ second fs1 = (Return r2, fs2)
    ∧ record_id r1 = Some id1 ∧ record_id r2 = Some id2 ∧ id1 ≠ id2.

(** What [d.update(payload)] without the [protected] keys makes of the
    record [old]: a protected key keeps what [old] has under it, any other
    key has the payload's value when the payload has one and what [old]
    has otherwise. *)
Definition merged (protected : list string) (payload old new : gmap string json)
  : Prop :=
  ∀ k, new !! k =
       if decide (k ∈ protected) then old !! k
       else match payload !! k with
            | Some v => Some v
            | None => old !! k
            end.

(** The records of a collection carry integer ids, no two the same. *)
Definition unique_ids (file_path : string) (fs : filesystem) : Prop :=
  ∃ records ids,
    stored file_path fs records ∧ record_ids records = Some ids ∧ NoDup ids.

(** ** Sample data *)

(** The project of the end-to-end example, and a second one. *)
Definition project_x : Project.t :=
  {| Project.id := None; Project.name := "X"; Project.description := "d";
     Project.podrazdelenie := "eng"; Project.date := "2024-01-01";
     Project.skills := Some [] |}.

Definition project_y : Project.t :=
  {| Project.id := Some 40; Project.name := "Y"; Project.description := "e";
     Project.podrazdelenie := "ops"; Project.date := "2024-02-02";
     Project.skills := Some [3; 3] |}.

Definition user_ann : User.t :=
  {| User.id := None; User.first_name := "Ann"; User.last_name := "Lee";
     User.password := "pw" |}.

Definition form_5_1 : ParticipationForm.t :=
  {| ParticipationForm.id := None; ParticipationForm.user_id := 5;
     ParticipationForm.project_id := 1; ParticipationForm.motivation := "m";
     ParticipationForm.experience := "x"; ParticipationForm.availability := "a" |}.

Definition form_5_2 : ParticipationForm.t :=
  {| ParticipationForm.id := Some 9; ParticipationForm.user_id := 5;
     ParticipationForm.project_id := 2; ParticipationForm.motivation := "m";
     ParticipationForm.experience := "x"; ParticipationForm.availability := "a" |}.

(** A store after one create on each collection. *)
Definition one_project : filesystem := exec (create_project project_x) ∅.
Definition one_form : filesystem := exec (create_form form_5_1) ∅.

Definition stored_project_x : json :=
  JDict (<["id" := JInt 1]> (Project.dict project_x)).
Definition stored_form_5_1 : json :=
  JDict (<["id" := JInt 1]> (ParticipationForm.dict form_5_1)).

Definition task_a : Task.t :=
  {| Task.id := None; Task.project_id := 1; Task.name := "a";
     Task.description := "d"; Task.date := "2024-03-03";
     Task.status := "open" |}.

Definition task_b : Task.t :=
  {| Task.id := Some 77; Task.project_id := 2; Task.name := "b";
     Task.description := "e"; Task.date := "2024-04-04";
     Task.status := "done" |}.

Definition stored_task_a : json :=
  JDict (<["id" := JInt 1]> (Task.dict task_a)).

Definition one_task : filesystem :=
  {[TASKS_DB_FILE := Document (JList [stored_task_a])]}.

(** The stored project and task after an update with [project_y] and
    [task_b]: the payload's fields under the stored identity. *)
Definition updated_project_x : json :=
  JDict (<["id" := JInt 1]> (Project.dict project_y)).

Definition updated_task_a : json :=
  JDict (<["id" := JInt 1]> (<["project_id" := JInt 1]> (Task.dict task_b))).

(** The requests of the end-to-end example, and some more. *)
Definition sample_requests : list request :=
  [Create project_x; Create project_y; Delete 1; Update 2 project_x;
   Update 7 project_y; Create project_x; Delete 9].

(** A store whose project document is not JSON. *)
Definition garbled_store : filesystem :=
  {[PROJECTS_DB_FILE := Garbled "{"]}.

(** The registry of the routing example: user 5 on channel 1, user 7 on
    channel 2. *)
Definition two_users : ConnectionManager.t :=
  exec (ConnectionManager.connect 1 5 ;; ConnectionManager.connect 2 7)
       ConnectionManager.init.

(* ===================================================================== *)
(** * The remaining handlers *)
(* ===================================================================== *)

Definition SKILLS_DB_FILE : string := "skills.json".

Module Skill.
Record t := {
  id : option Z;
  name : string;
  description : string
}.

Definition dict (s : t) : gmap string json :=
  <["id" := optional JInt (id s)]>
  (<["name" := JStr (name s)]>
  (<["description" := JStr (description s)]> ∅)).
End Skill.

(** ** More Python operations *)

(** [key in v] for a string [key]: a key of a dict, an element of a list,
    a substring of a string; no other value can be searched. *)
Definition py_contains (v : json) (key : string) : result bool :=
  match v with
  | JDict d => Return (bool_decide (is_Some (d !! key)))
  | JList l => Return (existsb (fun x => py_eq x (JStr key)) l)
  | JStr s =>
      Return (match String.index 0 key s with
              | Some _ => true
              | None => false
              end)
  | _ => Raise TypeError
  end.

(** [v[key] = x]: only a dict takes a string subscript. *)
Definition setitem (v : json) (key : string) (x : json) : result json :=
  match v with
  | JDict d => Return (JDict (<[key := x]> d))
  | _ => Raise TypeError
  end.

(** [v[key].extend(more)], seen from [v]: only a list has [extend], and
    it grows in place. *)
Definition extend_item (v : json) (key : string) (more : list json)
  : result json :=
  item ← subscript v key;
  match item with
  | JList l => setitem v key (JList (l ++ more))
  | _ => Raise AttributeError
  end.

(** [x in ids] for a list of integers. *)
Definition in_ints (x : json) (ids : list Z) : bool :=
  existsb (fun i => py_eq x (JInt i)) ids.

(** [r[key] == wanted] for an integer [wanted]. *)
Definition field_is (key : string) (wanted : Z) (r : json) : result bool :=
  v ← subscript r key;
  Return (py_eq v (JInt wanted)).

(** [for x in xs: body(x)], collecting what the body leaves of each [x];
    the first exception ends the loop. *)
Fixpoint for_each (body : json → result json) (xs : list json)
  : result (list json) :=
  match xs with
  | [] => Return []
  | x :: rest =>
      y ← body x;
      ys ← for_each body rest;
      Return (y :: ys)
  end.

(** ** Projects, read *)

Definition get_projects : prog filesystem (list json) :=
  load_data PROJECTS_DB_FILE.

Definition get_project (project_id : Z) : prog filesystem json :=
  projects <- load_data PROJECTS_DB_FILE ;;
  found <- lift (first_match (id_is project_id) [] projects) ;;
  match found with
  | Some (_, project, _) => ret project
  | None => raise (not_found "Project not found")
  end.

(** ** Skills *)

Definition get_skills : prog filesystem (list json) :=
  load_data SKILLS_DB_FILE.

Definition get_skill (skill_id : Z) : prog filesystem json :=
  skills <- load_data SKILLS_DB_FILE ;;
  found <- lift (first_match (id_is skill_id) [] skills) ;;
  match found with
  | Some (_, skill, _) => ret skill
  | None => raise (not_found "Skill not found")
  end.

Definition create_skill (skill : Skill.t) : prog filesystem json :=
  skills <- load_data SKILLS_DB_FILE ;;
  new_id <- lift (next_id skills) ;;
  let new_skill := JDict (<["id" := JInt new_id]> (Skill.dict skill)) in
  let skills := skills ++ [new_skill] in
  save_data SKILLS_DB_FILE skills ;;
  ret new_skill.

Definition update_skill (skill_id : Z) (updated_skill : Skill.t)
  : prog filesystem json :=
  skills <- load_data SKILLS_DB_FILE ;;
  found <- lift (first_match (id_is skill_id) [] skills) ;;
  match found with
  | Some (before, skill, after) =>
      let updated_skill_dict := exclude ["id"] (Skill.dict updated_skill) in
      skill <- lift (dict_update skill updated_skill_dict) ;;
      save_data SKILLS_DB_FILE (before ++ skill :: after) ;;
      ret skill
  | None => raise (not_found "Skill not found")
  end.

Definition delete_skill (skill_id : Z) : prog filesystem json :=
  skills <- load_data SKILLS_DB_FILE ;;
  let initial_length := length skills in
  skills <- lift (comprehension (negate (id_is skill_id)) skills) ;;
  if decide (length skills = initial_length) then
    raise (not_found "Skill not found")
  else
    save_data SKILLS_DB_FILE skills ;;
    ret (JDict {["detail" := JStr "Skill deleted"]}).

(** ** Skills of a project *)

(** [if "skills" not in project: project["skills"] = []]. *)
Definition default_skills (project : json) : result json :=
  present ← py_contains project "skills";
  if present : bool then Return project
  else setitem project "skills" (JList []).

Definition add_skills_to_project (project_id : Z) (skill_ids : list Z)
  : prog filesystem json :=
  projects <- load_data PROJECTS_DB_FILE ;;
  found <- lift (first_match (id_is project_id) [] projects) ;;
  match found with
  | Some (before, project, after) =>
      project <- lift (default_skills project) ;;
      project <- lift (extend_item project "skills" (JInt <$> skill_ids)) ;;
      save_data PROJECTS_DB_FILE (before ++ project :: after) ;;
      ret project
  | None => raise (not_found "Project not found")
  end.

(** [r["id"] == project_id] and then ["skills" in r]: the loop of
    [remove_skills_from_project] passes over a project that has the id but
    no skills. *)
Definition has_skills (project_id : Z) (r : json) : result bool :=
  b ← id_is project_id r;
  if b : bool then py_contains r "skills" else Return false.

Section iteration.
(** Iterating over a string gives its characters and iterating over a
    dict gives its keys in insertion order; the values kept here record
    neither, so what such an iteration yields is a parameter. *)
Variable iterate_other : json → list json.

(** [for x in v]. *)
Definition py_iter (v : json) : result (list json) :=
  match v with
  | JList l => Return l
  | JStr _ | JDict _ => Return (iterate_other v)
  | _ => Raise TypeError
  end.

(** [project["skills"] =
      [skill for skill in project["skills"] if skill not in skill_ids]]. *)
Definition drop_skills (project : json) (skill_ids : list Z) : result json :=
  skills ← subscript project "skills";
  items ← py_iter skills;
  setitem project "skills"
    (JList (List.filter (fun skill => negb (in_ints skill skill_ids)) items)).

Definition remove_skills_from_project (project_id : Z) (skill_ids : list Z)
  : prog filesystem json :=
  projects <- load_data PROJECTS_DB_FILE ;;
  found <- lift (first_match (has_skills project_id) [] projects) ;;
  match found with
  | Some (before, project, after) =>
      project <- lift (drop_skills project skill_ids) ;;
      save_data PROJECTS_DB_FILE (before ++ project :: after) ;;
      ret project
  | None => raise (not_found "Project not found")
  end.
End iteration.

(** ** Users: login *)

(** [u["first_name"] == first_name and u["last_name"] == last_name
     and u["password"] == password], each subscript evaluated only when
    the comparisons before it hold. *)
Definition credentials_match (user : User.t) (u : json) : result bool :=
  a ← subscript u "first_name";
  if py_eq a (JStr (User.first_name user)) then
    b ← subscript u "last_name";
    if py_eq b (JStr (User.last_name user)) then
      c ← subscript u "password";
      Return (py_eq c (JStr (User.password user)))
    else Return false
  else Return false.

Definition login_user (user : User.t) : prog filesystem json :=
  users <- load_data USERS_DB_FILE ;;
  found <- lift (first_match (credentials_match user) [] users) ;;
  match found with
  | Some (_, u, _) => ret u
  | None => raise (HTTPException 400 "Incorrect username or password")
  end.

(** ** Tasks: read and create *)

Definition get_tasks (project_id : Z) : prog filesystem (list json) :=
  tasks <- load_data TASKS_DB_FILE ;;
  lift (comprehension (field_is "project_id" project_id) tasks).

Definition get_task (project_id task_id : Z) : prog filesystem json :=
  tasks <- load_data TASKS_DB_FILE ;;
  found <- lift (first_match (task_is project_id task_id) [] tasks) ;;
  match found with
  | Some (_, task, _) => ret task
  | None => raise (not_found "Task not found")
  end.

Definition create_task (project_id : Z) (task : Task.t)
  : prog filesystem json :=
  tasks <- load_data TASKS_DB_FILE ;;
  new_id <- lift (next_id tasks) ;;
  let new_task :=
    JDict (<["project_id" := JInt project_id]>
             (<["id" := JInt new_id]> (Task.dict task))) in
  let tasks := tasks ++ [new_task] in
  save_data TASKS_DB_FILE tasks ;;
  ret new_task.

(** ** Participation forms: read and update *)

(** [next((u for u in users if u["id"] == form["user_id"]), None)]
    followed by [form["user"] = user]. *)
Definition attach_user (users : list json) (form : json) : result json :=
  found ← first_match
            (fun u =>
               a ← subscript u "id";
               b ← subscript form "user_id";
               Return (py_eq a b)) [] users;
  let user :=
    match found with
    | Some (_, u, _) => u
    | None => JNull
    end in
  setitem form "user" user.

(** The body of [get_forms]; what its route hands out of the returned
    list is [get_forms_response] below. *)
Definition get_forms : prog filesystem (list json) :=
  forms <- load_data FORMS_DB_FILE ;;
  users <- load_data USERS_DB_FILE ;;
  lift (for_each (attach_user users) forms).

(** The body of [get_form]; what its route hands out of the returned
    form is [get_form_response] below. *)
Definition get_form (form_id : Z) : prog filesystem json :=
  forms <- load_data FORMS_DB_FILE ;;
  users <- load_data USERS_DB_FILE ;;
  found <- lift (first_match (id_is form_id) [] forms) ;;
  match found with
  | Some (_, form, _) => lift (attach_user users form)
  | None => raise (not_found "Form not found")
  end.

Definition update_form (form_id : Z) (updated_form : ParticipationForm.t)
  : prog filesystem json :=
  forms <- load_data FORMS_DB_FILE ;;
  found <- lift (first_match (id_is form_id) [] forms) ;;
  match found with
  | Some (before, form, after) =>
      let updated_form_dict :=
        exclude ["id"] (ParticipationForm.dict updated_form) in
      form <- lift (dict_update form updated_form_dict) ;;
      save_data FORMS_DB_FILE (before ++ form :: after) ;;
      ret form
  | None => raise (not_found "Form not found")
  end.

(** ** More sample data *)

(** Every collection file holding text that is not JSON. *)
Definition all_garbled : filesystem :=
  {[PROJECTS_DB_FILE := Garbled "{"; SKILLS_DB_FILE := Garbled "{";
    USERS_DB_FILE := Garbled "{"; TASKS_DB_FILE := Garbled "{";
    FORMS_DB_FILE := Garbled "{"]}.

(** [project_x] as stored under id 1, as a dict. *)
Definition stored_fields_x : gmap string json :=
  <["id" := JInt 1]> (Project.dict project_x).

(** A project submitted with ["skills": null], and the store holding it. *)
Definition project_null : Project.t :=
  {| Project.id := None; Project.name := "N"; Project.description := "n";
     Project.podrazdelenie := "lab"; Project.date := "2024-05-05";
     Project.skills := None |}.

Definition stored_fields_null : gmap string json :=
  <["id" := JInt 1]> (Project.dict project_null).

Definition null_skills_store : filesystem :=
  exec (create_project project_null) ∅.

(** A project record that has no ["skills"] key, and the store holding
    it. *)
Definition bare_fields : gmap string json :=
  {["id" := JInt 1; "name" := JStr "B"]}.

Definition bare_store : filesystem :=
  {[PROJECTS_DB_FILE := Document (JList [JDict bare_fields])]}.

(** A project with skills, as stored under id 1, and the store holding
    it. *)
Definition project_s : Project.t :=
  {| Project.id := None; Project.name := "S"; Project.description := "s";
     Project.podrazdelenie := "dev"; Project.date := "2024-06-06";
     Project.skills := Some [3; 4; 3; 5] |}.

Definition stored_fields_s : gmap string json :=
  <["id" := JInt 1]> (Project.dict project_s).

Definition skilled_store : filesystem := exec (create_project project_s) ∅.

Definition skill_a : Skill.t :=
  {| Skill.id := None; Skill.name := "sql"; Skill.description := "queries" |}.

Definition skill_b : Skill.t :=
  {| Skill.id := Some 12; Skill.name := "go"; Skill.description := "services" |}.

Definition stored_skill_a : json :=
  JDict (<["id" := JInt 1]> (Skill.dict skill_a)).

Definition one_skill : filesystem := exec (create_skill skill_a) ∅.

(** ** Stored users *)

(** The string under [key] of a stored record. *)
Definition str_field (key : string) (r : json) : option string :=
  match r with
  | JDict d =>
      match d !! key with
      | Some (JStr s) => Some s
      | _ => None
      end
  | _ => None
  end.

(** First name, last name and password of a stored user. *)
Definition credentials (r : json) : option (string * string * string) :=
  a ← str_field "first_name" r;
  b ← str_field "last_name" r;
  c ← str_field "password" r;
  Some (a, b, c).

(** What a login payload is compared on. *)
Definition claimed (user : User.t) : string * string * string :=
  (User.first_name user, User.last_name user, User.password user).

Definition stored_user_ann : json :=
  JDict (<["id" := JInt 1]> (User.dict user_ann)).

Definition one_user : filesystem := exec (register_user user_ann) ∅.

(** The same names and password as [user_ann], under another id. *)
Definition user_ann_again : User.t :=
  {| User.id := Some 31; User.first_name := "Ann"; User.last_name := "Lee";
     User.password := "pw" |}.

Definition user_bob : User.t :=
  {| User.id := None; User.first_name := "Bob"; User.last_name := "Lee";
     User.password := "pw" |}.

(** ** Stored tasks *)

(** A store after [task_a] was created under project 1, by the handler. *)
Definition created_task_a : json :=
  JDict (<["project_id" := JInt 1]> (<["id" := JInt 1]> (Task.dict task_a))).

Definition task_store : filesystem := exec (create_task 1 task_a) ∅.

(** ** Forms and their users *)

(** The first of [users] with the id [user_id], or [None]. *)
Fixpoint find_user (users : list json) (user_id : Z) : json :=
  match users with
  | [] => JNull
  | u :: rest =>
      if decide (record_id u = Some user_id) then u
      else find_user rest user_id
  end.

(** A stored form as the bodies of the form readers leave it: with the
    user it names, or [None], under ["user"]. *)
Definition with_user (users : list json) (form : json) : json :=
  match form, int_field "user_id" form with
  | JDict d, Some user_id => JDict (<["user" := find_user users user_id]> d)
  | _, _ => form
  end.

(** A second form of user 7 for project 1, and the store holding it
    after [form_5_1]. *)
Definition form_7_1 : ParticipationForm.t :=
  {| ParticipationForm.id := None; ParticipationForm.user_id := 7;
     ParticipationForm.project_id := 1; ParticipationForm.motivation := "n";
     ParticipationForm.experience := "y"; ParticipationForm.availability := "b" |}.

Definition stored_form_7_1 : json :=
  JDict (<["id" := JInt 2]> (ParticipationForm.dict form_7_1)).

Definition two_forms : filesystem :=
  exec (create_form form_5_1 ;; create_form form_7_1) ∅.

(** Forms of users 5 and 7 with only user 5 registered, under id 5. *)
Definition stored_user_5 : json :=
  JDict (<["id" := JInt 5]> (User.dict user_ann)).

Definition forms_and_users : filesystem :=
  {[FORMS_DB_FILE := Document (JList [stored_form_5_1; stored_form_7_1]);
    USERS_DB_FILE := Document (JList [stored_user_5])]}.

(** ** What the form routes hand out *)

(** The routes of [get_forms] and [get_form] are declared with
    [response_model=List[ParticipationForm]] and
    [response_model=ParticipationForm]: what the body returns goes through
    the model before it is handed out.  Of a dict that has the model's
    fields with values of the declared types, [id] being an integer,
    [None] or missing, the model keeps its six fields and drops every
    other key. *)
Definition model_int (o : option json) : option json :=
  match o with
  | Some (JInt n) => Some (JInt n)
  | _ => None
  end.

Definition model_str (o : option json) : option json :=
  match o with
  | Some (JStr s) => Some (JStr s)
  | _ => None
  end.

(** [id: int = None]. *)
Definition model_optional_int (o : option json) : option json :=
  match o with
  | None | Some JNull => Some JNull
  | Some (JInt n) => Some (JInt n)
  | _ => None
  end.

Definition form_field_names : list string :=
  ["id"; "user_id"; "project_id"; "motivation"; "experience"; "availability"].

(** [ParticipationForm] applied to a returned value of its shape. *)
Definition form_model (v : json) : option (gmap string json) :=
  match v with
  | JDict d =>
      i ← model_optional_int (d !! "id");
      u ← model_int (d !! "user_id");
      p ← model_int (d !! "project_id");
      m ← model_str (d !! "motivation");
      e ← model_str (d !! "experience");
      a ← model_str (d !! "availability");
      Some (<["id" := i]>
            (<["user_id" := u]>
            (<["project_id" := p]>
            (<["motivation" := m]>
            (<["experience" := e]>
            (<["availability" := a]> ∅))))))
  | _ => None
  end.

Section responses.
(** What the framework makes of a returned value that is not of the
    model's shape, by coercing its fields or by a validation error, is not
    decided in this file: it is a parameter, for one form and for a
    listing. *)
Variable other_response : json → result json.
Variable other_listing : list json → result (list json).

Definition form_response (v : json) : result json :=
  match form_model v with
  | Some d => Return (JDict d)
  | None => other_response v
  end.

Definition forms_response (l : list json) : result (list json) :=
  match mapM form_model l with
  | Some ds => Return (JDict <$> ds)
  | None => other_listing l
  end.

(** [@app.get("/forms", response_model=List[ParticipationForm])]. *)
Definition get_forms_response : prog filesystem (list json) :=
  forms <- get_forms ;;
  lift (forms_response forms).

(** [@app.get("/forms/{form_id}", response_model=ParticipationForm)]. *)
Definition get_form_response (form_id : Z) : prog filesystem json :=
  form <- get_form form_id ;;
  lift (form_response form).
End responses.

(** [stored_form_5_1] and [stored_form_7_1] as dicts. *)
Definition form_fields_5_1 : gmap string json :=
  <["id" := JInt 1]> (ParticipationForm.dict form_5_1).

Definition form_fields_7_1 : gmap string json :=
  <["id" := JInt 2]> (ParticipationForm.dict form_7_1).

(** ** Frames on a channel *)

(** Text frames that decode to a receiver and a message, as the endpoint
    reads them. *)
Definition frames (msgs : list (Z * string)) : list received :=
  (fun p => Message p.1 p.2) <$> msgs.

(** The messages of [msgs], in order, whose receiver is registered on the
    channel [ws]. *)
Definition texts_for (registry : gmap Z websocket) (ws : websocket)
    (msgs : list (Z * string)) : list string :=
  omap (fun p : Z * string =>
          match registry !! p.1 with
          | Some ws' => if decide (ws' = ws) then Some p.2 else None
          | None => None
          end) msgs.

(* ===================================================================== *)
(** * Record store *)
(* ===================================================================== *)

Lemma load_data_run file_path fs :
  load_data file_path fs =
    match fs !! file_path with
    | None => (Return [], fs)
    | Some (Garbled _) => (Raise JSONDecodeError, fs)
    | Some (Document (JList l)) => (Return l, fs)
    | Some (Document _) => (Return [], fs)
    end.
Proof.
  unfold load_data, try_except, bind, open_read, lift.
  destruct (fs !! file_path) as [[data|text]|]; simpl; try reflexivity.
  by destruct data.
Qed.

Lemma load_data_state file_path fs : (load_data file_path fs).2 = fs.
Proof.
  rewrite load_data_run.
  destruct (fs !! file_path) as [[[]|]|]; reflexivity.
Qed.

Lemma stored_save file_path records fs :
  stored file_path (<[file_path := Document (JList records)]> fs) records.
Proof. unfold stored. rewrite load_data_run. by rewrite lookup_insert_eq. Qed.

(** Every state of the medium on which [load_data] returns. *)
Lemma stored_cases file_path fs records :
  stored file_path fs records ↔
    (fs !! file_path = None ∧ records = [])
    ∨ (fs !! file_path = Some (Document (JList records)))
    ∨ (∃ data, fs !! file_path = Some (Document data)
               ∧ (∀ l, data ≠ JList l) ∧ records = []).
Proof.
  unfold stored. rewrite load_data_run. split.
  - destruct (fs !! file_path) as [[data|text]|] eqn:E.
    + destruct data; intros [= <-]; try (right; right; eexists; by eauto).
      right; left. done.
    + discriminate.
    + intros [= <-]. by left.
  - intros [[-> ->]|[->|(data & -> & Hnl & ->)]]; try done.
    destruct data; try done. by destruct (Hnl l).
Qed.

(** The lenient paths of [load_data]: it returns the stored sequence when
    the document is a list, and the empty sequence when the medium is
    absent or holds a document that is not a list; in each of these cases
    it returns normally and leaves the medium as it was. *)
Theorem load_data_returns (file_path : string) (fs : filesystem) :
  (∀ l, fs !! file_path = Some (Document (JList l)) →
        load_data file_path fs = (Return l, fs))
  ∧ (fs !! file_path = None → load_data file_path fs = (Return [], fs))
  ∧ (∀ data, fs !! file_path = Some (Document data) →
             (∀ l, data ≠ JList l) →
             load_data file_path fs = (Return [], fs)).
Proof.
  rewrite load_data_run. repeat split.
  - by intros l ->.
  - by intros ->.
  - intros data -> Hnl. destruct data; try done. by destruct (Hnl l).
Qed.

Lemma load_data_returns_witness :
  (({[PROJECTS_DB_FILE := Document (JList [JInt 1; JInt 2])]} : filesystem)
     !! PROJECTS_DB_FILE = Some (Document (JList [JInt 1; JInt 2]))
   ∧ load_data PROJECTS_DB_FILE
       {[PROJECTS_DB_FILE := Document (JList [JInt 1; JInt 2])]}
     = (Return [JInt 1; JInt 2],
        {[PROJECTS_DB_FILE := Document (JList [JInt 1; JInt 2])]}))
  ∧ ((∅ : filesystem) !! PROJECTS_DB_FILE = None
     ∧ load_data PROJECTS_DB_FILE ∅ = (Return [], ∅))
  ∧ (({[PROJECTS_DB_FILE := Document (JInt 3)]} : filesystem)
       !! PROJECTS_DB_FILE = Some (Document (JInt 3))
     ∧ (∀ l, JInt 3 ≠ JList l)
     ∧ load_data PROJECTS_DB_FILE {[PROJECTS_DB_FILE := Document (JInt 3)]}
       = (Return [], {[PROJECTS_DB_FILE := Document (JInt 3)]})).
Proof.
  split; [|split].
  - split; [reflexivity|].
    apply (proj1 (load_data_returns PROJECTS_DB_FILE
                    {[PROJECTS_DB_FILE := Document (JList [JInt 1; JInt 2])]})).
    reflexivity.
  - split; [reflexivity|].
    apply (proj1 (proj2 (load_data_returns PROJECTS_DB_FILE ∅))). reflexivity.
  - split; [reflexivity|]. split; [discriminate|].
    apply (proj2 (proj2 (load_data_returns PROJECTS_DB_FILE
                           {[PROJECTS_DB_FILE := Document (JInt 3)]}))
             (JInt 3)); [reflexivity | discriminate].
Defined.

(** C4.  The load that should never raise does.  The medium of
    [garbled_store] is present and its content is not a well-formed list,
    the case for which the record store owes the empty sequence, as it
    gives for an absent medium and for a document that is not a list; yet
    [load_data] does not return on it: the exception of the decoder is
    not a [FileNotFoundError], no [except] clause names it, and it
    reaches the caller. *)
Lemma load_data_garbled_raises :
  garbled_store !! PROJECTS_DB_FILE = Some (Garbled "{")
  ∧ (∀ l, garbled_store !! PROJECTS_DB_FILE ≠ Some (Document (JList l)))
  ∧ load_data PROJECTS_DB_FILE garbled_store
    = (Raise JSONDecodeError, garbled_store)
  ∧ ¬ (∃ records,
         load_data PROJECTS_DB_FILE garbled_store
         = (Return records, garbled_store)).
Proof.
  split; [reflexivity|]. split; [discriminate|].
  split; [reflexivity|]. intros [records H]. discriminate H.
Qed.

(* ===================================================================== *)
(** * Id assignment *)
(* ===================================================================== *)

Lemma record_id_subscript r n :
  record_id r = Some n → subscript r "id" = Return (JInt n).
Proof.
  destruct r as [| | | | |d]; try discriminate. simpl.
  destruct (d !! "id") as [[]|]; try discriminate. by intros [= ->].
Qed.

Lemma int_field_subscript key r n :
  int_field key r = Some n → subscript r key = Return (JInt n).
Proof.
  destruct r as [| | | | |d]; try discriminate. simpl.
  destruct (d !! key) as [[]|]; try discriminate. by intros [= ->].
Qed.

Lemma record_ids_cons r records ids :
  record_ids (r :: records) = Some ids ↔
  ∃ i rest, ids = i :: rest ∧ record_id r = Some i
            ∧ record_ids records = Some rest.
Proof.
  unfold record_ids. rewrite mapM_Some. split.
  - intros H. inversion H as [|? i ? rest Hr Hrest]; subst.
    exists i, rest. by rewrite mapM_Some.
  - intros (i & rest & -> & Hr & Hrest). constructor; [done|].
    by apply mapM_Some.
Qed.

Lemma record_ids_app l1 l2 ids1 ids2 :
  record_ids l1 = Some ids1 → record_ids l2 = Some ids2 →
  record_ids (l1 ++ l2) = Some (ids1 ++ ids2).
Proof.
  unfold record_ids. rewrite !mapM_Some. apply Forall2_app.
Qed.

Lemma record_ids_app_inv l1 l2 ids :
  record_ids (l1 ++ l2) = Some ids →
  ∃ ids1 ids2, ids = ids1 ++ ids2 ∧ record_ids l1 = Some ids1
               ∧ record_ids l2 = Some ids2.
Proof.
  unfold record_ids. rewrite mapM_Some. intros H.
  apply Forall2_app_inv_l in H as (ids1 & ids2 & H1 & H2 & ->).
  exists ids1, ids2. by rewrite !mapM_Some.
Qed.

Lemma max_id_from_ints i records ids :
  record_ids records = Some ids →
  max_id_from (JInt i) records = Return (JInt (greatest i ids)).
Proof.
  revert i ids. induction records as [|r records IH]; intros i ids.
  - intros [= <-]. reflexivity.
  - intros (j & rest & -> & Hr & Hrest)%record_ids_cons. simpl.
    rewrite (record_id_subscript _ _ Hr). simpl.
    replace (if i <? j then JInt j else JInt i) with (JInt (Z.max i j)).
    + by apply IH.
    + destruct (Z.ltb_spec i j); f_equal; lia.
Qed.

Lemma next_id_fresh records ids :
  record_ids records = Some ids →
  next_id records = Return (fresh_id ids).
Proof.
  destruct records as [|r records].
  - intros [= <-]. reflexivity.
  - intros (i & rest & -> & Hr & Hrest)%record_ids_cons. simpl.
    rewrite (record_id_subscript _ _ Hr). simpl.
    by rewrite (max_id_from_ints _ _ _ Hrest).
Qed.

Lemma greatest_ge i rest : i ≤ greatest i rest ∧ Forall (fun j => j ≤ greatest i rest) rest.
Proof.
  unfold greatest. revert i. induction rest as [|j rest IH]; intros i; simpl.
  - split; [lia | constructor].
  - destruct (IH (Z.max i j)) as [H1 H2]. split; [lia|].
    constructor; [lia | done].
Qed.

Lemma greatest_in i rest : greatest i rest ∈ i :: rest.
Proof.
  unfold greatest. revert i. induction rest as [|j rest IH]; intros i; simpl.
  - left.
  - specialize (IH (Z.max i j)).
    destruct (Z.max_spec i j) as [[_ E]|[_ E]]; rewrite E in IH |- *.
    + right. exact IH.
    + apply elem_of_cons in IH as [->|IH]; [left | right; by right].
Qed.

Lemma greatest_is_max i rest : is_max (greatest i rest) (i :: rest).
Proof.
  split; [apply greatest_in|].
  destruct (greatest_ge i rest). by constructor.
Qed.

Lemma is_max_unique m1 m2 ids : is_max m1 ids → is_max m2 ids → m1 = m2.
Proof.
  intros [Hin1 Hle1] [Hin2 Hle2].
  rewrite Forall_forall in Hle1, Hle2.
  specialize (Hle1 _ Hin2). specialize (Hle2 _ Hin1). lia.
Qed.

(** The fresh id is above every id in use. *)
Lemma fresh_id_above ids : Forall (fun i => i < fresh_id ids) ids.
Proof.
  destruct ids as [|i rest]; [constructor|]. simpl.
  destruct (greatest_ge i rest) as [H1 H2].
  constructor; [lia|]. eapply Forall_impl; [exact H2|]. simpl. lia.
Qed.

Lemma fresh_id_not_in ids : fresh_id ids ∉ ids.
Proof.
  intros Hin. pose proof (fresh_id_above ids) as H.
  rewrite Forall_forall in H. specialize (H _ Hin). lia.
Qed.

Lemma fresh_id_spec ids :
  (ids = [] → fresh_id ids = 1)
  ∧ (ids ≠ [] → ∃ m, is_max m ids ∧ fresh_id ids = m + 1)
  ∧ (∀ m, is_max m ids → fresh_id ids = m + 1).
Proof.
  split; [by intros ->|]. split.
  - destruct ids as [|i rest]; [done|]. intros _.
    exists (greatest i rest). split; [apply greatest_is_max | done].
  - intros m Hm. destruct ids as [|i rest].
    + destruct Hm as [Hin _]. by apply elem_of_nil in Hin.
    + simpl. f_equal. eapply is_max_unique; [apply greatest_is_max | done].
Qed.

(* ===================================================================== *)
(** * Scans and comprehensions *)
(* ===================================================================== *)

Section scans.
Variable test : json → result bool.

Lemma first_match_none seen records :
  Forall (fun r => test r = Return false) records →
  first_match test seen records = Return None.
Proof.
  intros H. revert seen. induction H as [|r records Hr _ IH]; intros seen.
  - reflexivity.
  - simpl. rewrite Hr. simpl. apply IH.
Qed.

Lemma first_match_some seen pre r post :
  Forall (fun x => test x = Return false) pre →
  test r = Return true →
  first_match test seen (pre ++ r :: post) = Return (Some (seen ++ pre, r, post)).
Proof.
  intros H Hr. revert seen. induction H as [|x pre Hx _ IH]; intros seen.
  - simpl. rewrite Hr. simpl. by rewrite app_nil_r.
  - simpl. rewrite Hx. simpl. rewrite IH. by rewrite <- app_assoc.
Qed.

Lemma first_match_inv seen records found :
  first_match test seen records = Return found →
  match found with
  | None => Forall (fun r => test r = Return false) records
  | Some (before, r, after) =>
      ∃ pre, before = seen ++ pre ∧ records = pre ++ r :: after
             ∧ Forall (fun x => test x = Return false) pre
             ∧ test r = Return true
  end.
Proof.
  revert seen. induction records as [|x records IH]; intros seen; simpl.
  - intros [= <-]. constructor.
  - destruct (test x) as [[|]|e] eqn:Hx; simpl; try discriminate.
    + intros [= <-]. exists []. by rewrite app_nil_r.
    + intros H. specialize (IH _ H). destruct found as [[[before r] after]|].
      * destruct IH as (pre & -> & -> & Hpre & Hr).
        exists (x :: pre). rewrite <- app_assoc. by repeat constructor.
      * by constructor.
Qed.

(** A test that returns on every record finds the first record that
    passes it, or none. *)
Lemma first_match_total seen records :
  Forall (fun r => ∃ b, test r = Return b) records →
  (Forall (fun r => test r = Return false) records
   ∧ first_match test seen records = Return None)
  ∨ (∃ pre r post,
       records = pre ++ r :: post
       ∧ Forall (fun x => test x = Return false) pre
       ∧ test r = Return true
       ∧ first_match test seen records = Return (Some (seen ++ pre, r, post))).
Proof.
  intros H. induction H as [|x records [b Hx] _ IH].
  - left. split; [constructor | reflexivity].
  - destruct b.
    + right. exists [], x, records. repeat split; [constructor | done |].
      by apply (first_match_some seen []).
    + destruct IH as [[Hall _]|(pre & r & post & -> & Hpre & Hr & _)].
      * left. split; [by constructor|]. apply first_match_none. by constructor.
      * right. exists (x :: pre), r, post.
        repeat split; [by constructor | done |].
        apply (first_match_some seen (x :: pre)); [by constructor | done].
Qed.

End scans.

Lemma id_is_int wanted r i :
  record_id r = Some i → id_is wanted r = Return (i =? wanted).
Proof.
  intros H. unfold id_is. by rewrite (record_id_subscript _ _ H).
Qed.

Lemma task_is_ints project_id task_id r i p :
  task_key r = Some (i, p) →
  task_is project_id task_id r = Return ((i =? task_id) && (p =? project_id)).
Proof.
  unfold task_key, task_is.
  destruct (record_id r) as [i'|] eqn:Hi; [|discriminate]. simpl.
  destruct (int_field "project_id" r) as [p'|] eqn:Hp; [|discriminate]. simpl.
  intros [= -> ->].
  rewrite (record_id_subscript _ _ Hi). simpl.
  destruct (i =? task_id); [|reflexivity].
  by rewrite (int_field_subscript _ _ _ Hp).
Qed.

Lemma form_is_ints user_id project_id r i u p :
  form_key r = Some (i, (u, p)) →
  form_is user_id project_id r = Return ((u =? user_id) && (p =? project_id)).
Proof.
  unfold form_key, form_is.
  destruct (record_id r) as [i'|] eqn:Hi; [|discriminate]. simpl.
  destruct (int_field "user_id" r) as [u'|] eqn:Hu; [|discriminate]. simpl.
  destruct (int_field "project_id" r) as [p'|] eqn:Hp; [|discriminate]. simpl.
  intros [= -> -> ->].
  rewrite (int_field_subscript _ _ _ Hu). simpl.
  destruct (u =? user_id); [|reflexivity].
  by rewrite (int_field_subscript _ _ _ Hp).
Qed.

(* ===================================================================== *)
(** * Create *)
(* ===================================================================== *)

Lemma record_id_new n (fields : gmap string json) :
  record_id (JDict (<["id" := JInt n]> fields)) = Some n.
Proof. simpl. by rewrite lookup_insert_eq. Qed.

Lemma record_ids_snoc records ids n (fields : gmap string json) :
  record_ids records = Some ids →
  record_ids (records ++ [JDict (<["id" := JInt n]> fields)]) = Some (ids ++ [n]).
Proof.
  intros H. apply record_ids_app; [done|].
  unfold record_ids. simpl. rewrite lookup_insert_eq. reflexivity.
Qed.

Lemma created_fresh file_path fields fs records ids :
  record_ids records = Some ids →
  created file_path fields fs records ids
    (Return (JDict (<["id" := JInt (fresh_id ids)]> fields)),
     <[file_path := Document
         (JList (records ++ [JDict (<["id" := JInt (fresh_id ids)]> fields)]))]> fs).
Proof.
  intros Hids. exists (fresh_id ids).
  destruct (fresh_id_spec ids) as (H1 & H2 & _).
  repeat split; [done | done | apply stored_save | by apply record_ids_snoc].
Qed.

Lemma create_project_run project fs projects ids :
  stored PROJECTS_DB_FILE fs projects → record_ids projects = Some ids →
  create_project project fs =
    (Return (JDict (<["id" := JInt (fresh_id ids)]> (Project.dict project))),
     <[PROJECTS_DB_FILE := Document
         (JList (projects ++ [JDict (<["id" := JInt (fresh_id ids)]>
                                       (Project.dict project))]))]> fs).
Proof.
  intros Hst Hids. unfold create_project, bind. rewrite Hst.
  unfold lift. by rewrite (next_id_fresh _ _ Hids).
Qed.

Lemma register_user_run user fs users ids :
  stored USERS_DB_FILE fs users → record_ids users = Some ids →
  register_user user fs =
    (Return (JDict (<["id" := JInt (fresh_id ids)]> (User.dict user))),
     <[USERS_DB_FILE := Document
         (JList (users ++ [JDict (<["id" := JInt (fresh_id ids)]>
                                    (User.dict user))]))]> fs).
Proof.
  intros Hst Hids. unfold register_user, bind. rewrite Hst.
  unfold lift. by rewrite (next_id_fresh _ _ Hids).
Qed.

Lemma form_keys_ids forms keys :
  mapM form_key forms = Some keys → record_ids forms = Some keys.*1.
Proof.
  unfold record_ids. rewrite !mapM_Some. intros H.
  induction H as [|r [i [u p]] forms keys Hr _ IH]; [constructor|].
  simpl. constructor; [|done].
  unfold form_key in Hr. destruct (record_id r); [|discriminate].
  simpl in Hr. destruct (int_field "user_id" r); [|discriminate].
  simpl in Hr. destruct (int_field "project_id" r); [|discriminate].
  simpl in Hr. congruence.
Qed.

Lemma form_is_each user_id project_id forms keys :
  mapM form_key forms = Some keys →
  Forall2 (fun r k => form_is user_id project_id r
                      = Return (bool_decide (k.2 = (user_id, project_id))))
          forms keys.
Proof.
  rewrite mapM_Some. intros H. eapply Forall2_impl; [exact H|].
  intros r [i [u p]] Hr. rewrite (form_is_ints _ _ _ _ _ _ Hr). f_equal. simpl.
  destruct (Z.eqb_spec u user_id), (Z.eqb_spec p project_id); simpl;
    [by rewrite bool_decide_true; [|congruence]
    | rewrite bool_decide_false; [done|congruence] ..].
Qed.

Lemma create_form_run form fs forms keys :
  stored FORMS_DB_FILE fs forms → mapM form_key forms = Some keys →
  (ParticipationForm.user_id form, ParticipationForm.project_id form) ∉ keys.*2 →
  create_form form fs =
    (Return (JDict (<["id" := JInt (fresh_id keys.*1)]>
                      (ParticipationForm.dict form))),
     <[FORMS_DB_FILE := Document
         (JList (forms ++ [JDict (<["id" := JInt (fresh_id keys.*1)]>
                                    (ParticipationForm.dict form))]))]> fs).
Proof.
  intros Hst Hkeys Hnew. unfold create_form, bind. rewrite Hst.
  unfold lift. rewrite first_match_none.
  - by rewrite (next_id_fresh _ _ (form_keys_ids _ _ Hkeys)).
  - pose proof (form_is_each (ParticipationForm.user_id form)
                  (ParticipationForm.project_id form) _ _ Hkeys) as Heach.
    clear Hkeys Hst. induction Heach as [|r k forms keys Hr _ IH]; [constructor|].
    simpl in Hnew. apply not_elem_of_cons in Hnew as [Hk Hnew].
    constructor; [|by apply IH].
    rewrite Hr. by rewrite bool_decide_false.
Qed.

Lemma create_form_conflict form fs forms keys :
  stored FORMS_DB_FILE fs forms → mapM form_key forms = Some keys →
  (ParticipationForm.user_id form, ParticipationForm.project_id form) ∈ keys.*2 →
  create_form form fs =
    (Raise (HTTPException 400 "Form already submitted for this project"), fs).
Proof.
  intros Hst Hkeys Hin. unfold create_form, bind. rewrite Hst. unfold lift.
  pose proof (form_is_each (ParticipationForm.user_id form)
                (ParticipationForm.project_id form) _ _ Hkeys) as Heach.
  destruct (first_match_total
              (form_is (ParticipationForm.user_id form)
                       (ParticipationForm.project_id form)) [] forms)
    as [[Hall _]|(pre & r & post & _ & _ & _ & ->)]; [| |reflexivity].
  - eapply Forall2_Forall_l; [exact Heach|]. apply Forall_true. eauto.
  - exfalso. clear Hkeys Hst.
    induction Heach as [|r k forms keys Hr _ IH].
    + by apply elem_of_nil in Hin.
    + apply Forall_cons in Hall as [Hr' Hall]. simpl in Hin.
      apply elem_of_cons in Hin as [Hk|Hin]; [|by apply IH].
      rewrite Hr in Hr'. by rewrite bool_decide_true in Hr'.
Qed.

Lemma form_key_new n form :
  form_key (JDict (<["id" := JInt n]> (ParticipationForm.dict form)))
  = Some (n, (ParticipationForm.user_id form, ParticipationForm.project_id form)).
Proof.
  unfold form_key, record_id, int_field, ParticipationForm.dict.
  by simplify_map_eq.
Qed.

Lemma form_keys_snoc forms keys n form :
  mapM form_key forms = Some keys →
  mapM form_key (forms ++ [JDict (<["id" := JInt n]> (ParticipationForm.dict form))])
  = Some (keys ++ [(n, (ParticipationForm.user_id form,
                        ParticipationForm.project_id form))]).
Proof.
  rewrite !mapM_Some. intros H. apply Forall2_app; [done|].
  constructor; [apply form_key_new | constructor].
Qed.

(** Two creates in a row on one collection hand out different ids. *)
Lemma fresh_id_twice ids : fresh_id ids ≠ fresh_id (ids ++ [fresh_id ids]).
Proof.
  intros E. apply (fresh_id_not_in (ids ++ [fresh_id ids])).
  rewrite <- E. apply elem_of_app. right. left.
Qed.

(** C5.  Id assignment.  On a collection of records with integer ids,
    [create_project], [register_user] and, for a pair of user and project
    that no stored form has, [create_form] return normally; the returned
    record is the submitted one under the id 1 when the collection is
    empty and under the greatest stored id plus one otherwise; the stored
    collection is the old one with that record appended; and a second
    create right after the first returns a record with a different id. *)
Theorem create_assigns_next_id (fs : filesystem) :
  (∀ project projects ids,
     stored PROJECTS_DB_FILE fs projects → record_ids projects = Some ids →
     created PROJECTS_DB_FILE (Project.dict project) fs projects ids
       (create_project project fs)
     ∧ ∀ second,
         distinct_ids (create_project project) (create_project second) fs)
  ∧ (∀ user users ids,
       stored USERS_DB_FILE fs users → record_ids users = Some ids →
       created USERS_DB_FILE (User.dict user) fs users ids
         (register_user user fs)
       ∧ ∀ second,
           distinct_ids (register_user user) (register_user second) fs)
  ∧ (∀ form forms keys,
       stored FORMS_DB_FILE fs forms → mapM form_key forms = Some keys →
       (ParticipationForm.user_id form, ParticipationForm.project_id form)
         ∉ keys.*2 →
       created FORMS_DB_FILE (ParticipationForm.dict form) fs forms keys.*1
         (create_form form fs)
       ∧ ∀ second,
           (ParticipationForm.user_id second,
            ParticipationForm.project_id second) ∉ keys.*2 →
           (ParticipationForm.user_id second,
            ParticipationForm.project_id second)
           ≠ (ParticipationForm.user_id form,
              ParticipationForm.project_id form) →
           distinct_ids (create_form form) (create_form second) fs).
Proof.
  split; [|split].
  - intros project projects ids Hst Hids.
    rewrite (create_project_run _ _ _ _ Hst Hids).
    split; [by apply created_fresh|]. intros second.
    eexists _, _, _, _, _, _.
    split; [by apply create_project_run|].
    split; [apply create_project_run;
            [apply stored_save | by apply record_ids_snoc]|].
    split; [apply record_id_new|]. split; [apply record_id_new|].
    apply fresh_id_twice.
  - intros user users ids Hst Hids.
    rewrite (register_user_run _ _ _ _ Hst Hids).
    split; [by apply created_fresh|]. intros second.
    eexists _, _, _, _, _, _.
    split; [by apply register_user_run|].
    split; [apply register_user_run;
            [apply stored_save | by apply record_ids_snoc]|].
    split; [apply record_id_new|]. split; [apply record_id_new|].
    apply fresh_id_twice.
  - intros form forms keys Hst Hkeys Hnew.
    rewrite (create_form_run _ _ _ _ Hst Hkeys Hnew).
    split; [apply created_fresh; by apply form_keys_ids|].
    intros second Hnew2 Hne.
    eexists _, _, _, _, _, _.
    split; [by apply create_form_run|].
    split.
    { apply (create_form_run second _ _ _ (stored_save _ _ _)
               (form_keys_snoc _ _ _ _ Hkeys)).
      rewrite fmap_app. simpl. rewrite elem_of_app, list_elem_of_singleton.
      intros [?|?]; done. }
    split; [apply record_id_new|]. split; [apply record_id_new|].
    rewrite fmap_app. simpl. apply fresh_id_twice.
Qed.

Lemma create_assigns_next_id_witness :
  (stored PROJECTS_DB_FILE one_project [stored_project_x]
   ∧ record_ids [stored_project_x] = Some [1]
   ∧ created PROJECTS_DB_FILE (Project.dict project_y) one_project
       [stored_project_x] [1] (create_project project_y one_project)
   ∧ distinct_ids (create_project project_y) (create_project project_x)
       one_project)
  ∧ (stored USERS_DB_FILE ∅ [] ∧ record_ids [] = Some []
     ∧ created USERS_DB_FILE (User.dict user_ann) ∅ [] []
         (register_user user_ann ∅)
     ∧ distinct_ids (register_user user_ann) (register_user user_ann) ∅)
  ∧ (stored FORMS_DB_FILE ∅ [] ∧ mapM form_key [] = Some []
     ∧ ((5, 1) ∉ (@nil (Z * (Z * Z))).*2)
     ∧ (5, 2) ≠ (5, 1)
     ∧ created FORMS_DB_FILE (ParticipationForm.dict form_5_1) ∅ [] []
         (create_form form_5_1 ∅)
     ∧ distinct_ids (create_form form_5_1) (create_form form_5_2) ∅).
Proof.
  split; [|split].
  - split; [reflexivity|]. split; [reflexivity|].
    destruct (proj1 (create_assigns_next_id one_project) project_y
                [stored_project_x] [1]) as [H1 H2];
      [reflexivity | reflexivity |].
    split; [exact H1 | exact (H2 project_x)].
  - split; [reflexivity|]. split; [reflexivity|].
    destruct (proj1 (proj2 (create_assigns_next_id ∅)) user_ann [] [])
      as [H1 H2]; [reflexivity | reflexivity |].
    split; [exact H1 | exact (H2 user_ann)].
  - split; [reflexivity|]. split; [reflexivity|].
    split; [apply not_elem_of_nil|]. split; [discriminate|].
    destruct (proj2 (proj2 (create_assigns_next_id ∅)) form_5_1 [] [])
      as [H1 H2]; [reflexivity | reflexivity | apply not_elem_of_nil |].
    split; [exact H1|].
    apply (H2 form_5_2); [apply not_elem_of_nil | discriminate].
Defined.

(** C6.  Form uniqueness.  On a collection of forms with integer ids, users
    and projects: when some stored form has the user and project of the
    submitted form, [create_form] raises the HTTP error 400
    "Form already submitted for this project" and the medium is left as it
    was; when no stored form has them, [create_form] returns normally and
    the stored collection is the old one followed by the returned form,
    which carries the submitted user and project. *)
Theorem create_form_unique (fs : filesystem) (form : ParticipationForm.t)
    (forms : list json) (keys : list (Z * (Z * Z))) :
  stored FORMS_DB_FILE fs forms →
  mapM form_key forms = Some keys →
  ((ParticipationForm.user_id form, ParticipationForm.project_id form)
     ∈ keys.*2 →
   create_form form fs =
     (Raise (HTTPException 400 "Form already submitted for this project"), fs))
  ∧ ((ParticipationForm.user_id form, ParticipationForm.project_id form)
       ∉ keys.*2 →
     ∃ new_form new_id fs',
       create_form form fs = (Return new_form, fs')
       ∧ stored FORMS_DB_FILE fs' (forms ++ [new_form])
       ∧ form_key new_form
         = Some (new_id, (ParticipationForm.user_id form,
                          ParticipationForm.project_id form))).
Proof.
  intros Hst Hkeys. split.
  - by apply (create_form_conflict _ _ forms keys).
  - intros Hnew. eexists _, _, _.
    split; [by apply (create_form_run _ _ forms keys)|].
    split; [apply stored_save | apply form_key_new].
Qed.

Lemma create_form_unique_witness :
  stored FORMS_DB_FILE one_form [stored_form_5_1]
  ∧ mapM form_key [stored_form_5_1] = Some [(1, (5, 1))]
  ∧ ((5, 1) ∈ [(1, (5, 1))].*2
     ∧ create_form form_5_1 one_form =
         (Raise (HTTPException 400 "Form already submitted for this project"),
          one_form))
  ∧ (((5, 2) ∉ [(1, (5, 1))].*2)
     ∧ ∃ new_form new_id fs',
         create_form form_5_2 one_form = (Return new_form, fs')
         ∧ stored FORMS_DB_FILE fs' ([stored_form_5_1] ++ [new_form])
         ∧ form_key new_form = Some (new_id, (5, 2))).
Proof.
  split; [reflexivity|]. split; [reflexivity|]. split.
  - split; [by left|].
    apply (proj1 (create_form_unique one_form form_5_1 [stored_form_5_1]
                    [(1, (5, 1))] eq_refl eq_refl)).
    by left.
  - assert ((5, 2) ∉ [(1, (5, 1))].*2) as Hnew.
    { simpl. intros H. apply list_elem_of_singleton in H. discriminate H. }
    split; [exact Hnew|].
    exact (proj2 (create_form_unique one_form form_5_2 [stored_form_5_1]
                    [(1, (5, 1))] eq_refl eq_refl) Hnew).
Defined.

(* ===================================================================== *)
(** * Update *)
(* ===================================================================== *)

Lemma exclude_lookup keys (d : gmap string json) k :
  exclude keys d !! k = if decide (k ∈ keys) then None else d !! k.
Proof.
  unfold exclude. induction keys as [|x keys IH].
  - destruct (decide (k ∈ [])) as [Hin|_]; [|reflexivity].
    by apply elem_of_nil in Hin.
  - change (foldr delete d (x :: keys)) with (delete x (foldr delete d keys)).
    destruct (decide (x = k)) as [->|Hne].
    + rewrite lookup_delete_eq.
      destruct (decide (k ∈ k :: keys)) as [_|Hnin]; [reflexivity|].
      destruct Hnin. left.
    + rewrite lookup_delete_ne by done. rewrite IH.
      destruct (decide (k ∈ keys)) as [Hin|Hnin],
               (decide (k ∈ x :: keys)) as [Hin'|Hnin']; try reflexivity.
      * destruct Hnin'. by right.
      * apply elem_of_cons in Hin' as [?|?]; congruence.
Qed.

Lemma merged_update protected payload d :
  merged protected payload d (exclude protected payload ∪ d).
Proof.
  intros k. rewrite lookup_union, exclude_lookup.
  destruct (decide (k ∈ protected)).
  - by rewrite (left_id None _).
  - destruct (payload !! k), (d !! k); reflexivity.
Qed.

Lemma merged_protected protected payload old new k :
  merged protected payload old new → k ∈ protected → new !! k = old !! k.
Proof. intros H Hk. rewrite (H k). by rewrite decide_True. Qed.

(** A record on which a test that reads ["id"] returns is a dict. *)
Lemma subscript_dict r key v :
  subscript r key = Return v → ∃ d, r = JDict d.
Proof. destruct r; try discriminate. eauto. Qed.

Lemma id_is_dict wanted r b : id_is wanted r = Return b → ∃ d, r = JDict d.
Proof.
  unfold id_is. destruct (subscript r "id") eqn:E; [|discriminate].
  intros _. by eapply subscript_dict.
Qed.

Lemma task_is_dict project_id task_id r b :
  task_is project_id task_id r = Return b → ∃ d, r = JDict d.
Proof.
  unfold task_is. destruct (subscript r "id") eqn:E; [|discriminate].
  intros _. by eapply subscript_dict.
Qed.

(** The shape of a scan-and-update that returns: shared by the update
    handlers. *)
Lemma update_scan_inv test file_path protected payload fs r' fs' detail :
  (∀ r b, test r = Return b → ∃ d, r = JDict d) →
  (records <- load_data file_path ;;
   found <- lift (first_match test [] records) ;;
   match found with
   | Some (before, r, after) =>
       r <- lift (dict_update r (exclude protected payload)) ;;
       save_data file_path (before ++ r :: after) ;;
       ret r
   | None => raise (not_found detail)
   end) fs = (Return r', fs') →
  ∃ before d after d',
    stored file_path fs (before ++ JDict d :: after)
    ∧ Forall (fun x => test x = Return false) before
    ∧ test (JDict d) = Return true
    ∧ r' = JDict d'
    ∧ merged protected payload d d'
    ∧ stored file_path fs' (before ++ JDict d' :: after).
Proof.
  intros Hdict. unfold bind.
  destruct (load_data file_path fs) as [[records|e] fs0] eqn:Hload;
    [|discriminate].
  assert (fs0 = fs) as -> by (by rewrite <- (load_data_state file_path fs), Hload).
  unfold lift at 1.
  destruct (first_match test [] records) as [[[[before r] after]|]|e] eqn:Hscan;
    [| discriminate | discriminate].
  apply first_match_inv in Hscan as (pre & -> & -> & Hpre & Hr).
  destruct (Hdict _ _ Hr) as [d ->]. simpl.
  intros [= <- <-].
  exists pre, d, after, (exclude protected payload ∪ d).
  repeat split; [done | done | done | apply merged_update | apply stored_save].
Qed.

Lemma update_scan_run test file_path protected payload fs before d after detail :
  stored file_path fs (before ++ JDict d :: after) →
  Forall (fun x => test x = Return false) before →
  test (JDict d) = Return true →
  (records <- load_data file_path ;;
   found <- lift (first_match test [] records) ;;
   match found with
   | Some (before, r, after) =>
       r <- lift (dict_update r (exclude protected payload)) ;;
       save_data file_path (before ++ r :: after) ;;
       ret r
   | None => raise (not_found detail)
   end) fs
  = (Return (JDict (exclude protected payload ∪ d)),
     <[file_path := Document
         (JList (before ++ JDict (exclude protected payload ∪ d) :: after))]> fs).
Proof.
  intros Hst Hpre Hr. unfold bind. rewrite Hst. unfold lift at 1.
  by rewrite (first_match_some test [] before (JDict d) after Hpre Hr).
Qed.

Lemma id_is_each wanted records ids :
  record_ids records = Some ids →
  Forall2 (fun r i => id_is wanted r = Return (bool_decide (i = wanted)))
          records ids.
Proof.
  unfold record_ids. rewrite mapM_Some. intros H.
  eapply Forall2_impl; [exact H|]. intros r i Hr.
  rewrite (id_is_int _ _ _ Hr). f_equal.
  destruct (Z.eqb_spec i wanted);
    [by rewrite bool_decide_true | by rewrite bool_decide_false].
Qed.

Lemma task_is_each project_id task_id tasks keys :
  mapM task_key tasks = Some keys →
  Forall2 (fun r k => task_is project_id task_id r
                      = Return (bool_decide (k = (task_id, project_id))))
          tasks keys.
Proof.
  rewrite mapM_Some. intros H. eapply Forall2_impl; [exact H|].
  intros r [i p] Hr. rewrite (task_is_ints _ _ _ _ _ Hr). f_equal.
  destruct (Z.eqb_spec i task_id), (Z.eqb_spec p project_id); simpl;
    [by rewrite bool_decide_true; [|congruence]
    | rewrite bool_decide_false; [done|congruence] ..].
Qed.

(** Among records on each of which the test returns what [hit] says of its
    key, a key that [hit] accepts has a first record that passes. *)
Lemma first_hit {K} (test : json → result bool) (hit : K → bool)
    (records : list json) (keys : list K) :
  Forall2 (fun r k => test r = Return (hit k)) records keys →
  (∃ k, k ∈ keys ∧ hit k = true) →
  ∃ before r after,
    records = before ++ r :: after
    ∧ Forall (fun x => test x = Return false) before
    ∧ test r = Return true.
Proof.
  intros Heach (k & Hin & Hk).
  destruct (first_match_total test [] records)
    as [[Hall _]|(pre & r & post & -> & Hpre & Hr & _)].
  - eapply Forall2_Forall_l; [exact Heach|]. apply Forall_true. eauto.
  - exfalso. induction Heach as [|r k' records keys Hr _ IH].
    + by apply elem_of_nil in Hin.
    + apply Forall_cons in Hall as [Hr' Hall].
      apply elem_of_cons in Hin as [->|Hin]; [|by apply IH].
      rewrite Hr in Hr'. congruence.
  - by exists pre, r, post.
Qed.

Lemma no_hit {K} (test : json → result bool) (hit : K → bool)
    (records : list json) (keys : list K) :
  Forall2 (fun r k => test r = Return (hit k)) records keys →
  (∀ k, k ∈ keys → hit k = false) →
  Forall (fun r => test r = Return false) records.
Proof.
  intros Heach Hnone. induction Heach as [|r k records keys Hr _ IH].
  - constructor.
  - constructor.
    + rewrite Hr. f_equal. apply Hnone. left.
    + apply IH. intros k' Hk'. apply Hnone. by right.
Qed.

(** C7.  Update keeps the identity fields.  Whenever [update_project]
    returns, it has found a first stored record whose id equals the
    requested one; the returned record has that record's ["id"], whatever
    id the payload carries, has the payload's value under every other key
    of the payload and the stored record's value under the remaining keys,
    and takes the stored record's place in the collection.  The same holds
    of [update_task], which matches on id and project and keeps both
    ["id"] and ["project_id"].  On collections of records with integer
    ids (and projects), an update of an id (and project) that is stored
    does return. *)
Theorem update_keeps_identity (fs : filesystem) :
  (∀ project_id updated_project r' fs',
     update_project project_id updated_project fs = (Return r', fs') →
     ∃ before d after d',
       stored PROJECTS_DB_FILE fs (before ++ JDict d :: after)
       ∧ Forall (fun x => id_is project_id x = Return false) before
       ∧ id_is project_id (JDict d) = Return true
       ∧ r' = JDict d'
       ∧ d' !! "id" = d !! "id"
       ∧ merged ["id"] (Project.dict updated_project) d d'
       ∧ stored PROJECTS_DB_FILE fs' (before ++ JDict d' :: after))
  ∧ (∀ project_id task_id updated_task r' fs',
       update_task project_id task_id updated_task fs = (Return r', fs') →
       ∃ before d after d',
         stored TASKS_DB_FILE fs (before ++ JDict d :: after)
         ∧ Forall (fun x => task_is project_id task_id x = Return false) before
         ∧ task_is project_id task_id (JDict d) = Return true
         ∧ r' = JDict d'
         ∧ d' !! "id" = d !! "id"
         ∧ d' !! "project_id" = d !! "project_id"
         ∧ merged ["id"; "project_id"] (Task.dict updated_task) d d'
         ∧ stored TASKS_DB_FILE fs' (before ++ JDict d' :: after))
  ∧ (∀ project_id updated_project projects ids,
       stored PROJECTS_DB_FILE fs projects → record_ids projects = Some ids →
       project_id ∈ ids →
       ∃ r' fs', update_project project_id updated_project fs = (Return r', fs'))
  ∧ (∀ project_id task_id updated_task tasks keys,
       stored TASKS_DB_FILE fs tasks → mapM task_key tasks = Some keys →
       (task_id, project_id) ∈ keys →
       ∃ r' fs',
         update_task project_id task_id updated_task fs = (Return r', fs')).
Proof.
  split; [|split; [|split]].
  - intros project_id updated_project r' fs' Hrun.
    apply update_scan_inv in Hrun
      as (before & d & after & d' & Hst & Hpre & Hr & -> & Hm & Hst');
      [|apply id_is_dict].
    exists before, d, after, d'.
    split; [done|]. split; [done|]. split; [done|]. split; [done|].
    split; [|done]. apply (merged_protected _ _ _ _ _ Hm). left.
  - intros project_id task_id updated_task r' fs' Hrun.
    apply update_scan_inv in Hrun
      as (before & d & after & d' & Hst & Hpre & Hr & -> & Hm & Hst');
      [|apply task_is_dict].
    exists before, d, after, d'.
    split; [done|]. split; [done|]. split; [done|]. split; [done|].
    split; [apply (merged_protected _ _ _ _ _ Hm); left|].
    split; [|done]. apply (merged_protected _ _ _ _ _ Hm). right. left.
  - intros project_id updated_project projects ids Hst Hids Hin.
    destruct (first_hit (id_is project_id)
                (fun i => bool_decide (i = project_id)) projects ids)
      as (before & r & after & -> & Hpre & Hr).
    { by apply id_is_each. }
    { exists project_id. split; [done | by apply bool_decide_true]. }
    destruct (id_is_dict _ _ _ Hr) as [d ->].
    eexists _, _. unfold update_project.
    by apply (update_scan_run (id_is project_id) PROJECTS_DB_FILE ["id"]
                (Project.dict updated_project) fs before d after).
  - intros project_id task_id updated_task tasks keys Hst Hkeys Hin.
    destruct (first_hit (task_is project_id task_id)
                (fun k => bool_decide (k = (task_id, project_id))) tasks keys)
      as (before & r & after & -> & Hpre & Hr).
    { by apply task_is_each. }
    { exists (task_id, project_id). split; [done | by apply bool_decide_true]. }
    destruct (task_is_dict _ _ _ _ Hr) as [d ->].
    eexists _, _. unfold update_task.
    by apply (update_scan_run (task_is project_id task_id) TASKS_DB_FILE
                ["id"; "project_id"] (Task.dict updated_task) fs before d after).
Qed.

Lemma update_project_sample :
  update_project 1 project_y one_project
  = (Return updated_project_x,
     {[PROJECTS_DB_FILE := Document (JList [updated_project_x])]}).
Proof.
  vm_cast_no_check (eq_refl (update_project 1 project_y one_project)).
Qed.

Lemma update_task_sample :
  update_task 1 1 task_b one_task
  = (Return updated_task_a,
     {[TASKS_DB_FILE := Document (JList [updated_task_a])]}).
Proof.
  vm_cast_no_check (eq_refl (update_task 1 1 task_b one_task)).
Qed.

Lemma update_keeps_identity_witness :
  (update_project 1 project_y one_project
   = (Return updated_project_x,
      {[PROJECTS_DB_FILE := Document (JList [updated_project_x])]})
   ∧ ∃ before d after d',
       stored PROJECTS_DB_FILE one_project (before ++ JDict d :: after)
       ∧ Forall (fun x => id_is 1 x = Return false) before
       ∧ id_is 1 (JDict d) = Return true
       ∧ updated_project_x = JDict d'
       ∧ d' !! "id" = d !! "id"
       ∧ merged ["id"] (Project.dict project_y) d d'
       ∧ stored PROJECTS_DB_FILE
           {[PROJECTS_DB_FILE := Document (JList [updated_project_x])]}
           (before ++ JDict d' :: after))
  ∧ (update_task 1 1 task_b one_task
     = (Return updated_task_a,
        {[TASKS_DB_FILE := Document (JList [updated_task_a])]})
     ∧ ∃ before d after d',
         stored TASKS_DB_FILE one_task (before ++ JDict d :: after)
         ∧ Forall (fun x => task_is 1 1 x = Return false) before
         ∧ task_is 1 1 (JDict d) = Return true
         ∧ updated_task_a = JDict d'
         ∧ d' !! "id" = d !! "id"
         ∧ d' !! "project_id" = d !! "project_id"
         ∧ merged ["id"; "project_id"] (Task.dict task_b) d d'
         ∧ stored TASKS_DB_FILE
             {[TASKS_DB_FILE := Document (JList [updated_task_a])]}
             (before ++ JDict d' :: after))
  ∧ (stored PROJECTS_DB_FILE one_project [stored_project_x]
     ∧ record_ids [stored_project_x] = Some [1]
     ∧ 1 ∈ [1]
     ∧ ∃ r' fs', update_project 1 project_y one_project = (Return r', fs'))
  ∧ (stored TASKS_DB_FILE one_task [stored_task_a]
     ∧ mapM task_key [stored_task_a] = Some [(1, 1)]
     ∧ (1, 1) ∈ [(1, 1)]
     ∧ ∃ r' fs', update_task 1 1 task_b one_task = (Return r', fs')).
Proof.
  split; [|split; [|split]].
  - split; [exact update_project_sample|].
    exact (proj1 (update_keeps_identity one_project) 1 project_y _ _
             update_project_sample).
  - split; [exact update_task_sample|].
    exact (proj1 (proj2 (update_keeps_identity one_task)) 1 1 task_b _ _
             update_task_sample).
  - split; [reflexivity|]. split; [reflexivity|]. split; [left|].
    apply (proj1 (proj2 (proj2 (update_keeps_identity one_project)))
             1 project_y [stored_project_x] [1]); [reflexivity | reflexivity | left].
  - split; [reflexivity|]. split; [reflexivity|]. split; [left|].
    apply (proj2 (proj2 (proj2 (update_keeps_identity one_task)))
             1 1 task_b [stored_task_a] [(1, 1)]);
      [reflexivity | reflexivity | left].
Defined.

(* ===================================================================== *)
(** * Delete *)
(* ===================================================================== *)

Lemma comprehension_negate (test : json → result bool) (P : json → Prop)
    {dec : ∀ r, Decision (P r)} (records : list json) :
  Forall (fun r => test r = Return (bool_decide (P r))) records →
  comprehension (negate test) records
  = Return (filter (fun r => ¬ P r) records).
Proof.
  induction 1 as [|r records Hr _ IH]; [reflexivity|].
  change (comprehension (negate test) (r :: records))
    with (b ← negate test r;
          kept ← comprehension (negate test) records;
          Return (if b : bool then r :: kept else kept)).
  rewrite IH. unfold negate. rewrite Hr. simpl.
  rewrite filter_cons. destruct (decide (P r)) as [HP|HP].
  - rewrite bool_decide_true by done. simpl.
    rewrite decide_False; [done|]. intros Hn. by apply Hn.
  - rewrite bool_decide_false by done. simpl. by rewrite decide_True.
Qed.

Lemma filter_keeps_length {A} (P : A → Prop) {dec : ∀ x, Decision (P x)} (l : list A) :
  length (filter P l) = length l ↔ Forall P l.
Proof.
  induction l as [|x l IH].
  - split; [constructor | reflexivity].
  - rewrite filter_cons. destruct (decide (P x)) as [HP|HP]; simpl.
    + rewrite Forall_cons. split.
      * intros [= H]. split; [done | by apply IH].
      * intros [_ H]. f_equal. by apply IH.
    + split.
      * intros H. pose proof (length_filter P l). lia.
      * intros [? _]%Forall_cons. done.
Qed.

Lemma id_is_decide wanted records ids :
  record_ids records = Some ids →
  Forall (fun r => id_is wanted r
                   = Return (bool_decide (record_id r = Some wanted))) records.
Proof.
  unfold record_ids. rewrite mapM_Some. intros H.
  induction H as [|r i records ids Hr _ IH]; constructor; [|done].
  rewrite (id_is_int _ _ _ Hr), Hr. f_equal.
  destruct (Z.eqb_spec i wanted);
    [rewrite bool_decide_true | rewrite bool_decide_false]; congruence.
Qed.

Lemma task_is_decide project_id task_id tasks keys :
  mapM task_key tasks = Some keys →
  Forall (fun r => task_is project_id task_id r
                   = Return (bool_decide (task_key r = Some (task_id, project_id))))
         tasks.
Proof.
  rewrite mapM_Some. intros H.
  induction H as [|r [i p] tasks keys Hr _ IH]; constructor; [|done].
  rewrite (task_is_ints _ _ _ _ _ Hr), Hr. f_equal.
  destruct (Z.eqb_spec i task_id), (Z.eqb_spec p project_id); simpl;
    [rewrite bool_decide_true | rewrite bool_decide_false ..]; congruence.
Qed.

(** No record carries the key exactly when the key is not among the keys. *)
Lemma no_key_Forall {K} (key : json → option K) (records : list json)
    (keys : list K) (k : K) :
  mapM key records = Some keys →
  Forall (fun r => key r ≠ Some k) records ↔ k ∉ keys.
Proof.
  rewrite mapM_Some. intros H.
  induction H as [|r k' records keys Hr _ IH].
  - split; [intros _; apply not_elem_of_nil | constructor].
  - rewrite Forall_cons, not_elem_of_cons, IH, Hr.
    split; intros [H1 H2]; (split; [congruence | done]).
Qed.

(** The shape of a delete on a collection whose test returns on every
    record: shared by the delete handlers. *)
Lemma delete_scan_run (test : json → result bool) (P : json → Prop)
    {dec : ∀ r, Decision (P r)} file_path fs records detail ok :
  stored file_path fs records →
  Forall (fun r => test r = Return (bool_decide (P r))) records →
  (records <- load_data file_path ;;
   let initial_length := length records in
   records <- lift (comprehension (negate test) records) ;;
   if decide (length records = initial_length) then
     raise (not_found detail)
   else
     save_data file_path records ;;
     ret (JDict {[ "detail" := JStr ok ]})) fs
  = if decide (Forall (fun r => ¬ P r) records)
    then (Raise (not_found detail), fs)
    else (Return (JDict {[ "detail" := JStr ok ]}),
          <[file_path := Document (JList (filter (fun r => ¬ P r) records))]> fs).
Proof.
  intros Hst Heach. unfold bind. rewrite Hst. unfold lift.
  rewrite (comprehension_negate test P records Heach).
  destruct (decide (length (filter (fun r => ¬ P r) records) = length records))
    as [Hlen|Hlen];
  destruct (decide (Forall (fun r => ¬ P r) records)) as [Hall|Hall];
    try reflexivity.
  - destruct Hall. exact (proj1 (filter_keeps_length _ _) Hlen).
  - destruct Hlen. exact (proj2 (filter_keeps_length _ _) Hall).
Qed.

(** C8.  Delete.  On a collection of records with integer ids, a delete
    of an id that some record carries returns the success message and the
    stored collection becomes the old one without the records carrying
    that id, the others staying in order; a delete of an id that no record
    carries raises the HTTP error 404 and the medium is left as it was.
    So do [delete_project] and [delete_form]; [delete_task] does the same
    with the pair of task id and project id for the id. *)
Theorem delete_removes_or_not_found (fs : filesystem) :
  (∀ project_id projects ids,
     stored PROJECTS_DB_FILE fs projects → record_ids projects = Some ids →
     (project_id ∈ ids →
      delete_project project_id fs =
        (Return (JDict {[ "detail" := JStr "Project deleted" ]}),
         <[PROJECTS_DB_FILE := Document
             (JList (filter (fun r => record_id r ≠ Some project_id) projects))]>
           fs))
     ∧ (project_id ∉ ids →
        delete_project project_id fs =
          (Raise (not_found "Project not found"), fs)))
  ∧ (∀ project_id task_id tasks keys,
       stored TASKS_DB_FILE fs tasks → mapM task_key tasks = Some keys →
       ((task_id, project_id) ∈ keys →
        delete_task project_id task_id fs =
          (Return (JDict {[ "detail" := JStr "Task deleted" ]}),
           <[TASKS_DB_FILE := Document
               (JList (filter (fun r => task_key r ≠ Some (task_id, project_id))
                              tasks))]> fs))
       ∧ ((task_id, project_id) ∉ keys →
          delete_task project_id task_id fs =
            (Raise (not_found "Task not found"), fs)))
  ∧ (∀ form_id forms ids,
       stored FORMS_DB_FILE fs forms → record_ids forms = Some ids →
       (form_id ∈ ids →
        delete_form form_id fs =
          (Return (JDict {[ "detail" := JStr "Form deleted" ]}),
           <[FORMS_DB_FILE := Document
               (JList (filter (fun r => record_id r ≠ Some form_id) forms))]>
             fs))
       ∧ (form_id ∉ ids →
          delete_form form_id fs = (Raise (not_found "Form not found"), fs))).
Proof.
  split; [|split].
  - intros project_id projects ids Hst Hids.
    unfold delete_project.
    rewrite (delete_scan_run (id_is project_id)
               (fun r => record_id r = Some project_id)
               _ _ _ _ _ Hst (id_is_decide _ _ _ Hids)).
    pose proof (no_key_Forall record_id projects ids project_id Hids) as Hno.
    split; intros Hin; case_decide as Hall; try reflexivity.
    + by apply Hno in Hall.
    + by apply Hno in Hin.
  - intros project_id task_id tasks keys Hst Hkeys.
    unfold delete_task.
    rewrite (delete_scan_run (task_is project_id task_id)
               (fun r => task_key r = Some (task_id, project_id))
               _ _ _ _ _ Hst (task_is_decide _ _ _ _ Hkeys)).
    pose proof (no_key_Forall task_key tasks keys (task_id, project_id) Hkeys)
      as Hno.
    split; intros Hin; case_decide as Hall; try reflexivity.
    + by apply Hno in Hall.
    + by apply Hno in Hin.
  - intros form_id forms ids Hst Hids.
    unfold delete_form.
    rewrite (delete_scan_run (id_is form_id)
               (fun r => record_id r = Some form_id)
               _ _ _ _ _ Hst (id_is_decide _ _ _ Hids)).
    pose proof (no_key_Forall record_id forms ids form_id Hids) as Hno.
    split; intros Hin; case_decide as Hall; try reflexivity.
    + by apply Hno in Hall.
    + by apply Hno in Hin.
Qed.

Lemma delete_removes_or_not_found_witness :
  (stored PROJECTS_DB_FILE one_project [stored_project_x]
   ∧ record_ids [stored_project_x] = Some [1]
   ∧ 1 ∈ [1] ∧ (2 ∉ [1])
   ∧ delete_project 1 one_project =
       (Return (JDict {[ "detail" := JStr "Project deleted" ]}),
        <[PROJECTS_DB_FILE := Document
            (JList (filter (fun r => record_id r ≠ Some 1) [stored_project_x]))]>
          one_project)
   ∧ delete_project 2 one_project =
       (Raise (not_found "Project not found"), one_project))
  ∧ (stored TASKS_DB_FILE one_task [stored_task_a]
     ∧ mapM task_key [stored_task_a] = Some [(1, 1)]
     ∧ (1, 1) ∈ [(1, 1)] ∧ ((1, 2) ∉ [(1, 1)])
     ∧ delete_task 1 1 one_task =
         (Return (JDict {[ "detail" := JStr "Task deleted" ]}),
          <[TASKS_DB_FILE := Document
              (JList (filter (fun r => task_key r ≠ Some (1, 1))
                             [stored_task_a]))]> one_task)
     ∧ delete_task 2 1 one_task =
         (Raise (not_found "Task not found"), one_task))
  ∧ (stored FORMS_DB_FILE one_form [stored_form_5_1]
     ∧ record_ids [stored_form_5_1] = Some [1]
     ∧ 1 ∈ [1] ∧ (2 ∉ [1])
     ∧ delete_form 1 one_form =
         (Return (JDict {[ "detail" := JStr "Form deleted" ]}),
          <[FORMS_DB_FILE := Document
              (JList (filter (fun r => record_id r ≠ Some 1) [stored_form_5_1]))]>
            one_form)
     ∧ delete_form 2 one_form =
         (Raise (not_found "Form not found"), one_form)).
Proof.
  assert (2 ∉ [1]) as H2.
  { intros H. apply list_elem_of_singleton in H. discriminate H. }
  assert ((1, 2) ∉ [(1, 1)]) as H12.
  { intros H. apply list_elem_of_singleton in H. discriminate H. }
  split; [|split].
  - destruct (proj1 (delete_removes_or_not_found one_project) 1
                [stored_project_x] [1] eq_refl eq_refl) as [Hin _].
    destruct (proj1 (delete_removes_or_not_found one_project) 2
                [stored_project_x] [1] eq_refl eq_refl) as [_ Hout].
    split; [reflexivity|]. split; [reflexivity|]. split; [left|].
    split; [exact H2|]. split; [apply Hin; left | exact (Hout H2)].
  - destruct (proj1 (proj2 (delete_removes_or_not_found one_task)) 1 1
                [stored_task_a] [(1, 1)] eq_refl eq_refl) as [Hin _].
    destruct (proj1 (proj2 (delete_removes_or_not_found one_task)) 2 1
                [stored_task_a] [(1, 1)] eq_refl eq_refl) as [_ Hout].
    split; [reflexivity|]. split; [reflexivity|]. split; [left|].
    split; [exact H12|]. split; [apply Hin; left | exact (Hout H12)].
  - destruct (proj2 (proj2 (delete_removes_or_not_found one_form)) 1
                [stored_form_5_1] [1] eq_refl eq_refl) as [Hin _].
    destruct (proj2 (proj2 (delete_removes_or_not_found one_form)) 2
                [stored_form_5_1] [1] eq_refl eq_refl) as [_ Hout].
    split; [reflexivity|]. split; [reflexivity|]. split; [left|].
    split; [exact H2|]. split; [apply Hin; left | exact (Hout H2)].
Defined.

(* ===================================================================== *)
(** * Distinct ids *)
(* ===================================================================== *)

Lemma record_ids_filter records ids wanted :
  record_ids records = Some ids →
  record_ids (filter (fun r => record_id r ≠ Some wanted) records)
  = Some (filter (fun i => i ≠ wanted) ids).
Proof.
  unfold record_ids. rewrite !mapM_Some. intros H.
  induction H as [|r i records ids Hr _ IH]; [constructor|].
  rewrite !filter_cons.
  destruct (decide (record_id r ≠ Some wanted)) as [Hne|He],
           (decide (i ≠ wanted)) as [Hne'|He'].
  - by constructor.
  - destruct Hne. apply dec_stable in He'. congruence.
  - destruct He. congruence.
  - done.
Qed.

Lemma record_ids_replace before r r' after ids :
  record_id r' = record_id r →
  record_ids (before ++ r :: after) = Some ids →
  record_ids (before ++ r' :: after) = Some ids.
Proof.
  intros Hid (ids1 & ids2 & -> & H1 & H2)%record_ids_app_inv.
  apply record_ids_cons in H2 as (i & rest & -> & Hr & Hrest).
  apply record_ids_app; [done|]. apply record_ids_cons.
  exists i, rest. by rewrite Hid.
Qed.

Lemma record_id_updated protected payload d :
  "id" ∈ protected →
  record_id (JDict (exclude protected payload ∪ d)) = record_id (JDict d).
Proof.
  intros Hin. simpl.
  by rewrite (merged_protected _ _ _ _ _ (merged_update protected payload d) Hin).
Qed.

Lemma update_project_missing project_id updated_project fs projects ids :
  stored PROJECTS_DB_FILE fs projects → record_ids projects = Some ids →
  project_id ∉ ids →
  update_project project_id updated_project fs
  = (Raise (not_found "Project not found"), fs).
Proof.
  intros Hst Hids Hout. unfold update_project, bind. rewrite Hst.
  unfold lift. rewrite first_match_none; [reflexivity|].
  eapply no_hit; [by apply id_is_each|].
  intros i Hi. apply bool_decide_false. congruence.
Qed.

Lemma unique_ids_create project fs :
  unique_ids PROJECTS_DB_FILE fs →
  unique_ids PROJECTS_DB_FILE (exec (create_project project) fs).
Proof.
  intros (projects & ids & Hst & Hids & Hnd). unfold exec.
  rewrite (create_project_run _ _ _ _ Hst Hids). simpl.
  eexists _, (ids ++ [fresh_id ids]).
  split; [apply stored_save|]. split; [by apply record_ids_snoc|].
  apply NoDup_app. split; [done|]. split; [|apply NoDup_singleton].
  intros i Hi ->%list_elem_of_singleton. by apply (fresh_id_not_in ids).
Qed.

Lemma unique_ids_update project_id updated_project fs :
  unique_ids PROJECTS_DB_FILE fs →
  unique_ids PROJECTS_DB_FILE
    (exec (update_project project_id updated_project) fs).
Proof.
  intros (projects & ids & Hst & Hids & Hnd). unfold exec.
  destruct (decide (project_id ∈ ids)) as [Hin|Hout].
  - destruct (first_hit (id_is project_id)
                (fun i => bool_decide (i = project_id)) projects ids)
      as (before & r & after & -> & Hpre & Hr).
    { by apply id_is_each. }
    { exists project_id. split; [done | by apply bool_decide_true]. }
    destruct (id_is_dict _ _ _ Hr) as [d ->].
    unfold update_project.
    rewrite (update_scan_run (id_is project_id) PROJECTS_DB_FILE ["id"]
               (Project.dict updated_project) fs before d after
               "Project not found" Hst Hpre Hr).
    simpl. eexists _, ids. split; [apply stored_save|]. split; [|done].
    eapply record_ids_replace; [|exact Hids].
    apply (record_id_updated ["id"] (Project.dict updated_project) d). left.
  - rewrite (update_project_missing _ _ _ _ _ Hst Hids Hout).
    by exists projects, ids.
Qed.

Lemma unique_ids_delete project_id fs :
  unique_ids PROJECTS_DB_FILE fs →
  unique_ids PROJECTS_DB_FILE (exec (delete_project project_id) fs).
Proof.
  intros (projects & ids & Hst & Hids & Hnd). unfold exec, delete_project.
  rewrite (delete_scan_run (id_is project_id)
             (fun r => record_id r = Some project_id)
             _ _ _ _ _ Hst (id_is_decide _ _ _ Hids)).
  case_decide.
  - by exists projects, ids.
  - simpl. eexists _, _. split; [apply stored_save|].
    split; [by apply record_ids_filter|]. by apply NoDup_filter.
Qed.

Lemma unique_ids_handle r fs :
  unique_ids PROJECTS_DB_FILE fs →
  unique_ids PROJECTS_DB_FILE (exec (handle r) fs).
Proof.
  destruct r; simpl.
  - apply unique_ids_create.
  - apply unique_ids_update.
  - apply unique_ids_delete.
Qed.

(** C10.  Distinct ids.  Starting from an empty project collection, after
    any sequence of create, update and delete requests served one after
    another, the collection can be read back, every record in it has an
    integer id, and no two records have the same id. *)
Theorem ids_stay_distinct (fs : filesystem) (requests : list request) :
  stored PROJECTS_DB_FILE fs [] →
  unique_ids PROJECTS_DB_FILE (serve_requests requests fs).
Proof.
  intros Hempty.
  assert (unique_ids PROJECTS_DB_FILE fs) as Hinv.
  { exists [], []. split; [done|]. split; [reflexivity | constructor]. }
  clear Hempty. revert fs Hinv. unfold serve_requests.
  induction requests as [|r requests IH]; intros fs Hinv; simpl.
  - exact Hinv.
  - apply IH. by apply unique_ids_handle.
Qed.

Lemma ids_stay_distinct_witness :
  stored PROJECTS_DB_FILE ∅ []
  ∧ unique_ids PROJECTS_DB_FILE (serve_requests sample_requests ∅).
Proof.
  split; [reflexivity|].
  apply (ids_stay_distinct ∅ sample_requests). reflexivity.
Defined.

(* ===================================================================== *)
(** * Chat: registry and routing *)
(* ===================================================================== *)

Section chat.
Import ConnectionManager.

Lemma delivered_snoc ws out e :
  delivered ws (out ++ [e]) = delivered ws out ++ delivered ws [e].
Proof. unfold delivered. by rewrite omap_app. Qed.

Lemma connect_run ws user_id m :
  connect ws user_id m =
    (Return tt,
     {| active_connections := <[user_id := ws]> (active_connections m);
        emitted := emitted m ++ [Accept ws]
                   ++ [Print ("User " +:+ pretty user_id +:+ " connected.")] |}).
Proof. unfold connect, bind, emit, update_connections. simpl. by rewrite <- app_assoc. Qed.

Lemma send_message_present sender_id receiver_id text m ws :
  active_connections m !! receiver_id = Some ws →
  send_message sender_id receiver_id text m =
    (Return tt,
     {| active_connections := active_connections m;
        emitted := emitted m ++ [SendText ws text]
                   ++ [Print ("Message sent from " +:+ pretty sender_id
                              +:+ " to " +:+ pretty receiver_id +:+ ": "
                              +:+ text)] |}).
Proof.
  intros H. unfold send_message, bind, lookup, emit. simpl. rewrite H. simpl.
  by rewrite <- app_assoc.
Qed.

Lemma send_message_absent sender_id receiver_id text m :
  active_connections m !! receiver_id = None →
  send_message sender_id receiver_id text m = (Return tt, m).
Proof. intros H. unfold send_message, bind, lookup. simpl. by rewrite H. Qed.

Lemma disconnect_present user_id m ws :
  active_connections m !! user_id = Some ws →
  disconnect user_id m =
    (Return tt,
     {| active_connections := delete user_id (active_connections m);
        emitted := emitted m
                   ++ [Print ("User " +:+ pretty user_id +:+ " disconnected.")] |}).
Proof. intros H. unfold disconnect, bind, lookup. simpl. by rewrite H. Qed.

Lemma disconnect_absent user_id m :
  active_connections m !! user_id = None →
  disconnect user_id m = (Return tt, m).
Proof. intros H. unfold disconnect, bind, lookup. simpl. by rewrite H. Qed.

Lemma serve_waiting user_id m :
  serve user_id [] m = (Return Waiting, m).
Proof. reflexivity. Qed.

Lemma serve_disconnected user_id rest m :
  serve user_id (Disconnected :: rest) m =
    (disconnect user_id ;; ret Finished) m.
Proof. reflexivity. Qed.

(** An endpoint that has read [inbox] and is suspended goes on, when more
    arrives, exactly as if it had been handed everything at once. *)
Lemma serve_resume user_id inbox more m :
  Forall (fun r => ∃ receiver_id message, r = Message receiver_id message) inbox →
  serve user_id (inbox ++ more) m =
    (serve user_id inbox ;; serve user_id more) m.
Proof.
  intros Hall. revert m. induction Hall as [|r inbox [rid [msg ->]] _ IH]; intros m.
  - reflexivity.
  - specialize (IH (exec (send_message user_id rid msg) m)).
    revert IH. unfold serve, try_except, bind, exec. simpl.
    unfold bind. 
    destruct (active_connections m !! rid) as [ws|] eqn:Hrid.
    + rewrite (send_message_present _ _ _ _ _ Hrid). simpl. done.
    + rewrite (send_message_absent _ _ _ _ Hrid). simpl. done.
Qed.

Lemma websocket_endpoint_resume ws user_id inbox more m :
  Forall (fun r => ∃ receiver_id message, r = Message receiver_id message) inbox →
  websocket_endpoint ws user_id (inbox ++ more) m =
    (websocket_endpoint ws user_id inbox ;; serve user_id more) m.
Proof.
  intros Hall. unfold websocket_endpoint.
  unfold bind at 1 2 3. rewrite connect_run.
  by rewrite serve_resume.
Qed.
End chat.
Lemma send_message_delivers sender_id receiver_id text m ws :
  ConnectionManager.active_connections m !! receiver_id = Some ws →
  ∃ m', ConnectionManager.send_message sender_id receiver_id text m
          = (Return tt, m')
        ∧ ConnectionManager.active_connections m'
          = ConnectionManager.active_connections m
        ∧ ∀ ws', delivered ws' (ConnectionManager.emitted m')
                 = delivered ws' (ConnectionManager.emitted m)
                   ++ (if decide (ws' = ws) then [text] else []).
Proof.
  intros Hws. eexists. split; [by apply send_message_present|].
  split; [done|]. intros ws'. simpl.
  unfold delivered. rewrite !omap_app. simpl.
  by destruct (decide (ws = ws')), (decide (ws' = ws)).
Qed.

(** C1.  Routing.  When [receiver_id] is registered on a channel, sending
    returns normally, leaves the registry as it was, and adds the text, as
    given, once to what that channel has been sent and nothing to any other
    channel.  When [receiver_id] is not registered, sending returns normally
    and changes nothing at all: no channel is written to and the registry is
    the same. *)
Theorem send_message_routes (m : ConnectionManager.t)
    (sender_id receiver_id : Z) (text : string) :
  (∀ ws, ConnectionManager.active_connections m !! receiver_id = Some ws →
     ∃ m', ConnectionManager.send_message sender_id receiver_id text m
             = (Return tt, m')
           ∧ ConnectionManager.active_connections m'
             = ConnectionManager.active_connections m
           ∧ ∀ ws', delivered ws' (ConnectionManager.emitted m')
                    = delivered ws' (ConnectionManager.emitted m)
                      ++ (if decide (ws' = ws) then [text] else []))
  ∧ (ConnectionManager.active_connections m !! receiver_id = None →
     ConnectionManager.send_message sender_id receiver_id text m
       = (Return tt, m)).
Proof.
  split.
  - intros ws. apply send_message_delivers.
  - apply send_message_absent.
Qed.

Lemma send_message_routes_witness :
  (ConnectionManager.active_connections two_users !! 7 = Some 2%positive
   ∧ ∃ m', ConnectionManager.send_message 5 7 "hi" two_users = (Return tt, m')
           ∧ ConnectionManager.active_connections m'
             = ConnectionManager.active_connections two_users
           ∧ ∀ ws', delivered ws' (ConnectionManager.emitted m')
                    = delivered ws' (ConnectionManager.emitted two_users)
                      ++ (if decide (ws' = 2%positive) then ["hi"] else []))
  ∧ (ConnectionManager.active_connections two_users !! 9 = None
     ∧ ConnectionManager.send_message 5 9 "hi" two_users
       = (Return tt, two_users)).
Proof.
  split.
  - split; [reflexivity|].
    apply (proj1 (send_message_routes two_users 5 7 "hi") 2%positive).
    reflexivity.
  - split; [reflexivity|].
    apply (proj2 (send_message_routes two_users 5 9 "hi")).
    reflexivity.
Defined.

(** C2.  Connecting the same user twice.  After [connect] of user [u] on
    channel [A] and then on channel [C], both of which return normally, the
    registry maps [u] to [C]; a message sent to [u] afterwards is written
    once to [C], and, [C] being another channel than [A], not to [A]. *)
Theorem connect_last_wins (m : ConnectionManager.t) (u : Z) (A C : websocket) :
  ∃ m2,
    (ConnectionManager.connect A u ;; ConnectionManager.connect C u) m
      = (Return tt, m2)
    ∧ ConnectionManager.active_connections m2 !! u = Some C
    ∧ ∀ sender_id text, ∃ m3,
        ConnectionManager.send_message sender_id u text m2 = (Return tt, m3)
        ∧ delivered C (ConnectionManager.emitted m3)
          = delivered C (ConnectionManager.emitted m2) ++ [text]
        ∧ (A ≠ C →
           delivered A (ConnectionManager.emitted m3)
           = delivered A (ConnectionManager.emitted m2)).
Proof.
  eexists. split.
  { unfold bind. rewrite connect_run. apply connect_run. }
  simpl. split; [apply lookup_insert_eq|].
  intros sender_id text.
  match goal with
  | |- ∃ m3, ConnectionManager.send_message _ _ _ ?m2 = _ ∧ _ =>
      destruct (send_message_delivers sender_id u text m2 C)
        as (m3 & Hrun & _ & Hdel); [apply lookup_insert_eq|]
  end.
  exists m3. split; [exact Hrun|]. split.
  - rewrite Hdel. by rewrite decide_True.
  - intros Hne. rewrite Hdel. rewrite decide_False by done. apply app_nil_r.
Qed.

Lemma connect_last_wins_witness :
  1%positive ≠ 3%positive
  ∧ ∃ m2,
      (ConnectionManager.connect 1 5 ;; ConnectionManager.connect 3 5)
        ConnectionManager.init = (Return tt, m2)
      ∧ ConnectionManager.active_connections m2 !! 5 = Some 3%positive
      ∧ ∀ sender_id text, ∃ m3,
          ConnectionManager.send_message sender_id 5 text m2 = (Return tt, m3)
          ∧ delivered 3 (ConnectionManager.emitted m3)
            = delivered 3 (ConnectionManager.emitted m2) ++ [text]
          ∧ delivered 1 (ConnectionManager.emitted m3)
            = delivered 1 (ConnectionManager.emitted m2).
Proof.
  split; [discriminate|].
  destruct (connect_last_wins ConnectionManager.init 5 1 3)
    as (m2 & Hrun & Hreg & Hsend).
  exists m2. split; [exact Hrun|]. split; [exact Hreg|].
  intros sender_id text.
  destruct (Hsend sender_id text) as (m3 & Hmsg & HC & HA).
  exists m3. split; [exact Hmsg|]. split; [exact HC|].
  apply HA. discriminate.
Defined.

(** C3.  Eviction.  [disconnect] of a registered user returns normally and
    leaves the registry without that user's entry, the other entries being
    kept; [disconnect] of a user that is not registered returns normally
    and changes nothing.  After [connect] of [u] on [A] followed by
    [disconnect] of [u], a message sent to [u] by anyone returns normally
    and writes to no channel. *)
Theorem disconnect_evicts (m : ConnectionManager.t) (u : Z) :
  (∀ ws, ConnectionManager.active_connections m !! u = Some ws →
     ∃ m', ConnectionManager.disconnect u m = (Return tt, m')
           ∧ ConnectionManager.active_connections m'
             = delete u (ConnectionManager.active_connections m)
           ∧ ConnectionManager.active_connections m' !! u = None
           ∧ ∀ ws', delivered ws' (ConnectionManager.emitted m')
                    = delivered ws' (ConnectionManager.emitted m))
  ∧ (ConnectionManager.active_connections m !! u = None →
     ConnectionManager.disconnect u m = (Return tt, m))
  ∧ (∀ A, ∃ m2,
       (ConnectionManager.connect A u ;; ConnectionManager.disconnect u) m
         = (Return tt, m2)
       ∧ ConnectionManager.active_connections m2 !! u = None
       ∧ ∀ x text,
           ConnectionManager.send_message x u text m2 = (Return tt, m2)).
Proof.
  split; [|split].
  - intros ws Hws. eexists. split; [by apply (disconnect_present _ _ ws)|]. simpl.
    split; [done|]. split; [apply lookup_delete_eq|].
    intros ws'. rewrite delivered_snoc. apply app_nil_r.
  - apply disconnect_absent.
  - intros A. eexists. split.
    { unfold bind. rewrite connect_run.
      apply (disconnect_present _ _ A). simpl. apply lookup_insert_eq. }
    simpl. split; [apply lookup_delete_eq|].
    intros x text. apply send_message_absent. simpl. apply lookup_delete_eq.
Qed.

Lemma disconnect_evicts_witness :
  (ConnectionManager.active_connections two_users !! 5 = Some 1%positive
   ∧ ∃ m', ConnectionManager.disconnect 5 two_users = (Return tt, m')
           ∧ ConnectionManager.active_connections m'
             = delete 5 (ConnectionManager.active_connections two_users)
           ∧ ConnectionManager.active_connections m' !! 5 = None
           ∧ ∀ ws', delivered ws' (ConnectionManager.emitted m')
                    = delivered ws' (ConnectionManager.emitted two_users))
  ∧ (ConnectionManager.active_connections two_users !! 9 = None
     ∧ ConnectionManager.disconnect 9 two_users = (Return tt, two_users)).
Proof.
  split.
  - split; [reflexivity|].
    apply (proj1 (disconnect_evicts two_users 5) 1%positive). reflexivity.
  - split; [reflexivity|].
    apply (proj1 (proj2 (disconnect_evicts two_users 9))). reflexivity.
Defined.

(** C9.  A stale channel's disconnect.  User [u] connects on channel [A]
    and then on channel [C], both endpoints waiting for frames, and the
    registry maps [u] to [C].  When the peer of [A] goes away, the endpoint
    of [A] leaves through its [except WebSocketDisconnect] clause, which
    evicts by user id: the registry has no entry for [u] any more, and a
    message sent to [u] afterwards returns normally and is written to no
    channel, neither [A] nor [C]. *)
Theorem stale_disconnect_evicts_replacement
    (m : ConnectionManager.t) (u : Z) (A C : websocket) :
  ∃ m2 m3,
    (websocket_endpoint A u [] ;; websocket_endpoint C u []) m
      = (Return Waiting, m2)
    ∧ ConnectionManager.active_connections m2 !! u = Some C
    ∧ serve u [Disconnected] m2 = (Return Finished, m3)
    ∧ ConnectionManager.active_connections m3 !! u = None
    ∧ ∀ x text,
        ConnectionManager.send_message x u text m3 = (Return tt, m3).
Proof.
  eexists _, _. split.
  { unfold websocket_endpoint. unfold bind. rewrite connect_run.
    rewrite serve_waiting. rewrite connect_run. apply serve_waiting. }
  simpl. split; [apply lookup_insert_eq|]. split.
  { rewrite serve_disconnected. unfold bind.
    rewrite (disconnect_present _ _ C); [reflexivity|]. simpl.
    apply lookup_insert_eq. }
  simpl. split; [apply lookup_delete_eq|].
  intros x text. apply send_message_absent. simpl. apply lookup_delete_eq.
Qed.

(* ===================================================================== *)
(** * The examples of the specification, run *)
(* ===================================================================== *)

(** Two projects are created, the first is deleted, and the listing holds
    the second alone, under id 2. *)
Example end_to_end :
  load_data PROJECTS_DB_FILE
    (serve_requests [Create project_x; Create project_y; Delete 1] ∅)
  = (Return [JDict (<["id" := JInt 2]> (Project.dict project_y))],
     {[PROJECTS_DB_FILE :=
         Document (JList [JDict (<["id" := JInt 2]> (Project.dict project_y))])]}).
Proof.
  vm_cast_no_check
    (eq_refl (load_data PROJECTS_DB_FILE
                (serve_requests [Create project_x; Create project_y; Delete 1] ∅))).
Qed.

(** A stored record without an id is no record of the collection: the
    scan for the greatest id stops on it. *)
Example create_on_record_without_id :
  create_project project_x
    {[PROJECTS_DB_FILE := Document (JList [JDict {["name" := JStr "X"]}])]}
  = (Raise (KeyError "id"),
     {[PROJECTS_DB_FILE := Document (JList [JDict {["name" := JStr "X"]}])]}).
Proof. reflexivity. Qed.

(** Users 5 and 7 are connected; "hi" from 5 to 7 is written once to the
    channel of 7, and "hi" to the unknown user 9 is dropped. *)
Example routing :
  ConnectionManager.emitted
    (exec (ConnectionManager.send_message 5 7 "hi" ;;
           ConnectionManager.send_message 5 9 "hi") two_users)
  = [Accept 1; Print "User 5 connected.";
     Accept 2; Print "User 7 connected.";
     SendText 2 "hi"; Print "Message sent from 5 to 7: hi"].
Proof. reflexivity. Qed.

(** The endpoint of user 5 on channel 1 reads one frame for user 7 and
    then loses its peer. *)
Example endpoint_run :
  websocket_endpoint 1 5 [Message 7 "hi"; Disconnected]
    (exec (ConnectionManager.connect 2 7) ConnectionManager.init)
  = (Return Finished,
     {| ConnectionManager.active_connections := {[7 := 2%positive]};
        ConnectionManager.emitted :=
          [Accept 2; Print "User 7 connected.";
           Accept 1; Print "User 5 connected.";
           SendText 2 "hi"; Print "Message sent from 5 to 7: hi";
           Print "User 5 disconnected."] |}).
Proof. reflexivity. Qed.

(** A frame that cannot be decoded ends the endpoint with the decoder's
    exception, and the registry keeps the entry. *)
Example endpoint_malformed :
  websocket_endpoint 1 5 [Malformed JSONDecodeError] ConnectionManager.init
  = (Raise JSONDecodeError,
     {| ConnectionManager.active_connections := {[5 := 1%positive]};
        ConnectionManager.emitted := [Accept 1; Print "User 5 connected."] |}).
Proof. reflexivity. Qed.

(* ===================================================================== *)
(** * Record store: writes and reads *)
(* ===================================================================== *)

(** X1.  Writing a collection and reading one back.  [save_data] returns
    normally; a [load_data] of the same path afterwards returns the list
    that was written, whatever the file held before; a [load_data] of any
    other path gives what it gave before the write. *)
Theorem save_then_load (fs : filesystem) (file_path other : string)
    (data : list json) :
  save_data file_path data fs = (Return tt, exec (save_data file_path data) fs)
  ∧ load_data other (exec (save_data file_path data) fs)
    = (if decide (other = file_path) then Return data
       else (load_data other fs).1,
       exec (save_data file_path data) fs).
Proof.
  split; [reflexivity|]. unfold exec. simpl. rewrite !load_data_run.
  destruct (decide (other = file_path)) as [->|Hne].
  - by rewrite lookup_insert_eq.
  - rewrite lookup_insert_ne by done.
    by destruct (fs !! other) as [[[]|]|].
Qed.

Lemma load_data_garbled file_path fs text :
  fs !! file_path = Some (Garbled text) →
  load_data file_path fs = (Raise JSONDecodeError, fs).
Proof. intros H. rewrite load_data_run. by rewrite H. Qed.

(** X2.  A file that is not JSON stops every handler of its collection.
    When the file of a collection holds text that [json.load] rejects,
    each handler that reads that collection raises [JSONDecodeError] and
    leaves the files as they were; nothing overwrites the bad file. *)
Theorem garbled_file_stops_handlers (fs : filesystem) (text : string)
    (iterate_other : json → list json) :
  (fs !! PROJECTS_DB_FILE = Some (Garbled text) →
   get_projects fs = (Raise JSONDecodeError, fs)
   ∧ (∀ project_id, get_project project_id fs = (Raise JSONDecodeError, fs))
   ∧ (∀ project, create_project project fs = (Raise JSONDecodeError, fs))
   ∧ (∀ project_id updated,
        update_project project_id updated fs = (Raise JSONDecodeError, fs))
   ∧ (∀ project_id, delete_project project_id fs = (Raise JSONDecodeError, fs))
   ∧ (∀ project_id skill_ids,
        add_skills_to_project project_id skill_ids fs
        = (Raise JSONDecodeError, fs))
   ∧ (∀ project_id skill_ids,
        remove_skills_from_project iterate_other project_id skill_ids fs
        = (Raise JSONDecodeError, fs)))
  ∧ (fs !! SKILLS_DB_FILE = Some (Garbled text) →
     get_skills fs = (Raise JSONDecodeError, fs)
     ∧ (∀ skill_id, get_skill skill_id fs = (Raise JSONDecodeError, fs))
     ∧ (∀ skill, create_skill skill fs = (Raise JSONDecodeError, fs))
     ∧ (∀ skill_id updated,
          update_skill skill_id updated fs = (Raise JSONDecodeError, fs))
     ∧ (∀ skill_id, delete_skill skill_id fs = (Raise JSONDecodeError, fs)))
  ∧ (fs !! USERS_DB_FILE = Some (Garbled text) →
     (∀ user, register_user user fs = (Raise JSONDecodeError, fs))
     ∧ (∀ user, login_user user fs = (Raise JSONDecodeError, fs))
     ∧ get_forms fs = (Raise JSONDecodeError, fs)
     ∧ (∀ form_id, get_form form_id fs = (Raise JSONDecodeError, fs)))
  ∧ (fs !! TASKS_DB_FILE = Some (Garbled text) →
     (∀ project_id, get_tasks project_id fs = (Raise JSONDecodeError, fs))
     ∧ (∀ project_id task_id,
          get_task project_id task_id fs = (Raise JSONDecodeError, fs))
     ∧ (∀ project_id task,
          create_task project_id task fs = (Raise JSONDecodeError, fs))
     ∧ (∀ project_id task_id updated,
          update_task project_id task_id updated fs
          = (Raise JSONDecodeError, fs))
     ∧ (∀ project_id task_id,
          delete_task project_id task_id fs = (Raise JSONDecodeError, fs)))
  ∧ (fs !! FORMS_DB_FILE = Some (Garbled text) →
     get_forms fs = (Raise JSONDecodeError, fs)
     ∧ (∀ form_id, get_form form_id fs = (Raise JSONDecodeError, fs))
     ∧ (∀ form, create_form form fs = (Raise JSONDecodeError, fs))
     ∧ (∀ form_id updated,
          update_form form_id updated fs = (Raise JSONDecodeError, fs))
     ∧ (∀ form_id, delete_form form_id fs = (Raise JSONDecodeError, fs))).
Proof.
  repeat split; intros;
    try match goal with
    | H : fs !! USERS_DB_FILE = Some (Garbled _) |- get_forms _ = _ =>
        unfold get_forms, bind; rewrite (load_data_run FORMS_DB_FILE);
        destruct (fs !! FORMS_DB_FILE) as [[[]|]|];
        by rewrite ?(load_data_garbled _ _ _ H)
    | H : fs !! USERS_DB_FILE = Some (Garbled _) |- get_form _ _ = _ =>
        unfold get_form, bind; rewrite (load_data_run FORMS_DB_FILE);
        destruct (fs !! FORMS_DB_FILE) as [[[]|]|];
        by rewrite ?(load_data_garbled _ _ _ H)
    end;
    match goal with
    | H : fs !! _ = Some (Garbled _) |- _ =>
        unfold get_projects, get_project, create_project, update_project,
          delete_project, add_skills_to_project, remove_skills_from_project,
          get_skills, get_skill, create_skill, update_skill, delete_skill,
          register_user, login_user, get_tasks, get_task, create_task,
          update_task, delete_task, get_forms, get_form, create_form,
          update_form, delete_form, bind;
        by rewrite (load_data_garbled _ _ _ H)
    end.
Qed.

Lemma garbled_file_stops_handlers_witness :
  (all_garbled !! PROJECTS_DB_FILE = Some (Garbled "{")
   ∧ create_project project_x all_garbled = (Raise JSONDecodeError, all_garbled)
   ∧ remove_skills_from_project (fun _ => []) 1 [3] all_garbled
     = (Raise JSONDecodeError, all_garbled))
  ∧ (all_garbled !! SKILLS_DB_FILE = Some (Garbled "{")
     ∧ delete_skill 1 all_garbled = (Raise JSONDecodeError, all_garbled))
  ∧ (all_garbled !! USERS_DB_FILE = Some (Garbled "{")
     ∧ login_user user_ann all_garbled = (Raise JSONDecodeError, all_garbled)
     ∧ get_forms all_garbled = (Raise JSONDecodeError, all_garbled))
  ∧ (all_garbled !! TASKS_DB_FILE = Some (Garbled "{")
     ∧ get_tasks 1 all_garbled = (Raise JSONDecodeError, all_garbled))
  ∧ (all_garbled !! FORMS_DB_FILE = Some (Garbled "{")
     ∧ update_form 1 form_5_1 all_garbled
       = (Raise JSONDecodeError, all_garbled)).
Proof.
  destruct (garbled_file_stops_handlers all_garbled "{" (fun _ => []))
    as (Hp & Hs & Hu & Ht & Hf).
  split; [|split; [|split; [|split]]].
  - split; [reflexivity|].
    destruct (Hp eq_refl) as (_ & _ & Hcreate & _ & _ & _ & Hremove).
    split; [apply Hcreate | apply Hremove].
  - split; [reflexivity|].
    destruct (Hs eq_refl) as (_ & _ & _ & _ & Hdelete). apply Hdelete.
  - split; [reflexivity|].
    destruct (Hu eq_refl) as (_ & Hlogin & Hforms & _).
    split; [apply Hlogin | exact Hforms].
  - split; [reflexivity|].
    destruct (Ht eq_refl) as (Htasks & _). apply Htasks.
  - split; [reflexivity|].
    destruct (Hf eq_refl) as (_ & _ & _ & Hupdate & _). apply Hupdate.
Defined.

(* ===================================================================== *)
(** * Reading a record back *)
(* ===================================================================== *)

(** The shape of a read by scan: shared by the get handlers. *)
Lemma get_scan_found (test : json → result bool) file_path detail fs
    before r after :
  stored file_path fs (before ++ r :: after) →
  Forall (fun x => test x = Return false) before →
  test r = Return true →
  (records <- load_data file_path ;;
   found <- lift (first_match test [] records) ;;
   match found with
   | Some (_, x, _) => ret x
   | None => raise (not_found detail)
   end) fs = (Return r, fs).
Proof.
  intros Hst Hpre Hr. unfold bind. rewrite Hst. unfold lift.
  by rewrite (first_match_some test [] before r after Hpre Hr).
Qed.

Lemma get_scan_missing (test : json → result bool) file_path detail fs records :
  stored file_path fs records →
  Forall (fun x => test x = Return false) records →
  (records <- load_data file_path ;;
   found <- lift (first_match test [] records) ;;
   match found with
   | Some (_, x, _) => ret x
   | None => raise (not_found detail)
   end) fs = (Raise (not_found detail), fs).
Proof.
  intros Hst Hall. unfold bind. rewrite Hst. unfold lift.
  by rewrite (first_match_none test [] records Hall).
Qed.

(** In a collection with integer ids, an id in use has a first record. *)
Lemma first_with_id records ids wanted :
  record_ids records = Some ids → wanted ∈ ids →
  ∃ before r after,
    records = before ++ r :: after
    ∧ Forall (fun x => id_is wanted x = Return false) before
    ∧ id_is wanted r = Return true
    ∧ Forall (fun x => record_id x ≠ Some wanted) before
    ∧ record_id r = Some wanted.
Proof.
  intros Hids Hin.
  destruct (first_hit (id_is wanted) (fun i => bool_decide (i = wanted))
              records ids) as (before & r & after & -> & Hpre & Hr).
  { by apply id_is_each. }
  { exists wanted. split; [done | by apply bool_decide_true]. }
  exists before, r, after. split; [done|]. split; [done|]. split; [done|].
  apply record_ids_app_inv in Hids as (ids1 & ids2 & -> & H1 & H2).
  apply record_ids_cons in H2 as (i & rest & -> & Hi & _).
  split.
  - unfold record_ids in H1. rewrite mapM_Some in H1.
    clear -H1 Hpre. induction H1 as [|x j before ids1 Hx _ IH]; [constructor|].
    apply Forall_cons in Hpre as [Hx' Hpre]. constructor; [|by apply IH].
    rewrite (id_is_int _ _ _ Hx) in Hx'. rewrite Hx.
    intros [= ->]. rewrite Z.eqb_refl in Hx'. discriminate.
  - rewrite (id_is_int _ _ _ Hi) in Hr. rewrite Hi. f_equal.
    apply Z.eqb_eq. congruence.
Qed.

Lemma no_record_with_id records ids wanted :
  record_ids records = Some ids → wanted ∉ ids →
  Forall (fun x => id_is wanted x = Return false) records.
Proof.
  intros Hids Hout. eapply no_hit; [by apply id_is_each|].
  intros i Hi. apply bool_decide_false. congruence.
Qed.

(** X3.  Reading a project.  On a collection of records with integer ids,
    [get_project] returns the first stored record that carries the id, and
    raises the HTTP error 404 "Project not found" when no record carries
    it; either way the files stay as they were. *)
Theorem get_project_first_or_not_found (fs : filesystem) (project_id : Z)
    (projects : list json) (ids : list Z) :
  stored PROJECTS_DB_FILE fs projects → record_ids projects = Some ids →
  (project_id ∈ ids →
   ∃ before r after,
     projects = before ++ r :: after
     ∧ Forall (fun x => record_id x ≠ Some project_id) before
     ∧ record_id r = Some project_id
     ∧ get_project project_id fs = (Return r, fs))
  ∧ (project_id ∉ ids →
     get_project project_id fs = (Raise (not_found "Project not found"), fs)).
Proof.
  intros Hst Hids. split.
  - intros Hin.
    destruct (first_with_id _ _ _ Hids Hin)
      as (before & r & after & -> & Hpre & Hr & Hpre' & Hr').
    exists before, r, after. repeat split; try done.
    by apply (get_scan_found (id_is project_id) PROJECTS_DB_FILE
                "Project not found" fs before r after).
  - intros Hout.
    apply (get_scan_missing (id_is project_id) PROJECTS_DB_FILE
             "Project not found" fs projects Hst).
    by apply (no_record_with_id _ ids).
Qed.

Lemma get_project_first_or_not_found_witness :
  stored PROJECTS_DB_FILE one_project [stored_project_x]
  ∧ record_ids [stored_project_x] = Some [1]
  ∧ (1 ∈ [1]
     ∧ ∃ before r after,
         [stored_project_x] = before ++ r :: after
         ∧ Forall (fun x => record_id x ≠ Some 1) before
         ∧ record_id r = Some 1
         ∧ get_project 1 one_project = (Return r, one_project))
  ∧ ((2 ∉ [1])
     ∧ get_project 2 one_project
       = (Raise (not_found "Project not found"), one_project)).
Proof.
  assert (2 ∉ [1]) as H2.
  { intros H. apply list_elem_of_singleton in H. discriminate H. }
  destruct (get_project_first_or_not_found one_project 1 [stored_project_x] [1]
              eq_refl eq_refl) as [Hin _].
  destruct (get_project_first_or_not_found one_project 2 [stored_project_x] [1]
              eq_refl eq_refl) as [_ Hout].
  split; [reflexivity|]. split; [reflexivity|]. split.
  - split; [left|]. apply Hin. left.
  - split; [exact H2 | exact (Hout H2)].
Defined.

(** The first record with a fresh id in a collection that has just grown
    by it is the new record. *)
Lemma new_record_is_first records ids (fields : gmap string json) :
  record_ids records = Some ids →
  Forall (fun x => id_is (fresh_id ids) x = Return false) records
  ∧ id_is (fresh_id ids) (JDict (<["id" := JInt (fresh_id ids)]> fields))
    = Return true.
Proof.
  intros Hids. split.
  - apply (no_record_with_id _ ids); [done | apply fresh_id_not_in].
  - rewrite (id_is_int _ _ _ (record_id_new _ _)). by rewrite Z.eqb_refl.
Qed.

(** X4.  Reading back what was created.  On a collection of records with
    integer ids, [create_project] returns a record with an id, and a
    [get_project] of that id right afterwards returns that very record. *)
Theorem create_then_get_project (fs : filesystem) (project : Project.t)
    (projects : list json) (ids : list Z) :
  stored PROJECTS_DB_FILE fs projects → record_ids projects = Some ids →
  ∃ r new_id fs',
    create_project project fs = (Return r, fs')
    ∧ record_id r = Some new_id
    ∧ get_project new_id fs' = (Return r, fs').
Proof.
  intros Hst Hids. eexists _, (fresh_id ids), _.
  split; [by apply create_project_run|].
  split; [apply record_id_new|].
  destruct (new_record_is_first projects ids (Project.dict project) Hids)
    as [Hpre Hr].
  by apply (get_scan_found (id_is (fresh_id ids)) PROJECTS_DB_FILE
              "Project not found" _ projects _ [] (stored_save _ _ _)).
Qed.

Lemma create_then_get_project_witness :
  stored PROJECTS_DB_FILE one_project [stored_project_x]
  ∧ record_ids [stored_project_x] = Some [1]
  ∧ ∃ r new_id fs',
      create_project project_y one_project = (Return r, fs')
      ∧ record_id r = Some new_id
      ∧ get_project new_id fs' = (Return r, fs').
Proof.
  split; [reflexivity|]. split; [reflexivity|].
  apply (create_then_get_project one_project project_y [stored_project_x] [1]);
    reflexivity.
Defined.

(* ===================================================================== *)
(** * How the project handlers compose *)
(* ===================================================================== *)

Lemma delete_project_hit project_id fs projects ids :
  stored PROJECTS_DB_FILE fs projects → record_ids projects = Some ids →
  project_id ∈ ids →
  delete_project project_id fs =
    (Return (JDict {[ "detail" := JStr "Project deleted" ]}),
     <[PROJECTS_DB_FILE := Document
         (JList (filter (fun r => record_id r ≠ Some project_id) projects))]> fs).
Proof.
  intros Hst Hids Hin. unfold delete_project.
  rewrite (delete_scan_run (id_is project_id)
             (fun r => record_id r = Some project_id)
             _ _ _ _ _ Hst (id_is_decide _ _ _ Hids)).
  case_decide as Hall; [|reflexivity].
  by apply (no_key_Forall record_id projects ids project_id Hids) in Hall.
Qed.

Lemma not_in_filtered (ids : list Z) wanted :
  wanted ∉ filter (fun i => i ≠ wanted) ids.
Proof. intros [H _]%list_elem_of_filter. by apply H. Qed.

(** X5.  Reading after a delete.  On a collection of records with integer
    ids, once [delete_project] has removed an id that was in use, a
    [get_project] of that id raises the HTTP error 404, and the listing
    of [get_projects] holds no record with that id. *)
Theorem delete_then_get_project (fs : filesystem) (project_id : Z)
    (projects : list json) (ids : list Z) :
  stored PROJECTS_DB_FILE fs projects → record_ids projects = Some ids →
  project_id ∈ ids →
  ∃ ok fs' listing,
    delete_project project_id fs = (Return ok, fs')
    ∧ get_project project_id fs'
      = (Raise (not_found "Project not found"), fs')
    ∧ get_projects fs' = (Return listing, fs')
    ∧ Forall (fun r => record_id r ≠ Some project_id) listing.
Proof.
  intros Hst Hids Hin. eexists _, _, _.
  split; [by apply (delete_project_hit _ _ projects ids)|].
  split; [|split].
  - apply (get_scan_missing (id_is project_id) PROJECTS_DB_FILE
             "Project not found" _ _ (stored_save _ _ _)).
    eapply no_record_with_id; [by apply record_ids_filter|].
    apply not_in_filtered.
  - apply stored_save.
  - apply Forall_forall. by intros r [H _]%list_elem_of_filter.
Qed.

Lemma delete_then_get_project_witness :
  stored PROJECTS_DB_FILE one_project [stored_project_x]
  ∧ record_ids [stored_project_x] = Some [1]
  ∧ 1 ∈ [1]
  ∧ ∃ ok fs' listing,
      delete_project 1 one_project = (Return ok, fs')
      ∧ get_project 1 fs' = (Raise (not_found "Project not found"), fs')
      ∧ get_projects fs' = (Return listing, fs')
      ∧ Forall (fun r => record_id r ≠ Some 1) listing.
Proof.
  split; [reflexivity|]. split; [reflexivity|]. split; [left|].
  apply (delete_then_get_project one_project 1 [stored_project_x] [1]);
    [reflexivity | reflexivity | left].
Defined.

(** X6.  Reading after an update.  On a collection of records with
    integer ids, an [update_project] of an id in use returns a record, and
    a [get_project] of that id right afterwards returns that record. *)
Theorem update_then_get_project (fs : filesystem) (project_id : Z)
    (updated_project : Project.t) (projects : list json) (ids : list Z) :
  stored PROJECTS_DB_FILE fs projects → record_ids projects = Some ids →
  project_id ∈ ids →
  ∃ r fs',
    update_project project_id updated_project fs = (Return r, fs')
    ∧ get_project project_id fs' = (Return r, fs').
Proof.
  intros Hst Hids Hin.
  destruct (first_with_id _ _ _ Hids Hin)
    as (before & r & after & -> & Hpre & Hr & _ & Hr').
  destruct (id_is_dict _ _ _ Hr) as [d ->].
  eexists _, _. split.
  { unfold update_project.
    by apply (update_scan_run (id_is project_id) PROJECTS_DB_FILE ["id"]
                (Project.dict updated_project) fs before d after). }
  apply (get_scan_found (id_is project_id) PROJECTS_DB_FILE
           "Project not found" _ before _ after (stored_save _ _ _) Hpre).
  rewrite (id_is_int project_id _ project_id); [by rewrite Z.eqb_refl|].
  rewrite (record_id_updated ["id"] (Project.dict updated_project) d); [done|].
  left.
Qed.

Lemma update_then_get_project_witness :
  stored PROJECTS_DB_FILE one_project [stored_project_x]
  ∧ record_ids [stored_project_x] = Some [1]
  ∧ 1 ∈ [1]
  ∧ ∃ r fs',
      update_project 1 project_y one_project = (Return r, fs')
      ∧ get_project 1 fs' = (Return r, fs').
Proof.
  split; [reflexivity|]. split; [reflexivity|]. split; [left|].
  apply (update_then_get_project one_project 1 project_y [stored_project_x] [1]);
    [reflexivity | reflexivity | left].
Defined.

Lemma fresh_id_below (ids : list Z) (m : Z) :
  0 < m → Forall (fun i => i < m) ids → fresh_id ids ≤ m.
Proof.
  intros Hm Hall. destruct ids as [|i rest]; simpl; [lia|].
  pose proof (greatest_in i rest) as Hin.
  rewrite Forall_forall in Hall. specialize (Hall _ Hin). lia.
Qed.

(** X7.  Ids come back.  On a collection of records with integer ids
    whose greatest id [m] is positive, deleting [m] and creating a project
    right afterwards yields a record whose id is at most [m]: the new id
    is not above every id handed out before, and it is [m] again when
    [m - 1] is in use. *)
Theorem deleted_greatest_id_is_reused (fs : filesystem) (project : Project.t)
    (projects : list json) (ids : list Z) (m : Z) :
  stored PROJECTS_DB_FILE fs projects → record_ids projects = Some ids →
  is_max m ids → 0 < m →
  ∃ r new_id fs',
    (delete_project m ;; create_project project) fs = (Return r, fs')
    ∧ record_id r = Some new_id
    ∧ new_id ≤ m
    ∧ (m - 1 ∈ ids → new_id = m).
Proof.
  intros Hst Hids [Hin Hle] Hm.
  pose proof (record_ids_filter _ _ m Hids) as Hids'.
  eexists _, (fresh_id (filter (fun i => i ≠ m) ids)), _. split.
  { unfold bind at 1. rewrite (delete_project_hit _ _ _ _ Hst Hids Hin).
    apply (create_project_run _ _ _ _ (stored_save _ _ _) Hids'). }
  split; [apply record_id_new|].
  assert (Forall (fun i => i < m) (filter (fun i => i ≠ m) ids)) as Hlt.
  { apply Forall_forall. intros i [Hne Hi]%list_elem_of_filter.
    rewrite Forall_forall in Hle. specialize (Hle _ Hi). lia. }
  split; [by apply fresh_id_below|].
  intros Hprev.
  destruct (fresh_id_spec (filter (fun i => i ≠ m) ids)) as (_ & _ & Hspec).
  rewrite (Hspec (m - 1)); [lia|]. split.
  - apply list_elem_of_filter. split; [lia | done].
  - eapply Forall_impl; [exact Hlt|]. simpl. lia.
Qed.

Lemma deleted_greatest_id_is_reused_witness :
  stored PROJECTS_DB_FILE one_project [stored_project_x]
  ∧ record_ids [stored_project_x] = Some [1]
  ∧ is_max 1 [1] ∧ 0 < 1
  ∧ ∃ r new_id fs',
      (delete_project 1 ;; create_project project_y) one_project
      = (Return r, fs')
      ∧ record_id r = Some new_id
      ∧ new_id ≤ 1
      ∧ (1 - 1 ∈ [1] → new_id = 1).
Proof.
  assert (is_max 1 [1]) as Hmax.
  { split; [left | constructor; [lia | constructor]]. }
  split; [reflexivity|]. split; [reflexivity|]. split; [exact Hmax|].
  split; [lia|].
  apply (deleted_greatest_id_is_reused one_project project_y
           [stored_project_x] [1] 1); [reflexivity | reflexivity | exact Hmax | lia].
Defined.

(* ===================================================================== *)
(** * Skills of a project *)
(* ===================================================================== *)

Lemma in_ints_int (i : Z) (ids : list Z) :
  in_ints (JInt i) ids = bool_decide (i ∈ ids).
Proof.
  unfold in_ints. cbn [py_eq]. induction ids as [|j ids IH].
  - symmetry. apply bool_decide_false, not_elem_of_nil.
  - cbn [existsb]. rewrite IH.
    destruct (Z.eqb_spec i j) as [->|Hne]; cbn [orb].
    + symmetry. apply bool_decide_true. left.
    + apply bool_decide_ext. rewrite elem_of_cons.
      split; [by right | by intros [?|?]].
Qed.

Lemma filter_out_ints (l ids : list Z) :
  List.filter (fun skill => negb (in_ints skill ids)) (JInt <$> l)
  = JInt <$> filter (fun i => i ∉ ids) l.
Proof.
  induction l as [|i l IH]; [reflexivity|].
  rewrite fmap_cons. cbn [List.filter]. rewrite in_ints_int, filter_cons, IH.
  destruct (decide (i ∈ ids)) as [Hin|Hout].
  - rewrite bool_decide_true by done. cbn [negb].
    rewrite decide_False; [done|]. intros Hn. by apply Hn.
  - rewrite bool_decide_false by done. cbn [negb]. by rewrite decide_True.
Qed.

Lemma id_is_has_skills project_id r :
  id_is project_id r = Return false → has_skills project_id r = Return false.
Proof. unfold has_skills. by intros ->. Qed.

Lemma add_skills_scan fs project_id skill_ids before d after :
  stored PROJECTS_DB_FILE fs (before ++ JDict d :: after) →
  Forall (fun x => id_is project_id x = Return false) before →
  id_is project_id (JDict d) = Return true →
  add_skills_to_project project_id skill_ids fs
  = (project <- lift (default_skills (JDict d)) ;;
     project <- lift (extend_item project "skills" (JInt <$> skill_ids)) ;;
     save_data PROJECTS_DB_FILE (before ++ project :: after) ;;
     ret project) fs.
Proof.
  intros Hst Hpre Hr. unfold add_skills_to_project.
  unfold bind at 1 2. rewrite Hst. unfold lift at 1.
  by rewrite (first_match_some _ [] before (JDict d) after Hpre Hr).
Qed.

Lemma add_skills_to_list fs project_id skill_ids before d after l :
  stored PROJECTS_DB_FILE fs (before ++ JDict d :: after) →
  Forall (fun x => id_is project_id x = Return false) before →
  id_is project_id (JDict d) = Return true →
  d !! "skills" = Some (JList l) →
  add_skills_to_project project_id skill_ids fs
  = (Return (JDict (<["skills" := JList (l ++ (JInt <$> skill_ids))]> d)),
     <[PROJECTS_DB_FILE := Document
         (JList (before
                 ++ JDict (<["skills" := JList (l ++ (JInt <$> skill_ids))]> d)
                 :: after))]> fs).
Proof.
  intros Hst Hpre Hr Hl.
  rewrite (add_skills_scan _ _ skill_ids _ _ _ Hst Hpre Hr).
  unfold bind, lift, default_skills, extend_item. simpl.
  rewrite bool_decide_true by (rewrite Hl; eauto). simpl.
  by rewrite Hl.
Qed.

(** X8.  Attaching skills.  When the first stored project with the
    requested id is the dict [d], [add_skills_to_project] does by what [d]
    has under ["skills"]: a list grows by the given ids at its end,
    whether or not they are in it already; a missing key becomes the list
    of the given ids; anything else, such as the [None] of a project
    created without skills, has no [extend], so the handler raises
    [AttributeError] and writes nothing.  In the first two cases the
    project is returned and takes its old place in the stored
    collection. *)
Theorem add_skills_extends (fs : filesystem) (project_id : Z)
    (skill_ids : list Z) (before after : list json) (d : gmap string json) :
  stored PROJECTS_DB_FILE fs (before ++ JDict d :: after) →
  Forall (fun x => id_is project_id x = Return false) before →
  id_is project_id (JDict d) = Return true →
  (∀ l, d !! "skills" = Some (JList l) →
     add_skills_to_project project_id skill_ids fs
     = (Return (JDict (<["skills" := JList (l ++ (JInt <$> skill_ids))]> d)),
        <[PROJECTS_DB_FILE := Document
            (JList (before
                    ++ JDict (<["skills" := JList (l ++ (JInt <$> skill_ids))]> d)
                    :: after))]> fs))
  ∧ (d !! "skills" = None →
     add_skills_to_project project_id skill_ids fs
     = (Return (JDict (<["skills" := JList (JInt <$> skill_ids)]> d)),
        <[PROJECTS_DB_FILE := Document
            (JList (before
                    ++ JDict (<["skills" := JList (JInt <$> skill_ids)]> d)
                    :: after))]> fs))
  ∧ (∀ v, d !! "skills" = Some v → (∀ l, v ≠ JList l) →
     add_skills_to_project project_id skill_ids fs = (Raise AttributeError, fs)).
Proof.
  intros Hst Hpre Hr. split; [|split].
  - intros l Hl. by apply add_skills_to_list.
  - intros Hnone.
    rewrite (add_skills_scan _ _ skill_ids _ _ _ Hst Hpre Hr).
    unfold bind, lift, default_skills, extend_item. simpl.
    rewrite bool_decide_false by (rewrite Hnone; by intros [? ?]).
    simpl. rewrite lookup_insert_eq. simpl. by rewrite insert_insert_eq.
  - intros v Hv Hnl.
    rewrite (add_skills_scan _ _ skill_ids _ _ _ Hst Hpre Hr).
    unfold bind, lift, default_skills, extend_item. simpl.
    rewrite bool_decide_true by (rewrite Hv; eauto). simpl.
    rewrite Hv. simpl. destruct v; try reflexivity. by destruct (Hnl l).
Qed.

Lemma add_skills_extends_witness :
  stored PROJECTS_DB_FILE one_project ([] ++ JDict stored_fields_x :: [])
  ∧ Forall (fun x => id_is 1 x = Return false) []
  ∧ id_is 1 (JDict stored_fields_x) = Return true
  ∧ stored_fields_x !! "skills" = Some (JList [])
  ∧ add_skills_to_project 1 [3; 3] one_project
    = (Return (JDict (<["skills" := JList ([] ++ (JInt <$> [3; 3]))]>
                        stored_fields_x)),
       <[PROJECTS_DB_FILE := Document
           (JList ([] ++ JDict (<["skills" := JList ([] ++ (JInt <$> [3; 3]))]>
                                  stored_fields_x) :: []))]> one_project)
  ∧ bare_fields !! "skills" = None
  ∧ add_skills_to_project 1 [3; 3] bare_store
    = (Return (JDict (<["skills" := JList (JInt <$> [3; 3])]> bare_fields)),
       <[PROJECTS_DB_FILE := Document
           (JList ([] ++ JDict (<["skills" := JList (JInt <$> [3; 3])]>
                                  bare_fields) :: []))]> bare_store)
  ∧ stored_fields_null !! "skills" = Some JNull
  ∧ (∀ l, JNull ≠ JList l)
  ∧ add_skills_to_project 1 [3; 3] null_skills_store
    = (Raise AttributeError, null_skills_store).
Proof.
  split; [reflexivity|]. split; [constructor|]. split; [reflexivity|].
  split; [reflexivity|]. split.
  { apply (proj1 (add_skills_extends one_project 1 [3; 3] [] []
                    stored_fields_x eq_refl (Forall_nil_2 _) eq_refl) []).
    reflexivity. }
  split; [reflexivity|]. split.
  { apply (proj1 (proj2 (add_skills_extends bare_store 1 [3; 3] [] []
                           bare_fields eq_refl (Forall_nil_2 _) eq_refl))).
    reflexivity. }
  split; [reflexivity|]. split; [discriminate|].
  apply (proj2 (proj2 (add_skills_extends null_skills_store 1 [3; 3] [] []
                         stored_fields_null eq_refl (Forall_nil_2 _) eq_refl))
           JNull); [reflexivity | discriminate].
Defined.

Section removal.
Variable iterate_other : json → list json.

Lemma remove_skills_scan fs project_id skill_ids before d after :
  stored PROJECTS_DB_FILE fs (before ++ JDict d :: after) →
  Forall (fun x => has_skills project_id x = Return false) before →
  has_skills project_id (JDict d) = Return true →
  remove_skills_from_project iterate_other project_id skill_ids fs
  = (project <- lift (drop_skills iterate_other (JDict d) skill_ids) ;;
     save_data PROJECTS_DB_FILE (before ++ project :: after) ;;
     ret project) fs.
Proof.
  intros Hst Hpre Hr. unfold remove_skills_from_project.
  unfold bind at 1 2. rewrite Hst. unfold lift at 1.
  by rewrite (first_match_some _ [] before (JDict d) after Hpre Hr).
Qed.
End removal.

(** X9.  Detaching skills.  When the first stored project that has the
    requested id and a ["skills"] key is the dict [d]: if its skills are a
    list of integers, [remove_skills_from_project] returns the project with
    every occurrence of every given id taken out of that list, the other
    skills staying in order, and stores it in its old place; if what it has
    under ["skills"] is [None], the handler raises [TypeError] and writes
    nothing. *)
Theorem remove_skills_filters (iterate_other : json → list json)
    (fs : filesystem) (project_id : Z) (skill_ids : list Z)
    (before after : list json) (d : gmap string json) :
  stored PROJECTS_DB_FILE fs (before ++ JDict d :: after) →
  Forall (fun x => has_skills project_id x = Return false) before →
  has_skills project_id (JDict d) = Return true →
  (∀ l, d !! "skills" = Some (JList (JInt <$> l)) →
     remove_skills_from_project iterate_other project_id skill_ids fs
     = (Return (JDict (<["skills" :=
                          JList (JInt <$> filter (fun i => i ∉ skill_ids) l)]> d)),
        <[PROJECTS_DB_FILE := Document
            (JList (before
                    ++ JDict (<["skills" :=
                                 JList (JInt <$> filter (fun i => i ∉ skill_ids) l)]>
                                d)
                    :: after))]> fs))
  ∧ (d !! "skills" = Some JNull →
     remove_skills_from_project iterate_other project_id skill_ids fs
     = (Raise TypeError, fs)).
Proof.
  intros Hst Hpre Hr.
  rewrite (remove_skills_scan iterate_other _ _ skill_ids _ _ _ Hst Hpre Hr).
  unfold bind, lift, drop_skills. cbn [subscript]. split.
  - intros l ->. cbn. by rewrite filter_out_ints.
  - by intros ->.
Qed.

Lemma remove_skills_filters_witness :
  stored PROJECTS_DB_FILE skilled_store ([] ++ JDict stored_fields_s :: [])
  ∧ Forall (fun x => has_skills 1 x = Return false) []
  ∧ has_skills 1 (JDict stored_fields_s) = Return true
  ∧ stored_fields_s !! "skills" = Some (JList (JInt <$> [3; 4; 3; 5]))
  ∧ remove_skills_from_project (fun _ => []) 1 [3; 9] skilled_store
    = (Return (JDict (<["skills" :=
                         JList (JInt <$> filter (fun i => i ∉ [3; 9]) [3; 4; 3; 5])]>
                        stored_fields_s)),
       <[PROJECTS_DB_FILE := Document
           (JList ([] ++ JDict (<["skills" :=
                                   JList (JInt <$> filter (fun i => i ∉ [3; 9])
                                                          [3; 4; 3; 5])]>
                                  stored_fields_s) :: []))]> skilled_store)
  ∧ filter (fun i => i ∉ [3; 9]) [3; 4; 3; 5] = [4; 5]
  ∧ stored_fields_null !! "skills" = Some JNull
  ∧ remove_skills_from_project (fun _ => []) 1 [3; 9] null_skills_store
    = (Raise TypeError, null_skills_store).
Proof.
  split; [reflexivity|]. split; [constructor|]. split; [reflexivity|].
  split; [reflexivity|]. split.
  { apply (proj1 (remove_skills_filters (fun _ => []) skilled_store 1 [3; 9]
                    [] [] stored_fields_s eq_refl (Forall_nil_2 _) eq_refl)
             [3; 4; 3; 5]).
    reflexivity. }
  split; [reflexivity|]. split; [reflexivity|].
  apply (proj2 (remove_skills_filters (fun _ => []) null_skills_store 1 [3; 9]
                  [] [] stored_fields_null eq_refl (Forall_nil_2 _) eq_refl)).
  reflexivity.
Defined.

Lemma has_skills_without_key project_id r i :
  record_id r = Some i →
  (∀ d, r = JDict d → i = project_id → d !! "skills" = None) →
  has_skills project_id r = Return false.
Proof.
  intros Hi Hbare. unfold has_skills. rewrite (id_is_int _ _ _ Hi).
  destruct (Z.eqb_spec i project_id) as [->|Hne]; [|reflexivity]. simpl.
  destruct r as [| | | | |d]; try discriminate. simpl.
  by rewrite (Hbare d eq_refl eq_refl).
Qed.

(** X10.  A project without a skills key cannot be found for removal.  On
    a collection of records with integer ids in which the requested id is
    in use but no record with that id has a ["skills"] key,
    [get_project] returns the project, while [remove_skills_from_project]
    passes over it, raises the HTTP error 404 "Project not found" and
    writes nothing. *)
Theorem remove_skills_passes_over_bare_project
    (iterate_other : json → list json) (fs : filesystem) (project_id : Z)
    (skill_ids : list Z) (projects : list json) (ids : list Z) :
  stored PROJECTS_DB_FILE fs projects → record_ids projects = Some ids →
  project_id ∈ ids →
  (∀ d, JDict d ∈ projects → record_id (JDict d) = Some project_id →
        d !! "skills" = None) →
  (∃ r, get_project project_id fs = (Return r, fs)
        ∧ record_id r = Some project_id)
  ∧ remove_skills_from_project iterate_other project_id skill_ids fs
    = (Raise (not_found "Project not found"), fs).
Proof.
  intros Hst Hids Hin Hbare. split.
  - destruct (first_with_id _ _ _ Hids Hin)
      as (before & r & after & -> & Hpre & Hr & _ & Hr').
    exists r. split; [|done].
    by apply (get_scan_found (id_is project_id) PROJECTS_DB_FILE
                "Project not found" fs before r after).
  - unfold remove_skills_from_project, bind. rewrite Hst. unfold lift.
    rewrite first_match_none; [reflexivity|].
    unfold record_ids in Hids. rewrite mapM_Some in Hids.
    clear Hst Hin. induction Hids as [|r i projects ids Hr _ IH]; [constructor|].
    constructor.
    + apply (has_skills_without_key _ _ i Hr). intros d -> ->.
      apply Hbare; [left | done].
    + apply IH. intros d Hd. apply Hbare. by right.
Qed.

Lemma remove_skills_passes_over_bare_project_witness :
  stored PROJECTS_DB_FILE bare_store [JDict bare_fields]
  ∧ record_ids [JDict bare_fields] = Some [1]
  ∧ 1 ∈ [1]
  ∧ (∃ r, get_project 1 bare_store = (Return r, bare_store)
          ∧ record_id r = Some 1)
  ∧ remove_skills_from_project (fun _ => []) 1 [3] bare_store
    = (Raise (not_found "Project not found"), bare_store).
Proof.
  split; [reflexivity|]. split; [reflexivity|]. split; [left|].
  apply (remove_skills_passes_over_bare_project (fun _ => []) bare_store 1 [3]
           [JDict bare_fields] [1]); [reflexivity | reflexivity | left |].
  intros d Hd _. apply list_elem_of_singleton in Hd.
  injection Hd as ->. reflexivity.
Defined.

Lemma filter_out_all (ids more : list Z) :
  (∀ i, i ∈ more → i ∈ ids) → filter (fun i => i ∉ ids) more = [].
Proof.
  induction more as [|i more IH]; intros Hsub; [reflexivity|].
  rewrite filter_cons. rewrite decide_False.
  - apply IH. intros j Hj. apply Hsub. by right.
  - intros Hn. apply Hn. apply Hsub. left.
Qed.

(** X11.  Attaching and then detaching the same ids.  When the first
    stored project with the requested id is the dict [d] and its skills
    are a list of integers, [add_skills_to_project] followed by
    [remove_skills_from_project] with the same ids returns the project with
    none of these ids among its skills: the ones just attached are gone,
    and so is every occurrence that was there before. *)
Theorem add_then_remove_skills (iterate_other : json → list json)
    (fs : filesystem) (project_id : Z) (skill_ids l : list Z)
    (before after : list json) (d : gmap string json) :
  stored PROJECTS_DB_FILE fs (before ++ JDict d :: after) →
  Forall (fun x => id_is project_id x = Return false) before →
  id_is project_id (JDict d) = Return true →
  d !! "skills" = Some (JList (JInt <$> l)) →
  (add_skills_to_project project_id skill_ids ;;
   remove_skills_from_project iterate_other project_id skill_ids) fs
  = (Return (JDict (<["skills" :=
                       JList (JInt <$> filter (fun i => i ∉ skill_ids) l)]> d)),
     <[PROJECTS_DB_FILE := Document
         (JList (before
                 ++ JDict (<["skills" :=
                              JList (JInt <$> filter (fun i => i ∉ skill_ids) l)]> d)
                 :: after))]> fs).
Proof.
  intros Hst Hpre Hr Hl. unfold bind at 1.
  rewrite (add_skills_to_list _ _ skill_ids _ _ _ _ Hst Hpre Hr Hl).
  rewrite (remove_skills_scan iterate_other _ project_id skill_ids before
             (<["skills" := JList ((JInt <$> l) ++ (JInt <$> skill_ids))]> d)
             after (stored_save _ _ _)).
  - unfold bind, lift, drop_skills. cbn [subscript].
    rewrite lookup_insert_eq. cbn.
    rewrite <- fmap_app, filter_out_ints, filter_app.
    rewrite (filter_out_all skill_ids skill_ids) by done.
    by rewrite app_nil_r, !insert_insert_eq.
  - eapply Forall_impl; [exact Hpre|]. apply id_is_has_skills.
  - unfold has_skills.
    assert (id_is project_id
              (JDict (<["skills" := JList ((JInt <$> l) ++ (JInt <$> skill_ids))]> d))
            = id_is project_id (JDict d)) as ->.
    { unfold id_is. simpl. by rewrite lookup_insert_ne. }
    rewrite Hr. simpl. by rewrite lookup_insert_eq.
Qed.

Lemma add_then_remove_skills_witness :
  stored PROJECTS_DB_FILE skilled_store ([] ++ JDict stored_fields_s :: [])
  ∧ Forall (fun x => id_is 1 x = Return false) []
  ∧ id_is 1 (JDict stored_fields_s) = Return true
  ∧ stored_fields_s !! "skills" = Some (JList (JInt <$> [3; 4; 3; 5]))
  ∧ (add_skills_to_project 1 [3; 9] ;;
     remove_skills_from_project (fun _ => []) 1 [3; 9]) skilled_store
    = (Return (JDict (<["skills" :=
                         JList (JInt <$> filter (fun i => i ∉ [3; 9]) [3; 4; 3; 5])]>
                        stored_fields_s)),
       <[PROJECTS_DB_FILE := Document
           (JList ([] ++ JDict (<["skills" :=
                                   JList (JInt <$> filter (fun i => i ∉ [3; 9])
                                                          [3; 4; 3; 5])]>
                                  stored_fields_s) :: []))]> skilled_store).
Proof.
  split; [reflexivity|]. split; [constructor|]. split; [reflexivity|].
  split; [reflexivity|].
  apply (add_then_remove_skills (fun _ => []) skilled_store 1 [3; 9]
           [3; 4; 3; 5] [] [] stored_fields_s eq_refl (Forall_nil_2 _) eq_refl).
  reflexivity.
Defined.

(* ===================================================================== *)
(** * Skills *)
(* ===================================================================== *)

Lemma create_skill_run skill fs skills ids :
  stored SKILLS_DB_FILE fs skills → record_ids skills = Some ids →
  create_skill skill fs =
    (Return (JDict (<["id" := JInt (fresh_id ids)]> (Skill.dict skill))),
     <[SKILLS_DB_FILE := Document
         (JList (skills ++ [JDict (<["id" := JInt (fresh_id ids)]>
                                     (Skill.dict skill))]))]> fs).
Proof.
  intros Hst Hids. unfold create_skill, bind. rewrite Hst.
  unfold lift. by rewrite (next_id_fresh _ _ Hids).
Qed.

(** X12.  Creating and reading a skill.  On a collection of records with
    integer ids, [create_skill] returns the submitted skill under the id 1
    when the collection is empty and under the greatest stored id plus one
    otherwise, appends it to the stored collection, and a [get_skill] of
    that id right afterwards returns the same record. *)
Theorem create_then_get_skill (fs : filesystem) (skill : Skill.t)
    (skills : list json) (ids : list Z) :
  stored SKILLS_DB_FILE fs skills → record_ids skills = Some ids →
  created SKILLS_DB_FILE (Skill.dict skill) fs skills ids
    (create_skill skill fs)
  ∧ ∃ r new_id fs',
      create_skill skill fs = (Return r, fs')
      ∧ record_id r = Some new_id
      ∧ (new_id ∉ ids)
      ∧ get_skill new_id fs' = (Return r, fs').
Proof.
  intros Hst Hids. rewrite (create_skill_run _ _ _ _ Hst Hids).
  split; [by apply created_fresh|].
  eexists _, (fresh_id ids), _. split; [reflexivity|].
  split; [apply record_id_new|]. split; [apply fresh_id_not_in|].
  destruct (new_record_is_first skills ids (Skill.dict skill) Hids)
    as [Hpre Hr].
  by apply (get_scan_found (id_is (fresh_id ids)) SKILLS_DB_FILE
              "Skill not found" _ skills _ [] (stored_save _ _ _)).
Qed.

Lemma create_then_get_skill_witness :
  stored SKILLS_DB_FILE one_skill [stored_skill_a]
  ∧ record_ids [stored_skill_a] = Some [1]
  ∧ created SKILLS_DB_FILE (Skill.dict skill_b) one_skill [stored_skill_a] [1]
      (create_skill skill_b one_skill)
  ∧ ∃ r new_id fs',
      create_skill skill_b one_skill = (Return r, fs')
      ∧ record_id r = Some new_id
      ∧ (new_id ∉ [1])
      ∧ get_skill new_id fs' = (Return r, fs').
Proof.
  split; [reflexivity|]. split; [reflexivity|].
  apply (create_then_get_skill one_skill skill_b [stored_skill_a] [1]);
    reflexivity.
Defined.

Lemma updated_lookup protected payload (d : gmap string json) k v :
  k ∉ protected → payload !! k = Some v →
  (exclude protected payload ∪ d) !! k = Some v.
Proof.
  intros Hk Hv. rewrite (merged_update protected payload d k).
  rewrite decide_False by done. by rewrite Hv.
Qed.

(** X13.  Updating a skill.  On a collection of records with integer ids,
    an [update_skill] of an id in use returns the first record with that
    id, still under that id whatever id the payload carries, with the
    payload's name and description; the record is stored, and a
    [get_skill] of the id right afterwards returns it.  An id that is not
    in use gives the HTTP error 404 "Skill not found" and no write. *)
Theorem update_skill_keeps_id (fs : filesystem) (skill_id : Z)
    (updated_skill : Skill.t) (skills : list json) (ids : list Z) :
  stored SKILLS_DB_FILE fs skills → record_ids skills = Some ids →
  (skill_id ∈ ids →
   ∃ r fs',
     update_skill skill_id updated_skill fs = (Return r, fs')
     ∧ record_id r = Some skill_id
     ∧ subscript r "name" = Return (JStr (Skill.name updated_skill))
     ∧ subscript r "description"
       = Return (JStr (Skill.description updated_skill))
     ∧ get_skill skill_id fs' = (Return r, fs'))
  ∧ (skill_id ∉ ids →
     update_skill skill_id updated_skill fs
     = (Raise (not_found "Skill not found"), fs)).
Proof.
  intros Hst Hids. split.
  - intros Hin.
    destruct (first_with_id _ _ _ Hids Hin)
      as (before & r & after & -> & Hpre & Hr & _ & Hr').
    destruct (id_is_dict _ _ _ Hr) as [d ->].
    assert (record_id (JDict (exclude ["id"] (Skill.dict updated_skill) ∪ d))
            = Some skill_id) as Hid.
    { rewrite (record_id_updated ["id"] (Skill.dict updated_skill) d); [done|].
      left. }
    eexists _, _. split.
    { unfold update_skill.
      by apply (update_scan_run (id_is skill_id) SKILLS_DB_FILE ["id"]
                  (Skill.dict updated_skill) fs before d after). }
    split; [exact Hid|].
    split; [|split].
    + unfold subscript.
      assert ("name" ∉ ["id"]) as Hk by (by intros ?%list_elem_of_singleton).
      by rewrite (updated_lookup ["id"] (Skill.dict updated_skill) d "name" _
                    Hk eq_refl).
    + unfold subscript.
      assert ("description" ∉ ["id"]) as Hk by (by intros ?%list_elem_of_singleton).
      by rewrite (updated_lookup ["id"] (Skill.dict updated_skill) d "description" _
                    Hk eq_refl).
    + apply (get_scan_found (id_is skill_id) SKILLS_DB_FILE
               "Skill not found" _ before _ after (stored_save _ _ _) Hpre).
      rewrite (id_is_int skill_id _ skill_id Hid). by rewrite Z.eqb_refl.
  - intros Hout. unfold update_skill, bind. rewrite Hst. unfold lift.
    rewrite first_match_none; [reflexivity|].
    by apply (no_record_with_id _ ids).
Qed.

Lemma update_skill_keeps_id_witness :
  stored SKILLS_DB_FILE one_skill [stored_skill_a]
  ∧ record_ids [stored_skill_a] = Some [1]
  ∧ (1 ∈ [1]
     ∧ ∃ r fs',
         update_skill 1 skill_b one_skill = (Return r, fs')
         ∧ record_id r = Some 1
         ∧ subscript r "name" = Return (JStr "go")
         ∧ subscript r "description" = Return (JStr "services")
         ∧ get_skill 1 fs' = (Return r, fs'))
  ∧ ((12 ∉ [1])
     ∧ update_skill 12 skill_b one_skill
       = (Raise (not_found "Skill not found"), one_skill)).
Proof.
  assert (12 ∉ [1]) as H12.
  { intros H. apply list_elem_of_singleton in H. discriminate H. }
  destruct (update_skill_keeps_id one_skill 1 skill_b [stored_skill_a] [1]
              eq_refl eq_refl) as [Hin _].
  destruct (update_skill_keeps_id one_skill 12 skill_b [stored_skill_a] [1]
              eq_refl eq_refl) as [_ Hout].
  split; [reflexivity|]. split; [reflexivity|]. split.
  - split; [left|]. apply Hin. left.
  - split; [exact H12 | exact (Hout H12)].
Defined.

(** X14.  Deleting a skill.  On a collection of records with integer ids,
    [delete_skill] of an id in use returns the success message and stores
    the collection without the records carrying that id, after which
    [get_skill] of the id raises the HTTP error 404; [delete_skill] of an
    id that is not in use raises the HTTP error 404 "Skill not found" and
    leaves the files as they were. *)
Theorem delete_skill_removes_or_not_found (fs : filesystem) (skill_id : Z)
    (skills : list json) (ids : list Z) :
  stored SKILLS_DB_FILE fs skills → record_ids skills = Some ids →
  (skill_id ∈ ids →
   ∃ fs',
     delete_skill skill_id fs
     = (Return (JDict {[ "detail" := JStr "Skill deleted" ]}), fs')
     ∧ stored SKILLS_DB_FILE fs'
         (filter (fun r => record_id r ≠ Some skill_id) skills)
     ∧ get_skill skill_id fs' = (Raise (not_found "Skill not found"), fs'))
  ∧ (skill_id ∉ ids →
     delete_skill skill_id fs = (Raise (not_found "Skill not found"), fs)).
Proof.
  intros Hst Hids.
  pose proof (no_key_Forall record_id skills ids skill_id Hids) as Hno.
  unfold delete_skill.
  rewrite (delete_scan_run (id_is skill_id)
             (fun r => record_id r = Some skill_id)
             _ _ _ _ _ Hst (id_is_decide _ _ _ Hids)).
  split; intros Hin; case_decide as Hall.
  - by apply Hno in Hall.
  - eexists. split; [reflexivity|]. split; [apply stored_save|].
    apply (get_scan_missing (id_is skill_id) SKILLS_DB_FILE
             "Skill not found" _ _ (stored_save _ _ _)).
    eapply no_record_with_id; [by apply record_ids_filter|].
    apply not_in_filtered.
  - reflexivity.
  - by apply Hno in Hin.
Qed.

Lemma delete_skill_removes_or_not_found_witness :
  stored SKILLS_DB_FILE one_skill [stored_skill_a]
  ∧ record_ids [stored_skill_a] = Some [1]
  ∧ (1 ∈ [1]
     ∧ ∃ fs',
         delete_skill 1 one_skill
         = (Return (JDict {[ "detail" := JStr "Skill deleted" ]}), fs')
         ∧ stored SKILLS_DB_FILE fs'
             (filter (fun r => record_id r ≠ Some 1) [stored_skill_a])
         ∧ get_skill 1 fs' = (Raise (not_found "Skill not found"), fs'))
  ∧ ((2 ∉ [1])
     ∧ delete_skill 2 one_skill
       = (Raise (not_found "Skill not found"), one_skill)).
Proof.
  assert (2 ∉ [1]) as H2.
  { intros H. apply list_elem_of_singleton in H. discriminate H. }
  destruct (delete_skill_removes_or_not_found one_skill 1 [stored_skill_a] [1]
              eq_refl eq_refl) as [Hin _].
  destruct (delete_skill_removes_or_not_found one_skill 2 [stored_skill_a] [1]
              eq_refl eq_refl) as [_ Hout].
  split; [reflexivity|]. split; [reflexivity|]. split.
  - split; [left|]. apply Hin. left.
  - split; [exact H2 | exact (Hout H2)].
Defined.

(* ===================================================================== *)
(** * Users: registration and login *)
(* ===================================================================== *)

Lemma str_field_subscript key r s :
  str_field key r = Some s → subscript r key = Return (JStr s).
Proof.
  destruct r as [| | | | |d]; try discriminate. simpl.
  destruct (d !! key) as [[]|]; try discriminate. by intros [= ->].
Qed.

Lemma credentials_match_decide user u c :
  credentials u = Some c →
  credentials_match user u = Return (bool_decide (c = claimed user)).
Proof.
  unfold credentials, credentials_match, claimed.
  destruct (str_field "first_name" u) as [a|] eqn:Ha; [|discriminate]. simpl.
  destruct (str_field "last_name" u) as [b|] eqn:Hb; [|discriminate]. simpl.
  destruct (str_field "password" u) as [p|] eqn:Hp; [|discriminate]. simpl.
  intros [= <-].
  rewrite (str_field_subscript _ _ _ Ha). simpl.
  destruct (decide (a = User.first_name user)) as [->|Hne].
  2:{ rewrite bool_decide_false by done.
      symmetry. f_equal. apply bool_decide_false. congruence. }
  rewrite bool_decide_true by done.
  rewrite (str_field_subscript _ _ _ Hb). simpl.
  destruct (decide (b = User.last_name user)) as [->|Hne].
  2:{ rewrite bool_decide_false by done.
      symmetry. f_equal. apply bool_decide_false. congruence. }
  rewrite bool_decide_true by done.
  rewrite (str_field_subscript _ _ _ Hp). simpl. f_equal.
  apply bool_decide_ext. split; congruence.
Qed.

Lemma credentials_match_each user users creds :
  mapM credentials users = Some creds →
  Forall2 (fun u c => credentials_match user u
                      = Return (bool_decide (c = claimed user))) users creds.
Proof.
  rewrite mapM_Some. intros H. eapply Forall2_impl; [exact H|].
  intros u c. apply credentials_match_decide.
Qed.

(** Among users with credentials, a claimed triple that is stored has a
    first user carrying it. *)
Lemma first_with_credentials user users creds :
  mapM credentials users = Some creds → claimed user ∈ creds →
  ∃ before u after,
    users = before ++ u :: after
    ∧ Forall (fun x => credentials_match user x = Return false) before
    ∧ credentials_match user u = Return true
    ∧ Forall (fun x => credentials x ≠ Some (claimed user)) before
    ∧ credentials u = Some (claimed user).
Proof.
  intros Hcreds Hin.
  destruct (first_hit (credentials_match user)
              (fun c => bool_decide (c = claimed user)) users creds)
    as (before & u & after & -> & Hpre & Hu).
  { by apply credentials_match_each. }
  { exists (claimed user). split; [done | by apply bool_decide_true]. }
  exists before, u, after. split; [done|]. split; [done|]. split; [done|].
  rewrite mapM_Some in Hcreds.
  apply Forall2_app_inv_l in Hcreds as (c1 & c2 & H1 & H2 & ->).
  inversion H2 as [|? c ? rest Hc _]; subst. split.
  - clear -H1 Hpre. induction H1 as [|x c' before c1 Hx _ IH]; [constructor|].
    apply Forall_cons in Hpre as [Hx' Hpre]. constructor; [|by apply IH].
    rewrite (credentials_match_decide _ _ _ Hx) in Hx'. rewrite Hx.
    intros [= ->]. by rewrite bool_decide_true in Hx'.
  - rewrite (credentials_match_decide _ _ _ Hc) in Hu. rewrite Hc. f_equal.
    injection Hu as Hu. by apply bool_decide_eq_true in Hu.
Qed.

Lemma login_scan_found user fs before u after :
  stored USERS_DB_FILE fs (before ++ u :: after) →
  Forall (fun x => credentials_match user x = Return false) before →
  credentials_match user u = Return true →
  login_user user fs = (Return u, fs).
Proof.
  intros Hst Hpre Hu. unfold login_user, bind. rewrite Hst. unfold lift.
  by rewrite (first_match_some _ [] before u after Hpre Hu).
Qed.

(** X15.  Login.  On users that each have a first name, a last name and a
    password, [login_user] returns the first stored user whose three
    fields equal the submitted ones, and raises the HTTP error 400
    "Incorrect username or password" when no stored user has them; the id
    of the payload plays no part, and the files stay as they were. *)
Theorem login_first_match_or_rejected (fs : filesystem) (user : User.t)
    (users : list json) (creds : list (string * string * string)) :
  stored USERS_DB_FILE fs users → mapM credentials users = Some creds →
  (claimed user ∈ creds →
   ∃ before u after,
     users = before ++ u :: after
     ∧ Forall (fun x => credentials x ≠ Some (claimed user)) before
     ∧ credentials u = Some (claimed user)
     ∧ login_user user fs = (Return u, fs))
  ∧ (claimed user ∉ creds →
     login_user user fs
     = (Raise (HTTPException 400 "Incorrect username or password"), fs)).
Proof.
  intros Hst Hcreds. split.
  - intros Hin.
    destruct (first_with_credentials _ _ _ Hcreds Hin)
      as (before & u & after & -> & Hpre & Hu & Hpre' & Hu').
    exists before, u, after. split; [done|]. split; [done|]. split; [done|].
    by apply (login_scan_found user fs before u after).
  - intros Hout. unfold login_user, bind. rewrite Hst. unfold lift.
    rewrite first_match_none; [reflexivity|].
    eapply no_hit; [by apply credentials_match_each|].
    intros c Hc. apply bool_decide_false. congruence.
Qed.

Lemma login_first_match_or_rejected_witness :
  stored USERS_DB_FILE one_user [stored_user_ann]
  ∧ mapM credentials [stored_user_ann] = Some [("Ann", "Lee", "pw")]
  ∧ (claimed user_ann_again ∈ [("Ann", "Lee", "pw")]
     ∧ ∃ before u after,
         [stored_user_ann] = before ++ u :: after
         ∧ Forall (fun x => credentials x ≠ Some (claimed user_ann_again)) before
         ∧ credentials u = Some (claimed user_ann_again)
         ∧ login_user user_ann_again one_user = (Return u, one_user))
  ∧ ((claimed user_bob ∉ [("Ann", "Lee", "pw")])
     ∧ login_user user_bob one_user
       = (Raise (HTTPException 400 "Incorrect username or password"),
          one_user)).
Proof.
  assert (claimed user_bob ∉ [("Ann", "Lee", "pw")]) as Hbob.
  { intros H. apply list_elem_of_singleton in H. discriminate H. }
  destruct (login_first_match_or_rejected one_user user_ann_again
              [stored_user_ann] [("Ann", "Lee", "pw")] eq_refl eq_refl)
    as [Hin _].
  destruct (login_first_match_or_rejected one_user user_bob
              [stored_user_ann] [("Ann", "Lee", "pw")] eq_refl eq_refl)
    as [_ Hout].
  split; [reflexivity|]. split; [reflexivity|]. split.
  - split; [left|]. apply Hin. left.
  - split; [exact Hbob | exact (Hout Hbob)].
Defined.

Lemma credentials_new n user :
  credentials (JDict (<["id" := JInt n]> (User.dict user)))
  = Some (claimed user).
Proof.
  unfold credentials, str_field, claimed, User.dict. by simplify_map_eq.
Qed.

(** X16.  Logging in after registering.  On users with integer ids, first
    name, last name and password, a [login_user] right after a
    [register_user], with the same first name, last name and password and
    any id in the payload, returns a stored user with these three fields;
    it is the record just registered when no user stored before had
    them, and an older user otherwise. *)
Theorem register_then_login (fs : filesystem) (user again : User.t)
    (users : list json) (ids : list Z)
    (creds : list (string * string * string)) :
  stored USERS_DB_FILE fs users → record_ids users = Some ids →
  mapM credentials users = Some creds →
  claimed again = claimed user →
  ∃ r u fs',
    register_user user fs = (Return r, fs')
    ∧ login_user again fs' = (Return u, fs')
    ∧ credentials u = Some (claimed user)
    ∧ (claimed user ∉ creds → u = r)
    ∧ (claimed user ∈ creds → u ∈ users).
Proof.
  intros Hst Hids Hcreds Hsame.
  set (r := JDict (<["id" := JInt (fresh_id ids)]> (User.dict user))).
  assert (credentials_match again r = Return true) as Hr.
  { unfold r.
    rewrite (credentials_match_decide again _ _
               (credentials_new (fresh_id ids) user)).
    by rewrite bool_decide_true. }
  destruct (decide (claimed user ∈ creds)) as [Hin|Hout].
  - rewrite <- Hsame in Hin.
    destruct (first_with_credentials _ _ _ Hcreds Hin)
      as (before & u & after & -> & Hpre & Hu & _ & Hu').
    eexists r, u, _. split; [by apply register_user_run|].
    split.
    { apply (login_scan_found again _ before u (after ++ [r])); [|done|done].
      rewrite app_comm_cons, app_assoc. apply stored_save. }
    split; [by rewrite <- Hsame|]. split.
    + intros Hn. destruct Hn. by rewrite <- Hsame.
    + intros _. apply elem_of_app. right. left.
  - eexists r, r, _. split; [by apply register_user_run|].
    split.
    { apply (login_scan_found again _ users r []); [apply stored_save| |done].
      eapply no_hit; [by apply credentials_match_each|].
      intros c Hc. apply bool_decide_false. congruence. }
    split; [apply credentials_new|]. split; [done|].
    intros Hin. by destruct Hout.
Qed.

Lemma register_then_login_witness :
  stored USERS_DB_FILE ∅ [] ∧ record_ids [] = Some []
  ∧ mapM credentials [] = Some []
  ∧ claimed user_ann_again = claimed user_ann
  ∧ ∃ r u fs',
      register_user user_ann ∅ = (Return r, fs')
      ∧ login_user user_ann_again fs' = (Return u, fs')
      ∧ credentials u = Some (claimed user_ann)
      ∧ u = r.
Proof.
  split; [reflexivity|]. split; [reflexivity|]. split; [reflexivity|].
  split; [reflexivity|].
  assert (stored USERS_DB_FILE ∅ []) as Hst by reflexivity.
  destruct (register_then_login ∅ user_ann user_ann_again [] [] []
              Hst eq_refl eq_refl eq_refl)
    as (r & u & fs' & Hreg & Hlog & Hcred & Hnew & _).
  exists r, u, fs'. split; [exact Hreg|]. split; [exact Hlog|].
  split; [exact Hcred|]. apply Hnew. apply not_elem_of_nil.
Defined.

(* ===================================================================== *)
(** * Tasks *)
(* ===================================================================== *)

Lemma task_keys_ids tasks keys :
  mapM task_key tasks = Some keys → record_ids tasks = Some keys.*1.
Proof.
  unfold record_ids. rewrite !mapM_Some. intros H.
  induction H as [|r [i p] tasks keys Hr _ IH]; [constructor|].
  simpl. constructor; [|done].
  unfold task_key in Hr. destruct (record_id r); [|discriminate].
  simpl in Hr. destruct (int_field "project_id" r); [|discriminate].
  simpl in Hr. congruence.
Qed.

Lemma task_key_new n project_id task :
  task_key (JDict (<["project_id" := JInt project_id]>
                     (<["id" := JInt n]> (Task.dict task))))
  = Some (n, project_id).
Proof.
  unfold task_key, record_id, int_field, Task.dict. by simplify_map_eq.
Qed.

Lemma create_task_run project_id task fs tasks ids :
  stored TASKS_DB_FILE fs tasks → record_ids tasks = Some ids →
  create_task project_id task fs =
    (Return (JDict (<["project_id" := JInt project_id]>
                      (<["id" := JInt (fresh_id ids)]> (Task.dict task)))),
     <[TASKS_DB_FILE := Document
         (JList (tasks ++ [JDict (<["project_id" := JInt project_id]>
                                    (<["id" := JInt (fresh_id ids)]>
                                       (Task.dict task)))]))]> fs).
Proof.
  intros Hst Hids. unfold create_task, bind. rewrite Hst.
  unfold lift. by rewrite (next_id_fresh _ _ Hids).
Qed.

Lemma task_is_decide_key project_id task_id r k :
  task_key r = Some k →
  task_is project_id task_id r
  = Return (bool_decide (k = (task_id, project_id))).
Proof.
  destruct k as [i p]. intros Hr. rewrite (task_is_ints _ _ _ _ _ Hr). f_equal.
  destruct (Z.eqb_spec i task_id), (Z.eqb_spec p project_id); simpl;
    [by rewrite bool_decide_true; [|congruence]
    | rewrite bool_decide_false; [done|congruence] ..].
Qed.

(** No stored task answers to a task id that is not in use. *)
Lemma no_task_with_fresh_id project_id tasks keys n :
  mapM task_key tasks = Some keys → n ∉ keys.*1 →
  Forall (fun x => task_is project_id n x = Return false) tasks.
Proof.
  intros Hkeys Hout. eapply no_hit; [by apply task_is_each|].
  intros [i p] Hk. apply bool_decide_false. intros [= -> ->].
  apply Hout. apply list_elem_of_fmap. by exists (n, project_id).
Qed.

(** X17.  Creating a task.  On tasks with integer ids and projects,
    [create_task] returns the submitted task under an id that no stored
    task has and under the project of the path, whatever project the body
    names; the task is appended to the stored collection; a [get_task]
    with the path's project and the new id returns it, and a [get_task]
    with the body's project, when that is another one, raises the HTTP
    error 404. *)
Theorem create_task_takes_path_project (fs : filesystem) (project_id : Z)
    (task : Task.t) (tasks : list json) (keys : list (Z * Z)) :
  stored TASKS_DB_FILE fs tasks → mapM task_key tasks = Some keys →
  ∃ r new_id fs',
    create_task project_id task fs = (Return r, fs')
    ∧ task_key r = Some (new_id, project_id)
    ∧ (new_id ∉ keys.*1)
    ∧ subscript r "name" = Return (JStr (Task.name task))
    ∧ stored TASKS_DB_FILE fs' (tasks ++ [r])
    ∧ get_task project_id new_id fs' = (Return r, fs')
    ∧ (Task.project_id task ≠ project_id →
       get_task (Task.project_id task) new_id fs'
       = (Raise (not_found "Task not found"), fs')).
Proof.
  intros Hst Hkeys. pose proof (task_keys_ids _ _ Hkeys) as Hids.
  eexists _, (fresh_id keys.*1), _.
  split; [by apply create_task_run|].
  split; [apply task_key_new|]. split; [apply fresh_id_not_in|].
  split; [unfold subscript, Task.dict; by simplify_map_eq|].
  split; [apply stored_save|]. split.
  - unfold get_task.
    apply (get_scan_found (task_is project_id (fresh_id keys.*1))
             TASKS_DB_FILE "Task not found" _ tasks _ [] (stored_save _ _ _)).
    + apply (no_task_with_fresh_id _ _ keys); [done | apply fresh_id_not_in].
    + rewrite (task_is_decide_key _ _ _ _ (task_key_new _ _ _)).
      by rewrite bool_decide_true.
  - intros Hne. unfold get_task.
    apply (get_scan_missing (task_is (Task.project_id task) (fresh_id keys.*1))
             TASKS_DB_FILE "Task not found" _ _ (stored_save _ _ _)).
    apply Forall_app. split.
    + apply (no_task_with_fresh_id _ _ keys); [done | apply fresh_id_not_in].
    + constructor; [|constructor].
      rewrite (task_is_decide_key _ _ _ _ (task_key_new _ _ _)).
      rewrite bool_decide_false; [done|]. intros [= E]. by apply Hne.
Qed.

Lemma create_task_takes_path_project_witness :
  stored TASKS_DB_FILE task_store [created_task_a]
  ∧ mapM task_key [created_task_a] = Some [(1, 1)]
  ∧ Task.project_id task_b ≠ 1
  ∧ ∃ r new_id fs',
      create_task 1 task_b task_store = (Return r, fs')
      ∧ task_key r = Some (new_id, 1)
      ∧ (new_id ∉ [(1, 1)].*1)
      ∧ subscript r "name" = Return (JStr (Task.name task_b))
      ∧ stored TASKS_DB_FILE fs' ([created_task_a] ++ [r])
      ∧ get_task 1 new_id fs' = (Return r, fs')
      ∧ get_task (Task.project_id task_b) new_id fs'
        = (Raise (not_found "Task not found"), fs').
Proof.
  split; [reflexivity|]. split; [reflexivity|]. split; [discriminate|].
  destruct (create_task_takes_path_project task_store 1 task_b
              [created_task_a] [(1, 1)] eq_refl eq_refl)
    as (r & new_id & fs' & H1 & H2 & H3 & H4 & H5 & H6 & H7).
  exists r, new_id, fs'. repeat (split; [assumption|]).
  apply H7. discriminate.
Defined.

Lemma comprehension_keep (test : json → result bool) (P : json → Prop)
    {dec : ∀ r, Decision (P r)} (records : list json) :
  Forall (fun r => test r = Return (bool_decide (P r))) records →
  comprehension test records = Return (filter P records).
Proof.
  induction 1 as [|r records Hr _ IH]; [reflexivity|].
  change (comprehension test (r :: records))
    with (b ← test r;
          kept ← comprehension test records;
          Return (if b : bool then r :: kept else kept)).
  rewrite IH, Hr. simpl. rewrite filter_cons.
  destruct (decide (P r)) as [HP|HP].
  - by rewrite bool_decide_true.
  - by rewrite bool_decide_false.
Qed.

Lemma field_is_decide key wanted records (keys : list (Z * Z)) :
  mapM task_key records = Some keys → key = "project_id" →
  Forall (fun r => field_is key wanted r
                   = Return (bool_decide (int_field key r = Some wanted)))
         records.
Proof.
  intros Hkeys ->. rewrite mapM_Some in Hkeys.
  induction Hkeys as [|r [i p] records keys Hr _ IH]; constructor; [|done].
  unfold task_key in Hr. destruct (record_id r); [|discriminate].
  simpl in Hr.
  destruct (int_field "project_id" r) as [p'|] eqn:Hp; [|discriminate].
  unfold field_is. rewrite (int_field_subscript _ _ _ Hp). simpl. f_equal.
  destruct (Z.eqb_spec p' wanted);
    [rewrite bool_decide_true | rewrite bool_decide_false]; congruence.
Qed.

Lemma get_tasks_run project_id fs tasks keys :
  stored TASKS_DB_FILE fs tasks → mapM task_key tasks = Some keys →
  get_tasks project_id fs
  = (Return (filter (fun r => int_field "project_id" r = Some project_id) tasks),
     fs).
Proof.
  intros Hst Hkeys. unfold get_tasks, bind. rewrite Hst. unfold lift.
  by rewrite (comprehension_keep (field_is "project_id" project_id)
                (fun r => int_field "project_id" r = Some project_id) tasks
                (field_is_decide _ _ _ _ Hkeys eq_refl)).
Qed.

(** X18.  Listing the tasks of a project.  On tasks with integer ids and
    projects, [get_tasks] returns the stored tasks whose project is the
    requested one, in their stored order and no others, and leaves the
    files as they were; for a project without tasks the listing is empty,
    and no error is raised. *)
Theorem get_tasks_of_project (fs : filesystem) (project_id : Z)
    (tasks : list json) (keys : list (Z * Z)) :
  stored TASKS_DB_FILE fs tasks → mapM task_key tasks = Some keys →
  get_tasks project_id fs
  = (Return (filter (fun r => int_field "project_id" r = Some project_id) tasks),
     fs)
  ∧ (project_id ∉ keys.*2 → get_tasks project_id fs = (Return [], fs)).
Proof.
  intros Hst Hkeys. rewrite (get_tasks_run _ _ _ _ Hst Hkeys).
  split; [reflexivity|]. intros Hout. f_equal. f_equal.
  rewrite mapM_Some in Hkeys. clear Hst.
  induction Hkeys as [|r [i p] tasks keys Hr _ IH]; [reflexivity|].
  simpl in Hout. apply not_elem_of_cons in Hout as [Hp Hout].
  rewrite filter_cons, (IH Hout). rewrite decide_False; [done|].
  unfold task_key in Hr. destruct (record_id r); [|discriminate].
  simpl in Hr. destruct (int_field "project_id" r); [|discriminate].
  simpl in Hr. congruence.
Qed.

Lemma get_tasks_of_project_witness :
  stored TASKS_DB_FILE task_store [created_task_a]
  ∧ mapM task_key [created_task_a] = Some [(1, 1)]
  ∧ get_tasks 1 task_store
    = (Return (filter (fun r => int_field "project_id" r = Some 1)
                      [created_task_a]), task_store)
  ∧ filter (fun r => int_field "project_id" r = Some 1) [created_task_a]
    = [created_task_a]
  ∧ (2 ∉ [(1, 1)].*2)
  ∧ get_tasks 2 task_store = (Return [], task_store).
Proof.
  assert (2 ∉ [(1, 1)].*2) as H2.
  { intros H. apply list_elem_of_singleton in H. discriminate H. }
  destruct (get_tasks_of_project task_store 1 [created_task_a] [(1, 1)]
              eq_refl eq_refl) as [H1 _].
  destruct (get_tasks_of_project task_store 2 [created_task_a] [(1, 1)]
              eq_refl eq_refl) as [_ Hnone].
  split; [reflexivity|]. split; [reflexivity|]. split; [exact H1|].
  split; [reflexivity|]. split; [exact H2 | exact (Hnone H2)].
Defined.

(** X19.  A new task and the listings.  On tasks with integer ids and
    projects, after [create_task] under a project the listing of that
    project is its old listing followed by the new task, and the listing
    of every other project is what it was. *)
Theorem create_task_extends_listing (fs : filesystem) (project_id other : Z)
    (task : Task.t) (tasks : list json) (keys : list (Z * Z)) :
  stored TASKS_DB_FILE fs tasks → mapM task_key tasks = Some keys →
  ∃ r fs' listing,
    create_task project_id task fs = (Return r, fs')
    ∧ get_tasks other fs = (Return listing, fs)
    ∧ get_tasks other fs'
      = (Return (if decide (other = project_id) then listing ++ [r]
                 else listing), fs').
Proof.
  intros Hst Hkeys. pose proof (task_keys_ids _ _ Hkeys) as Hids.
  eexists _, _, _. split; [by apply create_task_run|].
  split; [by apply (get_tasks_run _ _ tasks keys)|].
  assert (mapM task_key
            (tasks ++ [JDict (<["project_id" := JInt project_id]>
                                (<["id" := JInt (fresh_id keys.*1)]>
                                   (Task.dict task)))])
          = Some (keys ++ [(fresh_id keys.*1, project_id)])) as Hkeys'.
  { rewrite mapM_Some. apply Forall2_app; [by apply mapM_Some|].
    constructor; [apply task_key_new | constructor]. }
  rewrite (get_tasks_run _ _ _ _ (stored_save _ _ _) Hkeys').
  f_equal. f_equal. rewrite filter_app, filter_cons, filter_nil.
  assert (int_field "project_id"
            (JDict (<["project_id" := JInt project_id]>
                      (<["id" := JInt (fresh_id keys.*1)]> (Task.dict task))))
          = Some project_id) as Hp.
  { unfold int_field. by rewrite lookup_insert_eq. }
  rewrite Hp. destruct (decide (other = project_id)) as [->|Hne].
  - by rewrite decide_True.
  - rewrite decide_False; [apply app_nil_r | congruence].
Qed.

Lemma create_task_extends_listing_witness :
  stored TASKS_DB_FILE task_store [created_task_a]
  ∧ mapM task_key [created_task_a] = Some [(1, 1)]
  ∧ ∃ r fs' listing,
      create_task 2 task_b task_store = (Return r, fs')
      ∧ get_tasks 1 task_store = (Return listing, task_store)
      ∧ get_tasks 1 fs'
        = (Return (if decide (1 = 2) then listing ++ [r] else listing), fs').
Proof.
  split; [reflexivity|]. split; [reflexivity|].
  apply (create_task_extends_listing task_store 2 1 task_b
           [created_task_a] [(1, 1)]); reflexivity.
Defined.

Lemma first_with_key {K} `{EqDecision K} (key : json → option K)
    (test : json → result bool) (wanted : K) (records : list json)
    (keys : list K) :
  (∀ r k, key r = Some k → test r = Return (bool_decide (k = wanted))) →
  mapM key records = Some keys → wanted ∈ keys →
  ∃ before r after,
    records = before ++ r :: after
    ∧ Forall (fun x => test x = Return false) before
    ∧ test r = Return true
    ∧ Forall (fun x => key x ≠ Some wanted) before
    ∧ key r = Some wanted.
Proof.
  intros Htest Hkeys Hin. rewrite mapM_Some in Hkeys.
  destruct (first_hit test (fun k => bool_decide (k = wanted)) records keys)
    as (before & r & after & -> & Hpre & Hr).
  { eapply Forall2_impl; [exact Hkeys|]. apply Htest. }
  { exists wanted. split; [done | by apply bool_decide_true]. }
  exists before, r, after. split; [done|]. split; [done|]. split; [done|].
  apply Forall2_app_inv_l in Hkeys as (k1 & k2 & H1 & H2 & ->).
  inversion H2 as [|? k ? rest Hk _]; subst. split.
  - clear -H1 Hpre Htest.
    induction H1 as [|x k' before k1 Hx _ IH]; [constructor|].
    apply Forall_cons in Hpre as [Hx' Hpre]. constructor; [|by apply IH].
    rewrite (Htest _ _ Hx) in Hx'. rewrite Hx.
    intros [= ->]. by rewrite bool_decide_true in Hx'.
  - rewrite (Htest _ _ Hk) in Hr. rewrite Hk. f_equal.
    injection Hr as Hr. by apply bool_decide_eq_true in Hr.
Qed.

(** X20.  Reading a task.  On tasks with integer ids and projects,
    [get_task] returns the first stored task that has both the requested
    id and the requested project, and raises the HTTP error 404
    "Task not found" when no stored task has both, also when the id is in
    use under another project; the files stay as they were. *)
Theorem get_task_needs_both (fs : filesystem) (project_id task_id : Z)
    (tasks : list json) (keys : list (Z * Z)) :
  stored TASKS_DB_FILE fs tasks → mapM task_key tasks = Some keys →
  ((task_id, project_id) ∈ keys →
   ∃ before r after,
     tasks = before ++ r :: after
     ∧ Forall (fun x => task_key x ≠ Some (task_id, project_id)) before
     ∧ task_key r = Some (task_id, project_id)
     ∧ get_task project_id task_id fs = (Return r, fs))
  ∧ ((task_id, project_id) ∉ keys →
     get_task project_id task_id fs
     = (Raise (not_found "Task not found"), fs)).
Proof.
  intros Hst Hkeys. split.
  - intros Hin.
    destruct (first_with_key task_key (task_is project_id task_id)
                (task_id, project_id) tasks keys
                (task_is_decide_key project_id task_id) Hkeys Hin)
      as (before & r & after & -> & Hpre & Hr & Hpre' & Hr').
    exists before, r, after. split; [done|]. split; [done|]. split; [done|].
    by apply (get_scan_found (task_is project_id task_id) TASKS_DB_FILE
                "Task not found" fs before r after).
  - intros Hout.
    apply (get_scan_missing (task_is project_id task_id) TASKS_DB_FILE
             "Task not found" fs tasks Hst).
    eapply no_hit; [by apply task_is_each|].
    intros k Hk. apply bool_decide_false. congruence.
Qed.

Lemma get_task_needs_both_witness :
  stored TASKS_DB_FILE task_store [created_task_a]
  ∧ mapM task_key [created_task_a] = Some [(1, 1)]
  ∧ ((1, 1) ∈ [(1, 1)]
     ∧ ∃ before r after,
         [created_task_a] = before ++ r :: after
         ∧ Forall (fun x => task_key x ≠ Some (1, 1)) before
         ∧ task_key r = Some (1, 1)
         ∧ get_task 1 1 task_store = (Return r, task_store))
  ∧ (((1, 2) ∉ [(1, 1)])
     ∧ get_task 2 1 task_store
       = (Raise (not_found "Task not found"), task_store)).
Proof.
  assert ((1, 2) ∉ [(1, 1)]) as H12.
  { intros H. apply list_elem_of_singleton in H. discriminate H. }
  destruct (get_task_needs_both task_store 1 1 [created_task_a] [(1, 1)]
              eq_refl eq_refl) as [Hin _].
  destruct (get_task_needs_both task_store 2 1 [created_task_a] [(1, 1)]
              eq_refl eq_refl) as [_ Hout].
  split; [reflexivity|]. split; [reflexivity|]. split.
  - split; [left|]. apply Hin. left.
  - split; [exact H12 | exact (Hout H12)].
Defined.

(* ===================================================================== *)
(** * Participation forms: update and read *)
(* ===================================================================== *)

Lemma form_key_updated (d : gmap string json) form_id updated_form :
  record_id (JDict d) = Some form_id →
  form_key (JDict (exclude ["id"] (ParticipationForm.dict updated_form) ∪ d))
  = Some (form_id, (ParticipationForm.user_id updated_form,
                    ParticipationForm.project_id updated_form)).
Proof.
  intros Hid.
  assert ("user_id" ∉ ["id"]) as Hu by (by intros ?%list_elem_of_singleton).
  assert ("project_id" ∉ ["id"]) as Hp by (by intros ?%list_elem_of_singleton).
  assert (int_field "user_id"
            (JDict (exclude ["id"] (ParticipationForm.dict updated_form) ∪ d))
          = Some (ParticipationForm.user_id updated_form)) as Hu'.
  { unfold int_field.
    by rewrite (updated_lookup ["id"] (ParticipationForm.dict updated_form) d
                  "user_id" _ Hu eq_refl). }
  assert (int_field "project_id"
            (JDict (exclude ["id"] (ParticipationForm.dict updated_form) ∪ d))
          = Some (ParticipationForm.project_id updated_form)) as Hp'.
  { unfold int_field.
    by rewrite (updated_lookup ["id"] (ParticipationForm.dict updated_form) d
                  "project_id" _ Hp eq_refl). }
  unfold form_key.
  rewrite (record_id_updated ["id"] (ParticipationForm.dict updated_form) d)
    by left.
  by rewrite Hid, Hu', Hp'.
Qed.

(** X21.  Updating a form sets its user and project unchecked.  On forms
    with integer ids, users and projects, an [update_form] of an id in use
    returns the first form with that id, under that id and with the user
    and project of the payload, and stores it in its old place; it never
    raises the duplicate-form error.  When a stored form with another id
    already has that user and project, the stored collection afterwards
    holds two forms with the same user and project. *)
Theorem update_form_can_duplicate (fs : filesystem) (form_id : Z)
    (updated_form : ParticipationForm.t) (forms : list json)
    (keys : list (Z * (Z * Z))) :
  stored FORMS_DB_FILE fs forms → mapM form_key forms = Some keys →
  form_id ∈ keys.*1 →
  ∃ r fs' forms' keys',
    update_form form_id updated_form fs = (Return r, fs')
    ∧ form_key r
      = Some (form_id, (ParticipationForm.user_id updated_form,
                        ParticipationForm.project_id updated_form))
    ∧ stored FORMS_DB_FILE fs' forms'
    ∧ r ∈ forms'
    ∧ mapM form_key forms' = Some keys'
    ∧ ((∃ other, other ≠ form_id
                 ∧ (other, (ParticipationForm.user_id updated_form,
                            ParticipationForm.project_id updated_form)) ∈ keys) →
       ¬ NoDup keys'.*2).
Proof.
  intros Hst Hkeys Hin.
  destruct (first_with_id _ _ _ (form_keys_ids _ _ Hkeys) Hin)
    as (before & r & after & -> & Hpre & Hr & _ & Hr').
  destruct (id_is_dict _ _ _ Hr) as [d ->].
  rewrite mapM_Some in Hkeys.
  apply Forall2_app_inv_l in Hkeys as (k1 & k2 & H1 & H2 & ->).
  inversion H2 as [|? k ? k3 Hk H3]; subst.
  set (pair := (ParticipationForm.user_id updated_form,
                ParticipationForm.project_id updated_form)).
  eexists _, _, _, (k1 ++ (form_id, pair) :: k3).
  split.
  { unfold update_form.
    by apply (update_scan_run (id_is form_id) FORMS_DB_FILE ["id"]
                (ParticipationForm.dict updated_form) fs before d after). }
  split; [by apply form_key_updated|].
  split; [apply stored_save|].
  split; [apply elem_of_app; right; left|].
  split.
  { rewrite mapM_Some. apply Forall2_app; [done|].
    constructor; [by apply form_key_updated | done]. }
  intros (other & Hne & Hother) Hnd.
  rewrite fmap_app, fmap_cons in Hnd. simpl in Hnd.
  apply NoDup_app in Hnd as (_ & Hdisj & Hnd).
  apply NoDup_cons in Hnd as [Hnotin _].
  assert (k.1 = form_id) as Hk1.
  { unfold form_key in Hk. rewrite Hr' in Hk.
    destruct (int_field "user_id" (JDict d)) as [u|],
             (int_field "project_id" (JDict d)) as [p|];
      simpl in Hk; try discriminate.
    injection Hk as <-. reflexivity. }
  apply elem_of_app in Hother as [Ho|Ho].
  - apply (Hdisj pair); [|left].
    apply list_elem_of_fmap. by exists (other, pair).
  - apply elem_of_cons in Ho as [Ho|Ho].
    + subst k. simpl in Hk1. by apply Hne.
    + apply Hnotin. apply list_elem_of_fmap. by exists (other, pair).
Qed.

Lemma update_form_can_duplicate_witness :
  stored FORMS_DB_FILE two_forms [stored_form_5_1; stored_form_7_1]
  ∧ mapM form_key [stored_form_5_1; stored_form_7_1]
    = Some [(1, (5, 1)); (2, (7, 1))]
  ∧ 2 ∈ [(1, (5, 1)); (2, (7, 1))].*1
  ∧ (1 ≠ 2 ∧ (1, (5, 1)) ∈ [(1, (5, 1)); (2, (7, 1))])
  ∧ ∃ r fs' forms' keys',
      update_form 2 form_5_1 two_forms = (Return r, fs')
      ∧ form_key r = Some (2, (5, 1))
      ∧ stored FORMS_DB_FILE fs' forms'
      ∧ r ∈ forms'
      ∧ mapM form_key forms' = Some keys'
      ∧ ¬ NoDup keys'.*2.
Proof.
  split; [reflexivity|]. split; [reflexivity|].
  split; [right; left|]. split; [split; [discriminate | left]|].
  destruct (update_form_can_duplicate two_forms 2 form_5_1
              [stored_form_5_1; stored_form_7_1]
              [(1, (5, 1)); (2, (7, 1))] eq_refl eq_refl)
    as (r & fs' & forms' & keys' & H1 & H2 & H3 & H4 & H5 & H6);
    [right; left|].
  exists r, fs', forms', keys'. repeat (split; [assumption|]).
  apply H6. exists 1. split; [discriminate | left].
Defined.

Lemma find_user_absent users uids user_id :
  record_ids users = Some uids → user_id ∉ uids →
  find_user users user_id = JNull.
Proof.
  unfold record_ids. rewrite mapM_Some. intros H.
  induction H as [|u i users uids Hu _ IH]; intros Hout; [reflexivity|].
  apply not_elem_of_cons in Hout as [Hne Hout]. simpl.
  rewrite decide_False; [by apply IH | congruence].
Qed.

Lemma find_user_present users uids user_id :
  record_ids users = Some uids → user_id ∈ uids →
  record_id (find_user users user_id) = Some user_id
  ∧ find_user users user_id ∈ users.
Proof.
  unfold record_ids. rewrite mapM_Some. intros H.
  induction H as [|u i users uids Hu _ IH]; intros Hin.
  - by apply elem_of_nil in Hin.
  - simpl. destruct (decide (record_id u = Some user_id)) as [E|Hne].
    + split; [done | left].
    + apply elem_of_cons in Hin as [->|Hin]; [congruence|].
      destruct (IH Hin) as [H1 H2]. split; [done | by right].
Qed.

Lemma scan_users users uids form user_id seen :
  record_ids users = Some uids →
  subscript form "user_id" = Return (JInt user_id) →
  ∃ found,
    first_match (fun u =>
                   a ← subscript u "id";
                   b ← subscript form "user_id";
                   Return (py_eq a b)) seen users = Return found
    ∧ match found with
      | Some (_, u, _) => u
      | None => JNull
      end = find_user users user_id.
Proof.
  unfold record_ids. rewrite mapM_Some. intros H Hform.
  set (test := fun u : json =>
                 a ← subscript u "id";
                 b ← subscript form "user_id";
                 Return (py_eq a b)).
  revert seen. induction H as [|u i users uids Hu _ IH]; intros seen.
  - by exists None.
  - assert (test u = Return (i =? user_id)) as Htest.
    { unfold test. by rewrite (record_id_subscript _ _ Hu), Hform. }
    cbn [first_match find_user]. rewrite Htest. cbn [mbind result_bind].
    destruct (Z.eqb_spec i user_id) as [->|Hne].
    + rewrite decide_True by done. by eexists.
    + rewrite decide_False by congruence. apply IH.
Qed.

Lemma attach_user_with_user users uids form k :
  record_ids users = Some uids → form_key form = Some k →
  attach_user users form = Return (with_user users form).
Proof.
  intros Hids Hk. unfold form_key in Hk.
  destruct form as [| | | | |d]; try discriminate.
  destruct (int_field "user_id" (JDict d)) as [u|] eqn:Hu.
  2:{ destruct (record_id (JDict d)); discriminate. }
  clear Hk.
  destruct (scan_users users uids (JDict d) u [] Hids
              (int_field_subscript _ _ _ Hu)) as (found & Hscan & Hfound).
  unfold attach_user. rewrite Hscan. cbn [mbind result_bind]. rewrite Hfound.
  unfold with_user. by rewrite Hu.
Qed.

Lemma for_each_map (body : json → result json) (f : json → json) xs :
  Forall (fun x => body x = Return (f x)) xs →
  for_each body xs = Return (f <$> xs).
Proof.
  induction 1 as [|x xs Hx _ IH]; [reflexivity|].
  simpl. rewrite Hx. simpl. rewrite IH. reflexivity.
Qed.

Lemma get_forms_body fs forms users keys uids :
  stored FORMS_DB_FILE fs forms → stored USERS_DB_FILE fs users →
  mapM form_key forms = Some keys → record_ids users = Some uids →
  get_forms fs = (Return (with_user users <$> forms), fs).
Proof.
  intros Hforms Husers Hkeys Hids.
  unfold get_forms, bind. rewrite Hforms, Husers. unfold lift.
  rewrite (for_each_map (attach_user users) (with_user users)); [done|].
  rewrite mapM_Some in Hkeys. eapply Forall2_Forall_l; [exact Hkeys|].
  apply Forall_true. intros k form Hk.
  by apply (attach_user_with_user users uids form k).
Qed.

(** The model does not see the key that the bodies attach. *)
Lemma form_model_with_user users form :
  form_model (with_user users form) = form_model form.
Proof.
  unfold with_user. destruct form as [| | | | |d]; try reflexivity.
  destruct (int_field "user_id" (JDict d)); [|reflexivity].
  unfold form_model. by rewrite !lookup_insert_ne.
Qed.

Lemma form_models_with_user users forms :
  mapM form_model (with_user users <$> forms) = mapM form_model forms.
Proof.
  induction forms as [|form forms IH]; [reflexivity|].
  rewrite fmap_cons. cbn [mapM]. by rewrite form_model_with_user, IH.
Qed.

(** The model of a form with an integer id: the six fields as stored, and
    no other key. *)
Lemma form_model_fields (d model : gmap string json) i :
  form_model (JDict d) = Some model → d !! "id" = Some (JInt i) →
  ∀ k, model !! k = if decide (k ∈ form_field_names) then d !! k else None.
Proof.
  unfold form_model. intros Hmodel Hid. rewrite Hid in Hmodel.
  destruct (d !! "user_id") as [[]|] eqn:Hu; try discriminate.
  destruct (d !! "project_id") as [[]|] eqn:Hp; try discriminate.
  destruct (d !! "motivation") as [[]|] eqn:Hm; try discriminate.
  destruct (d !! "experience") as [[]|] eqn:He; try discriminate.
  destruct (d !! "availability") as [[]|] eqn:Ha; try discriminate.
  injection Hmodel as <-. intros k. unfold form_field_names.
  destruct (decide (k = "id")) as [->|Hk1].
  { rewrite lookup_insert_eq, decide_True; [done | left]. }
  rewrite lookup_insert_ne by done.
  destruct (decide (k = "user_id")) as [->|Hk2].
  { rewrite lookup_insert_eq, decide_True; [done | right; left]. }
  rewrite lookup_insert_ne by done.
  destruct (decide (k = "project_id")) as [->|Hk3].
  { rewrite lookup_insert_eq, decide_True; [done | do 2 right; left]. }
  rewrite lookup_insert_ne by done.
  destruct (decide (k = "motivation")) as [->|Hk4].
  { rewrite lookup_insert_eq, decide_True; [done | do 3 right; left]. }
  rewrite lookup_insert_ne by done.
  destruct (decide (k = "experience")) as [->|Hk5].
  { rewrite lookup_insert_eq, decide_True; [done | do 4 right; left]. }
  rewrite lookup_insert_ne by done.
  destruct (decide (k = "availability")) as [->|Hk6].
  { rewrite lookup_insert_eq, decide_True; [done | do 5 right; left]. }
  rewrite lookup_insert_ne by done. rewrite lookup_empty.
  rewrite decide_False; [done|].
  rewrite !elem_of_cons, elem_of_nil.
  intros H; repeat destruct H as [H|H]; done.
Qed.

Lemma form_key_has_id (d : gmap string json) k :
  form_key (JDict d) = Some k → d !! "id" = Some (JInt k.1).
Proof.
  unfold form_key, record_id, int_field.
  destruct (d !! "id") as [[]|]; try discriminate. simpl.
  destruct (d !! "user_id") as [[]|]; try discriminate. simpl.
  destruct (d !! "project_id") as [[]|]; try discriminate. simpl.
  by intros [= <-].
Qed.

(** X22.  Listing forms.  On forms that have the six fields of
    [ParticipationForm] with values of the declared types, ids being
    integers, and users with integer ids: the body of [get_forms] attaches
    to every form, under ["user"], the first stored user whose id is the
    form's user, or [None]; the route, declared with
    [response_model=List[ParticipationForm]], hands out the forms in
    their stored order with the six fields as stored and no other key, so
    the attached user is not in what is handed out.  Nothing is
    written. *)
Theorem get_forms_hands_out_model_fields
    (other_listing : list json → result (list json)) (fs : filesystem)
    (forms users : list json) (keys : list (Z * (Z * Z)))
    (models : list (gmap string json)) (uids : list Z) :
  stored FORMS_DB_FILE fs forms → stored USERS_DB_FILE fs users →
  mapM form_key forms = Some keys → mapM form_model forms = Some models →
  record_ids users = Some uids →
  get_forms fs = (Return (with_user users <$> forms), fs)
  ∧ get_forms_response other_listing fs = (Return (JDict <$> models), fs)
  ∧ Forall2 (fun form model =>
               ∃ d, form = JDict d
                    ∧ model !! "user" = None
                    ∧ ∀ k, model !! k
                           = if decide (k ∈ form_field_names) then d !! k
                             else None)
            forms models.
Proof.
  intros Hforms Husers Hkeys Hmodels Hids.
  pose proof (get_forms_body _ _ _ _ _ Hforms Husers Hkeys Hids) as Hbody.
  split; [exact Hbody|]. split.
  - unfold get_forms_response, bind. rewrite Hbody. unfold lift, forms_response.
    by rewrite form_models_with_user, Hmodels.
  - apply mapM_Some in Hkeys. apply mapM_Some in Hmodels. clear Hbody Hforms.
    revert models Hmodels.
    induction Hkeys as [|form k forms keys Hk _ IH]; intros models Hmodels.
    + inversion Hmodels. constructor.
    + inversion Hmodels as [|? model ? models' Hmodel Hrest]; subst.
      constructor; [|by apply IH].
      destruct form as [| | | | |d]; try discriminate.
      exists d. split; [done|].
      pose proof (form_model_fields d model k.1 Hmodel
                    (form_key_has_id d k Hk)) as Hfields.
      split; [|exact Hfields].
      rewrite Hfields. rewrite decide_False; [done|].
      unfold form_field_names. rewrite !elem_of_cons, elem_of_nil.
      intros H; repeat destruct H as [H|H]; done.
Qed.

Lemma form_models_sample :
  mapM form_model [stored_form_5_1; stored_form_7_1]
  = Some [form_fields_5_1; form_fields_7_1].
Proof.
  vm_cast_no_check (eq_refl (Some [form_fields_5_1; form_fields_7_1])).
Qed.

Lemma get_forms_hands_out_model_fields_witness :
  stored FORMS_DB_FILE forms_and_users [stored_form_5_1; stored_form_7_1]
  ∧ stored USERS_DB_FILE forms_and_users [stored_user_5]
  ∧ mapM form_key [stored_form_5_1; stored_form_7_1]
    = Some [(1, (5, 1)); (2, (7, 1))]
  ∧ mapM form_model [stored_form_5_1; stored_form_7_1]
    = Some [form_fields_5_1; form_fields_7_1]
  ∧ record_ids [stored_user_5] = Some [5]
  ∧ subscript (with_user [stored_user_5] stored_form_5_1) "user"
    = Return stored_user_5
  ∧ get_forms forms_and_users
    = (Return (with_user [stored_user_5]
                 <$> [stored_form_5_1; stored_form_7_1]), forms_and_users)
  ∧ get_forms_response (fun _ => Return []) forms_and_users
    = (Return (JDict <$> [form_fields_5_1; form_fields_7_1]), forms_and_users)
  ∧ form_fields_5_1 !! "user" = None.
Proof.
  pose proof form_models_sample as Hmodels.
  destruct (get_forms_hands_out_model_fields (fun _ => Return [])
              forms_and_users [stored_form_5_1; stored_form_7_1]
              [stored_user_5] [(1, (5, 1)); (2, (7, 1))]
              [form_fields_5_1; form_fields_7_1] [5]
              eq_refl eq_refl eq_refl Hmodels eq_refl) as (Hbody & Hroute & _).
  split; [reflexivity|]. split; [reflexivity|]. split; [reflexivity|].
  split; [exact Hmodels|]. split; [reflexivity|]. split; [reflexivity|].
  split; [exact Hbody|]. split; [exact Hroute | reflexivity].
Defined.

(** X23.  Reading one form.  On forms that have the six fields of
    [ParticipationForm] with values of the declared types, ids being
    integers, and users with integer ids: for an id in use the body of
    [get_form] returns the first stored form with the id, with the user it
    names, or [None], attached under ["user"], and the route, declared
    with [response_model=ParticipationForm], hands out that form's six
    fields as stored and no other key, so without the user; for an id
    that is not in use both raise the HTTP error 404 "Form not found".
    Nothing is written. *)
Theorem get_form_hands_out_model_fields
    (other_response : json → result json) (fs : filesystem) (form_id : Z)
    (forms users : list json) (keys : list (Z * (Z * Z)))
    (models : list (gmap string json)) (uids : list Z) :
  stored FORMS_DB_FILE fs forms → stored USERS_DB_FILE fs users →
  mapM form_key forms = Some keys → mapM form_model forms = Some models →
  record_ids users = Some uids →
  (form_id ∈ keys.*1 →
   ∃ before d after model,
     forms = before ++ JDict d :: after
     ∧ Forall (fun x => record_id x ≠ Some form_id) before
     ∧ record_id (JDict d) = Some form_id
     ∧ get_form form_id fs = (Return (with_user users (JDict d)), fs)
     ∧ get_form_response other_response form_id fs = (Return (JDict model), fs)
     ∧ model !! "user" = None
     ∧ ∀ k, model !! k
            = if decide (k ∈ form_field_names) then d !! k else None)
  ∧ (form_id ∉ keys.*1 →
     get_form form_id fs = (Raise (not_found "Form not found"), fs)
     ∧ get_form_response other_response form_id fs
       = (Raise (not_found "Form not found"), fs)).
Proof.
  intros Hforms Husers Hkeys Hmodels Hids.
  pose proof (form_keys_ids _ _ Hkeys) as Hfids. split.
  - intros Hin.
    destruct (first_with_id _ _ _ Hfids Hin)
      as (before & form & after & -> & Hpre & Hr & Hpre' & Hr').
    destruct (id_is_dict _ _ _ Hr) as [d ->].
    apply mapM_Some in Hkeys. apply mapM_Some in Hmodels.
    apply Forall2_app_inv_l in Hkeys as (k1 & k2 & _ & H2 & _).
    inversion H2 as [|? k ? k3 Hk _]; subst.
    apply Forall2_app_inv_l in Hmodels as (m1 & m2 & _ & H2' & _).
    inversion H2' as [|? model ? m3 Hmodel _]; subst.
    assert (get_form form_id fs = (Return (with_user users (JDict d)), fs))
      as Hbody.
    { unfold get_form, bind. rewrite Hforms, Husers. unfold lift.
      rewrite (first_match_some _ [] before (JDict d) after Hpre Hr).
      by rewrite (attach_user_with_user users uids (JDict d) k Hids Hk). }
    pose proof (form_model_fields d model k.1 Hmodel (form_key_has_id d k Hk))
      as Hfields.
    exists before, d, after, model.
    split; [done|]. split; [done|]. split; [done|]. split; [exact Hbody|].
    split; [|split; [|exact Hfields]].
    + unfold get_form_response, bind. rewrite Hbody.
      unfold lift, form_response. by rewrite form_model_with_user, Hmodel.
    + rewrite Hfields. rewrite decide_False; [done|].
      unfold form_field_names. rewrite !elem_of_cons, elem_of_nil.
      intros H; repeat destruct H as [H|H]; done.
  - intros Hout.
    assert (get_form form_id fs = (Raise (not_found "Form not found"), fs))
      as Hbody.
    { unfold get_form, bind. rewrite Hforms, Husers. unfold lift.
      rewrite first_match_none; [reflexivity|].
      by apply (no_record_with_id _ keys.*1). }
    split; [exact Hbody|]. unfold get_form_response, bind. by rewrite Hbody.
Qed.

Lemma get_form_hands_out_model_fields_witness :
  stored FORMS_DB_FILE forms_and_users [stored_form_5_1; stored_form_7_1]
  ∧ stored USERS_DB_FILE forms_and_users [stored_user_5]
  ∧ mapM form_key [stored_form_5_1; stored_form_7_1]
    = Some [(1, (5, 1)); (2, (7, 1))]
  ∧ mapM form_model [stored_form_5_1; stored_form_7_1]
    = Some [form_fields_5_1; form_fields_7_1]
  ∧ record_ids [stored_user_5] = Some [5]
  ∧ (1 ∈ [(1, (5, 1)); (2, (7, 1))].*1
     ∧ ∃ before d after model,
         [stored_form_5_1; stored_form_7_1] = before ++ JDict d :: after
         ∧ Forall (fun x => record_id x ≠ Some 1) before
         ∧ record_id (JDict d) = Some 1
         ∧ get_form 1 forms_and_users
           = (Return (with_user [stored_user_5] (JDict d)), forms_and_users)
         ∧ get_form_response (fun _ => Return JNull) 1 forms_and_users
           = (Return (JDict model), forms_and_users)
         ∧ model !! "user" = None
         ∧ ∀ k, model !! k
                = if decide (k ∈ form_field_names) then d !! k else None)
  ∧ ((3 ∉ [(1, (5, 1)); (2, (7, 1))].*1)
     ∧ get_form 3 forms_and_users
       = (Raise (not_found "Form not found"), forms_and_users)
     ∧ get_form_response (fun _ => Return JNull) 3 forms_and_users
       = (Raise (not_found "Form not found"), forms_and_users)).
Proof.
  pose proof form_models_sample as Hmodels.
  assert (3 ∉ [(1, (5, 1)); (2, (7, 1))].*1) as H3.
  { simpl. intros H. apply elem_of_cons in H as [H|H]; [discriminate H|].
    apply list_elem_of_singleton in H. discriminate H. }
  destruct (get_form_hands_out_model_fields (fun _ => Return JNull)
              forms_and_users 1 [stored_form_5_1; stored_form_7_1]
              [stored_user_5] [(1, (5, 1)); (2, (7, 1))]
              [form_fields_5_1; form_fields_7_1] [5]
              eq_refl eq_refl eq_refl Hmodels eq_refl) as [Hin _].
  destruct (get_form_hands_out_model_fields (fun _ => Return JNull)
              forms_and_users 3 [stored_form_5_1; stored_form_7_1]
              [stored_user_5] [(1, (5, 1)); (2, (7, 1))]
              [form_fields_5_1; form_fields_7_1] [5]
              eq_refl eq_refl eq_refl Hmodels eq_refl) as [_ Hout].
  split; [reflexivity|]. split; [reflexivity|]. split; [reflexivity|].
  split; [exact Hmodels|]. split; [reflexivity|]. split.
  - split; [left|]. apply Hin. left.
  - split; [exact H3 | exact (Hout H3)].
Defined.

(* ===================================================================== *)
(** * Chat: a channel's frames *)
(* ===================================================================== *)

Section frames.
Import ConnectionManager.

Lemma texts_for_cons (registry : gmap Z websocket) ws r text msgs :
  texts_for registry ws ((r, text) :: msgs)
  = match registry !! r with
    | Some ws' =>
        if decide (ws' = ws) then text :: texts_for registry ws msgs
        else texts_for registry ws msgs
    | None => texts_for registry ws msgs
    end.
Proof.
  unfold texts_for. cbn [omap list_omap fst snd].
  destruct (registry !! r) as [ws'|]; [|reflexivity].
  by destruct (decide (ws' = ws)).
Qed.

Lemma receive_loop_frames user_id msgs m :
  ∃ m',
    receive_loop user_id (frames msgs) m = (Return tt, m')
    ∧ active_connections m' = active_connections m
    ∧ ∀ ws, delivered ws (emitted m')
            = delivered ws (emitted m) ++ texts_for (active_connections m) ws msgs.
Proof.
  revert m. induction msgs as [|[r text] msgs IH]; intros m.
  - exists m. split; [reflexivity|]. split; [reflexivity|].
    intros ws. by rewrite app_nil_r.
  - change (frames ((r, text) :: msgs)) with (Message r text :: frames msgs).
    cbn [receive_loop]. unfold bind at 1.
    destruct (active_connections m !! r) as [ws0|] eqn:Hr.
    + destruct (send_message_delivers user_id r text m ws0 Hr)
        as (m1 & -> & Hreg & Hdel).
      destruct (IH m1) as (m' & Hrun & Hreg' & Hdel').
      exists m'. split; [exact Hrun|]. split; [congruence|].
      intros ws. rewrite Hdel', Hdel, Hreg, <- app_assoc. f_equal.
      rewrite texts_for_cons, Hr.
      by destruct (decide (ws = ws0)), (decide (ws0 = ws)).
    + rewrite (send_message_absent _ _ _ _ Hr).
      destruct (IH m) as (m' & Hrun & Hreg' & Hdel').
      exists m'. split; [exact Hrun|]. split; [done|].
      intros ws. rewrite Hdel'. f_equal. by rewrite texts_for_cons, Hr.
Qed.

Lemma receive_loop_then user_id msgs rest m m' :
  receive_loop user_id (frames msgs) m = (Return tt, m') →
  receive_loop user_id (frames msgs ++ rest) m = receive_loop user_id rest m'.
Proof.
  revert m. induction msgs as [|[r text] msgs IH]; intros m.
  - by intros [= ->].
  - change (frames ((r, text) :: msgs)) with (Message r text :: frames msgs).
    cbn [receive_loop app]. unfold bind.
    destruct (send_message user_id r text m) as [[[]|e] m1]; [|discriminate].
    apply IH.
Qed.
End frames.

(** X24.  Frames are routed in arrival order.  An endpoint that reads
    frames, each naming a receiver and a message, returns to waiting;
    the registry is what it was, and every channel has been sent, after
    what it had been sent before, exactly the messages whose receiver is
    registered on it, in the order of the frames.  Messages to receivers
    that are not registered are dropped and stop nothing. *)
Theorem serve_routes_in_order (m : ConnectionManager.t) (user_id : Z)
    (msgs : list (Z * string)) :
  ∃ m',
    serve user_id (frames msgs) m = (Return Waiting, m')
    ∧ ConnectionManager.active_connections m'
      = ConnectionManager.active_connections m
    ∧ ∀ ws, delivered ws (ConnectionManager.emitted m')
            = delivered ws (ConnectionManager.emitted m)
              ++ texts_for (ConnectionManager.active_connections m) ws msgs.
Proof.
  destruct (receive_loop_frames user_id msgs m) as (m' & Hrun & Hreg & Hdel).
  exists m'. split; [|by split].
  unfold serve, try_except, bind. by rewrite Hrun.
Qed.

(** X25.  A frame that cannot be handled leaves the entry behind.  When,
    after any number of well-formed frames, reading a frame raises an
    exception other than [WebSocketDisconnect], the endpoint ends with
    that exception without calling [disconnect]: the registry still maps
    the user to the channel of the ended endpoint, so later messages to
    the user are written to that channel. *)
Theorem failed_frame_keeps_entry (m : ConnectionManager.t) (ws : websocket)
    (user_id : Z) (msgs : list (Z * string)) (e : exn) (rest : list received) :
  e ≠ WebSocketDisconnect →
  ∃ m',
    websocket_endpoint ws user_id (frames msgs ++ Malformed e :: rest) m
    = (Raise e, m')
    ∧ ConnectionManager.active_connections m'
      = <[user_id := ws]> (ConnectionManager.active_connections m)
    ∧ ∀ sender_id text, ∃ m'',
        ConnectionManager.send_message sender_id user_id text m'
        = (Return tt, m'')
        ∧ delivered ws (ConnectionManager.emitted m'')
          = delivered ws (ConnectionManager.emitted m') ++ [text].
Proof.
  intros He. unfold websocket_endpoint. unfold bind at 1.
  rewrite connect_run.
  match goal with
  | |- context [serve _ _ ?m1] =>
      destruct (receive_loop_frames user_id msgs m1) as (m' & Hrun & Hreg & _)
  end.
  exists m'. split; [|split].
  - unfold serve, try_except, bind.
    rewrite (receive_loop_then _ _ _ _ _ Hrun). simpl.
    by destruct e.
  - exact Hreg.
  - intros sender_id text.
    destruct (send_message_delivers sender_id user_id text m' ws)
      as (m'' & Hsend & _ & Hdel).
    { rewrite Hreg. simpl. apply lookup_insert_eq. }
    exists m''. split; [exact Hsend|]. rewrite Hdel. by rewrite decide_True.
Qed.

Lemma failed_frame_keeps_entry_witness :
  KeyError "message" ≠ WebSocketDisconnect
  ∧ ∃ m',
      websocket_endpoint 1 5
        (frames [(7, "hi")] ++ Malformed (KeyError "message") :: [])
        ConnectionManager.init
      = (Raise (KeyError "message"), m')
      ∧ ConnectionManager.active_connections m'
        = <[5 := 1%positive]>
            (ConnectionManager.active_connections ConnectionManager.init)
      ∧ ∀ sender_id text, ∃ m'',
          ConnectionManager.send_message sender_id 5 text m' = (Return tt, m'')
          ∧ delivered 1 (ConnectionManager.emitted m'')
            = delivered 1 (ConnectionManager.emitted m') ++ [text].
Proof.
  split; [discriminate|].
  apply (failed_frame_keeps_entry ConnectionManager.init 1 5 [(7, "hi")]
           (KeyError "message") []).
  discriminate.
Defined.

(** X26.  A session that ends by disconnect cleans up after itself.  An
    endpoint that connects, reads any number of well-formed frames and
    then loses its peer returns, and the registry afterwards is the one
    from before the session without an entry for the user: equal to the
    registry from before when the user was not registered then, and
    short of the user's earlier channel when there was one. *)
Theorem session_end_removes_entry (m : ConnectionManager.t) (ws : websocket)
    (user_id : Z) (msgs : list (Z * string)) (rest : list received) :
  ∃ m',
    websocket_endpoint ws user_id (frames msgs ++ Disconnected :: rest) m
    = (Return Finished, m')
    ∧ ConnectionManager.active_connections m'
      = delete user_id (ConnectionManager.active_connections m)
    ∧ (ConnectionManager.active_connections m !! user_id = None →
       ConnectionManager.active_connections m'
       = ConnectionManager.active_connections m).
Proof.
  unfold websocket_endpoint. unfold bind at 1. rewrite connect_run.
  match goal with
  | |- context [serve _ _ ?m1] =>
      destruct (receive_loop_frames user_id msgs m1) as (m1' & Hrun & Hreg & _)
  end.
  simpl in Hreg.
  assert (ConnectionManager.active_connections m1' !! user_id = Some ws) as Hu.
  { rewrite Hreg. apply lookup_insert_eq. }
  eexists. split; [|split].
  - unfold serve, try_except, bind.
    rewrite (receive_loop_then _ _ _ _ _ Hrun). simpl. unfold bind.
    by rewrite (disconnect_present _ _ _ Hu).
  - simpl. rewrite Hreg. apply delete_insert_eq.
  - intros Hnone. simpl. rewrite Hreg, delete_insert_eq. by apply delete_id.
Qed.

Lemma session_end_removes_entry_witness :
  ConnectionManager.active_connections two_users !! 9 = None
  ∧ ∃ m',
      websocket_endpoint 3 9 (frames [(7, "hi"); (5, "yo")] ++ Disconnected :: [])
        two_users = (Return Finished, m')
      ∧ ConnectionManager.active_connections m'
        = ConnectionManager.active_connections two_users.
Proof.
  split; [reflexivity|].
  destruct (session_end_removes_entry two_users 3 9 [(7, "hi"); (5, "yo")] [])
    as (m' & Hrun & _ & Hsame).
  exists m'. split; [exact Hrun|]. apply Hsame. reflexivity.
Defined.
